(** * Passkey device signing: blob codec, response sanitizer, ceremony adapter

    A shallow embedding of [device-signing/passkeyDevice.ts] and
    [device-signing/utils/passkeyUtils.ts].

    Conventions of the embedding.
    - A JavaScript string is modelled by the bytes of its UTF-8 encoding
      (Rocq's [string]).  The delimiter ['.'] and the ASCII letters are single
      bytes that never occur inside a multi-byte sequence, so splitting and
      comparing are the same on both sides.
    - A [Buffer] / [ArrayBuffer] is a list of bytes.
    - A function that may [throw] returns a [completion]; a function that
      logs to the console returns the logged lines next to its completion; a
      function that mutates an object takes and returns the object store.
    - Imported modules whose code is not part of the package ([bip39],
      [bip32], [encodingUtils], the coin table, [navigator.credentials]) are
      interfaces (type classes); what is assumed of them is stated as a
      separate law class. *)

From Stdlib Require Import NArith ZArith Lia Ascii String List.
From Stdlib.Strings Require Import Byte.
From stdpp Require Import base option list strings gmap pretty.

Set Default Proof Using "Type".
Local Open Scope N_scope.

(** ** JavaScript values and completions *)

Module Js.

(** [PasskeyErrorCodes] of passkeyUtils.ts. *)
Inductive PasskeyErrorCodes : Set :=
| INVALID_BROWSER
| INVALID_DEVICE
| INVALID_SUBMISSION
| INCORRECT_STATE
| ALREADY_REGISTERED
| DUPLICATE
| FAILED_READ
| FAILED_WRITE
| USER_EXITED
| UNAUTHORIZED
| NOT_ALLOWED
| UNABLE_TO_CONNECT
| UNKNOWN.

(** The string value of each member of the enum. *)
Definition code_string (c : PasskeyErrorCodes) : string :=
  match c with
  | INVALID_BROWSER => "INVALID_BROWSER"
  | INVALID_DEVICE => "INVALID_DEVICE"
  | INVALID_SUBMISSION => "INVALID_SUBMISSION"
  | INCORRECT_STATE => "INCORRECT_STATE"
  | ALREADY_REGISTERED => "ALREADY_REGISTERED"
  | DUPLICATE => "DUPLICATE"
  | FAILED_READ => "UNABLE_TO_READ"
  | FAILED_WRITE => "UNABLE_TO_WRITE"
  | USER_EXITED => "USER_EXITED"
  | UNAUTHORIZED => "UNAUTHORIZED"
  | NOT_ALLOWED => "NOT_ALLOWED"
  | UNABLE_TO_CONNECT => "UNABLE_TO_CONNECT"
  | UNKNOWN => "UNKNOWN"
  end.

(** What can be thrown.  [Error msg] is a plain [new Error(msg)], which has
    no [code]; [PasskeyError msg code] is the class of passkeyUtils.ts (its
    optional [data] is never set by the functions embedded here);
    [AssertionError] is what node's [assert] throws; [TypeError] and
    [DOMException] come from the runtime and the browser. *)
Inductive exn : Type :=
| Error (message : string)
| PasskeyError (message : string) (code : PasskeyErrorCodes)
| AssertionError (message : string)
| TypeError (message : string)
| DOMException (name : string).

Inductive completion (A : Type) : Type :=
| Return (a : A)
| Throw (e : exn).
Arguments Return {A} a.
Arguments Throw {A} e.

Definition bind {A B} (c : completion A) (k : A -> completion B) : completion B :=
  match c with
  | Return a => k a
  | Throw e => Throw e
  end.

(** The [code] property of a thrown value, when it has one. *)
Definition code_of (e : exn) : option PasskeyErrorCodes :=
  match e with
  | PasskeyError _ c => Some c
  | _ => None
  end.

Definition thrown_code {A} (c : completion A) : option PasskeyErrorCodes :=
  match c with
  | Return _ => None
  | Throw e => code_of e
  end.

(** The returned value, when there is one. *)
Definition returned {A} (c : completion A) : option A :=
  match c with
  | Return a => Some a
  | Throw _ => None
  end.

(** A property or variable that may hold [undefined], [null] or a value. *)
Inductive nullable (A : Type) : Type :=
| undefined
| null
| value (a : A).
Arguments undefined {A}.
Arguments null {A}.
Arguments value {A} a.

(** [x == null] *)
Definition is_nullish {A} (x : nullable A) : bool :=
  match x with
  | value _ => false
  | _ => true
  end.

End Js.
Import Js.

Declare Scope js_scope.
Delimit Scope js_scope with js.
Notation "x <- c ;; k" := (Js.bind c (fun x => k))
  (at level 100, c at next level, right associativity) : js_scope.

Definition Buffer : Type := list byte.

(** ** Strings *)

(** [s.includes(c)] for a one-character [c]. *)
Fixpoint contains (c : ascii) (s : string) : bool :=
  match s with
  | EmptyString => false
  | String x s' => if Ascii.eqb x c then true else contains c s'
  end.

(** [s.split(sep)] for a one-character separator: the list of the segments
    between the occurrences of [sep]; it is never empty. *)
Fixpoint split (sep : ascii) (s : string) : list string :=
  match s with
  | EmptyString => [EmptyString]
  | String x s' =>
      if Ascii.eqb x sep then EmptyString :: split sep s'
      else match split sep s' with
           | [] => [String x EmptyString]
           | seg :: segs => String x seg :: segs
           end
  end.

(** [toUpperCase] on the ASCII letters; every other byte is kept. *)
Definition upper_ascii (c : ascii) : ascii :=
  let n := N_of_ascii c in
  if (97 <=? n) && (n <=? 122) then ascii_of_N (n - 32) else c.

Fixpoint toUpperCase (s : string) : string :=
  match s with
  | EmptyString => EmptyString
  | String c s' => String (upper_ascii c) (toUpperCase s')
  end.

(** ** Base64 (RFC 4648, standard alphabet, padded) *)

Module Base64.

Definition alphabet : list ascii :=
  list_ascii_of_string
    "ABCDEFGHIJKLMNOPQRSTUVWXYZabcdefghijklmnopqrstuvwxyz0123456789+/".

Definition pad : ascii := "="%char.

Definition digit (n : N) : ascii := nth (N.to_nat n) alphabet pad.

Fixpoint index_of (c : ascii) (l : list ascii) : option N :=
  match l with
  | [] => None
  | x :: l' => if Ascii.eqb x c then Some 0 else N.succ <$> index_of c l'
  end.

Definition sextet (c : ascii) : option N := index_of c alphabet.

Fixpoint encode (bs : Buffer) : string :=
  match bs with
  | [] => EmptyString
  | [x] =>
      let a := Byte.to_N x in
      String (digit (a / 4)) (String (digit (a mod 4 * 16))
        (String pad (String pad EmptyString)))
  | [x; y] =>
      let a := Byte.to_N x in
      let b := Byte.to_N y in
      String (digit (a / 4)) (String (digit (a mod 4 * 16 + b / 16))
        (String (digit (b mod 16 * 4)) (String pad EmptyString)))
  | x :: y :: z :: rest =>
      let a := Byte.to_N x in
      let b := Byte.to_N y in
      let c := Byte.to_N z in
      String (digit (a / 4)) (String (digit (a mod 4 * 16 + b / 16))
        (String (digit (b mod 16 * 4 + c / 64)) (String (digit (c mod 64))
          (encode rest))))
  end.

(** The strict decoder: the input is a sequence of groups of four
    characters, only the last of which may be padded. *)
Fixpoint decode (s : string) : option Buffer :=
  match s with
  | EmptyString => Some []
  | String c1 (String c2 (String c3 (String c4 rest))) =>
      if Ascii.eqb c3 pad && Ascii.eqb c4 pad && String.eqb rest EmptyString then
        v1 ← sextet c1; v2 ← sextet c2;
        x ← Byte.of_N (v1 * 4 + v2 / 16);
        Some [x]
      else if Ascii.eqb c4 pad && String.eqb rest EmptyString then
        v1 ← sextet c1; v2 ← sextet c2; v3 ← sextet c3;
        x ← Byte.of_N (v1 * 4 + v2 / 16);
        y ← Byte.of_N (v2 mod 16 * 16 + v3 / 4);
        Some [x; y]
      else
        v1 ← sextet c1; v2 ← sextet c2; v3 ← sextet c3; v4 ← sextet c4;
        x ← Byte.of_N (v1 * 4 + v2 / 16);
        y ← Byte.of_N (v2 mod 16 * 16 + v3 / 4);
        z ← Byte.of_N (v3 mod 4 * 64 + v4);
        tl ← decode rest;
        Some (x :: y :: z :: tl)
  | _ => None
  end.

(** The values of the digits, and what is checked of each digit: it decodes
    to its value and is neither the padding nor the character ['.']. *)
Definition sextets : list N := N.of_nat <$> seq 0 64.

Definition digit_ok (n : N) : bool :=
  bool_decide (sextet (digit n) = Some n)
  && negb (Ascii.eqb (digit n) pad)
  && negb (Ascii.eqb (digit n) "."%char).

End Base64.

(** ** Interfaces of the imported modules *)

(** [bip39], the validator: word count, word list and checksum. *)
Class Bip39 := {
  validateMnemonic : string -> bool;
}.

(** [bip39], generation and key stretching.  [generateMnemonic] is a
    function of the entropy it draws from the CSPRNG of the environment. *)
Class Bip39Seed := {
  generateMnemonic : Buffer -> string;
  mnemonicToSeedSync : string -> Buffer;
}.

(** [@casa/common/src/lib/encodingUtils], the functions used below. *)
Class EncodingUtils := {
  utf8ToBase64 : string -> string;
  base64ToUtf8 : string -> completion string;
  arrayBufferToPlaintext : Buffer -> string;
  arrayBufferToBase64String : Buffer -> string;
  base64ToBase64url : string -> string;
}.

(** [bip32] over [tiny-secp256k1]: hierarchical deterministic key nodes. *)
Class Bip32 := {
  BIP32Interface : Type;
  fromSeed : Buffer -> BIP32Interface;
  derivePath : BIP32Interface -> string -> completion BIP32Interface;
  neutered : BIP32Interface -> BIP32Interface;
  toBase58 : BIP32Interface -> string;
}.

(** [COIN] of [./types/coin]: the tag of each supported coin. *)
Class CoinTable := {
  COIN_btc : string;
  COIN_tbtc : string;
  COIN_eth : string;
  COIN_teth : string;
  COIN_ethC : string;
  COIN_tethC : string;
}.

(** ** Data model *)

Definition loc : Type := positive.

Record PrfResults := { first : nullable Buffer }.
Record PrfOutput := { results : nullable PrfResults }.
Record LargeBlobOutput := { blob : nullable Buffer; written : nullable bool }.

(** What a key of the extension-results object may hold.  The two typed
    entries follow the casts of the source
    ([prf?: { results?: { first?: Buffer } }],
     [largeBlob?: { blob?: Buffer }], [largeBlob?: { written: boolean }]);
    [ExtOther] is the output of any other extension. *)
Inductive ExtensionOutput : Type :=
| ExtUndefined
| ExtNull
| ExtPrf (o : PrfOutput)
| ExtLargeBlob (o : LargeBlobOutput)
| ExtOther (json : string).

(** An extension-results object is a map from its own keys to what they
    hold: a key holding [undefined] is in the map, an omitted key is not. *)
Abbreviation ExtensionResults := (gmap string ExtensionOutput).

(** The object store: the extension-results objects, by reference. *)
Abbreviation store := (gmap loc ExtensionResults).

(** [o.k]: an omitted key reads as [undefined]. *)
Definition get_prop (o : ExtensionResults) (k : string) : ExtensionOutput :=
  default ExtUndefined (o !! k).

(** [v?.blob] (and [v.blob] when [v] is known not to be nullish). *)
Definition blob_of (v : ExtensionOutput) : nullable Buffer :=
  match v with
  | ExtLargeBlob o => blob o
  | _ => undefined
  end.

(** [v?.written] *)
Definition written_of (v : ExtensionOutput) : nullable bool :=
  match v with
  | ExtLargeBlob o => written o
  | _ => undefined
  end.

(** [v?.results?.first] *)
Definition first_of (v : ExtensionOutput) : nullable Buffer :=
  match v with
  | ExtPrf o =>
      match results o with
      | value r => first r
      | _ => undefined
      end
  | _ => undefined
  end.

(** [v == null] and [v === undefined] on what a key holds. *)
Definition ext_is_nullish (v : ExtensionOutput) : bool :=
  match v with
  | ExtUndefined | ExtNull => true
  | _ => false
  end.

Definition ext_is_undefined (v : ExtensionOutput) : bool :=
  match v with
  | ExtUndefined => true
  | _ => false
  end.

Record AuthenticatorAssertionResponseJSON := {
  clientDataJSON : string;
  authenticatorData : string;
  signature : string;
}.

(** [AuthenticationResponseJSON]; its [clientExtensionResults] is a
    reference to an object of the store. *)
Record AuthenticationResponseJSON := {
  id : string;
  rawId : string;
  response : AuthenticatorAssertionResponseJSON;
  clientExtensionResults : loc;
  type : string;
}.

Record PasskeySupportOutputs := {
  largeBlobSupported : bool;
  hasLargeBlob : bool;
  prfSupported : bool;
  prfSalt : option string;
}.

Record SanitizedAuthenticationResponse := {
  sanitizedAuthenticationResponse : AuthenticationResponseJSON;
  largeBlob : option string;
  prf : option string;
}.

Record PublicKeyCredentialRequestOptionsJSON := {
  challenge : string;
  allowCredentials : option (list string);
}.

(** The raw assertion returned by the credential API. *)
Record AuthenticatorAssertionResponse := {
  raw_authenticatorData : Buffer;
  raw_signature : Buffer;
  raw_clientDataJSON : Buffer;
}.

Record PublicKeyCredential := {
  raw_rawId : Buffer;
  raw_response : AuthenticatorAssertionResponse;
  getClientExtensionResults : loc;
}.

(** The ceremony itself.  [get_largeBlob_write options credentialId blob] is
    passkeyUtils.ts lines 67-91 and [get_largeBlob_read options] is lines
    156-180: the challenge and the credential ids are re-encoded and
    [navigator.credentials.get] is awaited with the prompt timeout and the
    [largeBlob] extension input.  A rejected promise is a [Throw]; [None] is
    the [null] credential. *)
Class Navigator := {
  get_largeBlob_write :
    PublicKeyCredentialRequestOptionsJSON -> string -> string ->
    completion (option PublicKeyCredential);
  get_largeBlob_read :
    PublicKeyCredentialRequestOptionsJSON ->
    completion (option PublicKeyCredential);
}.

Definition PUBLIC_KEY_CREDENTIAL_TYPE : string := "public-key".
Definition PROMPT_TIMEOUT_MS : N := 60000.

(** [enum PasskeyBlobVersion] *)
Inductive PasskeyBlobVersion : Set := V1.

Definition version_tag (v : PasskeyBlobVersion) : string :=
  match v with
  | V1 => "V1"
  end.

Definition SEED_VERSION_DELIMITER : ascii := "."%char.
Definition BLOB_VERSION_CURRENT : PasskeyBlobVersion := V1.

Record DecodedSeedPhrase := {
  seedPhrase : string;
  version : option PasskeyBlobVersion;
}.

(** ** BlobCodec: [encodeSeedPhrase] and [decodeSeedPhrase] *)

Section Codec.
Context `{Bip39} `{EncodingUtils}.

Definition isValidSeedPhrase (seedPhrase : string) : bool :=
  validateMnemonic seedPhrase.

(** [blobVersion] is the value found at run time under that key:
    [undefined] takes the default [BLOB_VERSION_CURRENT]; the [switch]
    compares the value with the tag of each version. *)
Definition encodeSeedPhrase (seedPhrase : string) (blobVersion : nullable string)
  : completion string :=
  let blobVersion :=
    match blobVersion with
    | undefined => value (version_tag BLOB_VERSION_CURRENT)
    | v => v
    end in
  let isValid := isValidSeedPhrase seedPhrase in
  if negb isValid then Throw (Error "Invalid seed phrase")
  else
    match blobVersion with
    | value tag =>
        if String.eqb tag (version_tag V1) then
          let base64Seed := utf8ToBase64 seedPhrase in
          Return (base64Seed +:+ String SEED_VERSION_DELIMITER tag)
        else Throw (Error "Unsupported seed phrase version")
    | _ => Throw (Error "Unsupported seed phrase version")
    end.

Definition LF : string := String (ascii_of_N 10) EmptyString.

(** The line passed to [console.warn] on the unversioned path. *)
Definition UNVERSIONED_WARNING : string :=
  "Seed phrase is not version encoded. This device may not be able to be tracked"
  +:+ LF +:+
  "      for updates to security vulnerabilities around generation schema."
  +:+ LF +:+ "      ".

(** The result is the list of the lines written with [console.warn] and the
    completion.  [const [base64Seed, version] = s.split(delimiter)] binds the
    first two segments; [version] is [undefined] when there is only one. *)
Definition decodeSeedPhrase (encodedSeedPhrase : string)
  : list string * completion DecodedSeedPhrase :=
  if isValidSeedPhrase encodedSeedPhrase then
    ([UNVERSIONED_WARNING],
     Return {| seedPhrase := encodedSeedPhrase; version := None |})
  else
    let segments := split SEED_VERSION_DELIMITER encodedSeedPhrase in
    let base64Seed := default EmptyString (segments !! 0%nat) in
    let version := segments !! 1%nat in
    if negb (bool_decide (version = Some (version_tag V1))) then
      ([], Throw (Error "Unsupported seed phrase version"))
    else
      ([], (seedPhrase <- base64ToUtf8 base64Seed ;;
            Return {| seedPhrase := seedPhrase; version := Some V1 |})%js).

End Codec.

(** The segments as the blob wire format of the specification describes
    them: the version tag is what follows the last delimiter, the payload is
    everything before it.  [None] when there is no delimiter. *)
Fixpoint split_last (sep : ascii) (s : string) : option (string * string) :=
  match s with
  | EmptyString => None
  | String x s' =>
      match split_last sep s' with
      | Some (payload, tag) => Some (String x payload, tag)
      | None => if Ascii.eqb x sep then Some (EmptyString, s') else None
      end
  end.

(** Decoding as the specification words it: a valid mnemonic is returned
    unversioned; otherwise the blob is split on the last delimiter, an
    unknown version is rejected and the payload is transport-decoded. *)
Definition decode_on_last_delimiter `{Bip39} `{EncodingUtils} (blob : string)
  : completion DecodedSeedPhrase :=
  if validateMnemonic blob then
    Return {| seedPhrase := blob; version := None |}
  else
    match split_last SEED_VERSION_DELIMITER blob with
    | Some (payload, tag) =>
        if String.eqb tag (version_tag V1) then
          (seedPhrase <- base64ToUtf8 payload ;;
           Return {| seedPhrase := seedPhrase; version := Some V1 |})%js
        else Throw (Error "Unsupported seed phrase version")
    | None => Throw (Error "Unsupported seed phrase version")
    end.

(** ** Computations over the object store *)

Module Heap.

(** A computation reads and updates the store and completes; what it wrote
    before a [throw] stays written. *)
Definition M (A : Type) : Type := store -> completion A * store.

Definition ret {A} (a : A) : M A := fun h => (Return a, h).

Definition throw {A} (e : exn) : M A := fun h => (Throw e, h).

Definition bind {A B} (c : M A) (k : A -> M B) : M B :=
  fun h =>
    match c h with
    | (Return a, h') => k a h'
    | (Throw e, h') => (Throw e, h')
    end.

(** Dereference: the object a reference points to.  A dangling reference
    stands for a missing object, whose properties cannot be read. *)
Definition read_object (l : loc) : M ExtensionResults :=
  fun h =>
    match h !! l with
    | Some o => (Return o, h)
    | None => (Throw (TypeError "Cannot destructure property of undefined"), h)
    end.

(** [o.k = v] on the object at [l], in place. *)
Definition write_prop (l : loc) (k : string) (v : ExtensionOutput) : M unit :=
  fun h =>
    match h !! l with
    | Some o => (Return tt, <[l := <[k := v]> o]> h)
    | None => (Throw (TypeError "Cannot set properties of undefined"), h)
    end.

(** [o.k] on the object at [l]. *)
Definition read_prop (l : loc) (k : string) : M ExtensionOutput :=
  fun h =>
    match h !! l with
    | Some o => (Return (get_prop o k), h)
    | None => (Throw (TypeError "Cannot read properties of undefined"), h)
    end.

(** [assert(cond, message)] *)
Definition assert (cond : bool) (message : string) : M unit :=
  if cond then ret tt else throw (AssertionError message).

(** [if (cond) throw e] *)
Definition throw_if (cond : bool) (e : exn) : M unit :=
  if cond then throw e else ret tt.

(** A computation that does not touch the store. *)
Definition lift {A} (c : completion A) : M A := fun h => (c, h).

End Heap.

Declare Scope heap_scope.
Delimit Scope heap_scope with heap.
Notation "x <- c ;; k" := (Heap.bind c (fun x => k))
  (at level 100, c at next level, right associativity) : heap_scope.
Notation "c ;;; k" := (Heap.bind c (fun _ => k))
  (at level 100, right associativity) : heap_scope.

(** ** ResponseSanitizer: [sanitizeAuthenticationResponse] *)

Section Sanitizer.
Context `{EncodingUtils}.

(** [support?.hasLargeBlob === true] and [support?.prfSupported === true] *)
Definition claims_largeBlob (support : option PasskeySupportOutputs) : bool :=
  match support with
  | Some s => hasLargeBlob s
  | None => false
  end.

Definition claims_prf (support : option PasskeySupportOutputs) : bool :=
  match support with
  | Some s => prfSupported s
  | None => false
  end.

Definition sanitizeAuthenticationResponse
  (authenticationResponse : AuthenticationResponseJSON)
  (support : option PasskeySupportOutputs)
  : Heap.M SanitizedAuthenticationResponse :=
  (let l := clientExtensionResults authenticationResponse in
   o <- Heap.read_object l ;;
   let prf_ := get_prop o "prf" in
   let largeBlob_ := get_prop o "largeBlob" in
   (* First, validate that the extension results contain the expected data *)
   Heap.throw_if
     (claims_largeBlob support && is_nullish (blob_of largeBlob_))
     (PasskeyError
        "Failed to read large blob from large-blob-holding credential"
        FAILED_READ) ;;;
   Heap.throw_if
     (claims_prf support && is_nullish (first_of prf_))
     (PasskeyError "Failed to read PRF from PRF-holding credential"
        FAILED_WRITE) ;;;
   (* Next, remove the extension results from the authentication response *)
   Heap.write_prop l "prf" ExtUndefined ;;;
   Heap.write_prop l "largeBlob" ExtUndefined ;;;
   p <- Heap.read_prop l "prf" ;;
   Heap.assert (ext_is_undefined p)
     "clientExtensionResults PRF cannot leak to server" ;;;
   b <- Heap.read_prop l "largeBlob" ;;
   Heap.assert (ext_is_undefined b)
     "clientExtensionResults largeBlob cannot leak to server" ;;;
   (* Then, the spread copy of the response, with the same extension object *)
   let sanitized :=
     {| id := id authenticationResponse;
        rawId := rawId authenticationResponse;
        response := response authenticationResponse;
        clientExtensionResults := l;
        type := type authenticationResponse |} in
   (* Finally, encode the large blob and PRF results for client side storage;
      a Buffer is an object, hence truthy whatever its length *)
   let result_largeBlob :=
     match blob_of largeBlob_ with
     | value buf => Some (arrayBufferToPlaintext buf)
     | _ => None
     end in
   let result_prf :=
     match first_of prf_ with
     | value buf => Some (arrayBufferToBase64String buf)
     | _ => None
     end in
   Heap.ret {| sanitizedAuthenticationResponse := sanitized;
               largeBlob := result_largeBlob;
               prf := result_prf |})%heap.

End Sanitizer.

(** ** CeremonyAdapter: [writeLargeBlob] and [readLargeBlob] *)

Section Ceremony.
Context `{EncodingUtils} `{Navigator}.

(** After the ceremony (passkeyUtils.ts lines 93-143). *)
Definition writeLargeBlob
  (options : PublicKeyCredentialRequestOptionsJSON)
  (credentialId : string) (blob : string)
  : Heap.M AuthenticationResponseJSON :=
  (assertion <- Heap.lift (get_largeBlob_write options credentialId blob) ;;
   match assertion with
   | None => Heap.throw (TypeError "Cannot read properties of undefined")
   | Some assertion =>
       let l := getClientExtensionResults assertion in
       clientExtensionResults <- Heap.read_object l ;;
       let isLargeBlobWritten :=
         written_of (get_prop clientExtensionResults "largeBlob") in
       match isLargeBlobWritten with
       | value true =>
           let response := raw_response assertion in
           let base64UrlRawId := arrayBufferToBase64String (raw_rawId assertion) in
           let base64UrlId := base64ToBase64url base64UrlRawId in
           let base64urlAuthenticatorData :=
             base64ToBase64url
               (arrayBufferToBase64String (raw_authenticatorData response)) in
           let base64urlSignature :=
             base64ToBase64url
               (arrayBufferToBase64String (raw_signature response)) in
           let base64urlClientDataJSON :=
             base64ToBase64url
               (arrayBufferToBase64String (raw_clientDataJSON response)) in
           Heap.ret
             {| id := base64UrlId;
                rawId := base64UrlId;
                response :=
                  {| clientDataJSON := base64urlClientDataJSON;
                     authenticatorData := base64urlAuthenticatorData;
                     signature := base64urlSignature |};
                clientExtensionResults := l;
                type := PUBLIC_KEY_CREDENTIAL_TYPE |}
       | _ =>
           Heap.throw (PasskeyError "Large blob was not written" FAILED_WRITE)
       end
   end)%heap.

(** After the ceremony (passkeyUtils.ts lines 182-211). *)
Definition readLargeBlob (options : PublicKeyCredentialRequestOptionsJSON)
  : Heap.M string :=
  (assertion <- Heap.lift (get_largeBlob_read options) ;;
   match assertion with
   | None => Heap.throw (TypeError "Cannot read properties of null")
   | Some assertion =>
       clientExtensionResults <-
         Heap.read_object (getClientExtensionResults assertion) ;;
       let largeBlob_ := get_prop clientExtensionResults "largeBlob" in
       if ext_is_nullish largeBlob_ then
         Heap.throw (PasskeyError "Unable to read large blob" FAILED_READ)
       else
         match blob_of largeBlob_ with
         | value blobBuffer =>
             let blobString := arrayBufferToPlaintext blobBuffer in
             if String.eqb blobString EmptyString then
               Heap.throw
                 (PasskeyError "Large blob decoded to empty string" FAILED_READ)
             else Heap.ret blobString
         | _ => Heap.throw (PasskeyError "Large blob empty" FAILED_READ)
         end
   end)%heap.

End Ceremony.

(** ** SigningEngine: the coin dispatch of [signTransaction] *)

Record SignTransactionParams := {
  coin : string;
  psbt : option string;
  safeAddress : option string;
  keyPathAddress : option Z;
  toSign : string;
  keyPathPurpose : Z;
  keyPathPurposeIsHardened : bool;
  keyPathCoinType : Z;
  keyPathAccount : Z;
  serverHost : string;
  token : string;
  sign_authenticationOptions : PublicKeyCredentialRequestOptionsJSON;
}.

(** [string | string[]] *)
Inductive Signatures : Type :=
| OneSignature (s : string)
| ManySignatures (l : list string).

(** The two signing paths that [signTransaction] dispatches to; they run
    [bitcoinjs-lib], [ethers] and the Safe collaborator. *)
Class CoinSigners := {
  getSignedBitcoinTransaction : SignTransactionParams -> Heap.M Signatures;
  getGnosisSafeSignature : SignTransactionParams -> Heap.M Signatures;
}.

Section Signing.
Context `{CoinTable} `{CoinSigners}.

(** The [switch] compares the upper-cased tag with each case in turn; when
    none matches, control leaves the [switch] and reaches
    [throw new Error()], whose message is empty. *)
Definition signTransaction (params : SignTransactionParams) : Heap.M Signatures :=
  let tag := toUpperCase (coin params) in
  if String.eqb tag COIN_btc || String.eqb tag COIN_tbtc then
    getSignedBitcoinTransaction params
  else if String.eqb tag COIN_ethC || String.eqb tag COIN_tethC
          || String.eqb tag COIN_eth || String.eqb tag COIN_teth then
    getGnosisSafeSignature params
  else Heap.throw (Error EmptyString).

(** The tags the [switch] knows. *)
Definition known_coins : list string :=
  [COIN_btc; COIN_tbtc; COIN_ethC; COIN_tethC; COIN_eth; COIN_teth].

End Signing.

(** ** KeyDerivationEngine: [exportXpub] *)

Record ExportXpubParams := {
  hardenedKeyPathPurpose : nullable Z;
  authenticationOptions : PublicKeyCredentialRequestOptionsJSON;
  credentialId : string;
}.

Record PasskeyDeviceXpubResponse := {
  xpub : string;
  authenticationResponse : AuthenticationResponseJSON;
  blobVersion : PasskeyBlobVersion;
}.

(** [!purpose]: [undefined], [null] and the number [0] are falsy.  Numbers
    are the integers here. *)
Definition purpose_is_falsy (purpose : nullable Z) : bool :=
  match purpose with
  | value n => Z.eqb n 0
  | _ => true
  end.

Section KeyDerivation.
Context `{Bip39} `{Bip39Seed} `{EncodingUtils} `{Navigator} `{Bip32}.

(** [entropy] is what [bip39.generateMnemonic()] draws from the CSPRNG. *)
Definition exportXpub (entropy : Buffer) (params : ExportXpubParams)
  : Heap.M PasskeyDeviceXpubResponse :=
  (let seedPhrase := generateMnemonic entropy in
   blob <- Heap.lift
             (encodeSeedPhrase seedPhrase
                (value (version_tag BLOB_VERSION_CURRENT))) ;;
   authenticationResponse <-
     writeLargeBlob (authenticationOptions params) (credentialId params) blob ;;
   let seed := mnemonicToSeedSync seedPhrase in
   let node := fromSeed seed in
   if purpose_is_falsy (hardenedKeyPathPurpose params) then
     Heap.ret {| xpub := toBase58 (neutered node);
                 authenticationResponse := authenticationResponse;
                 blobVersion := BLOB_VERSION_CURRENT |}
   else
     let purpose :=
       match hardenedKeyPathPurpose params with
       | value n => pretty n
       | _ => EmptyString
       end in
     derivedNode <- Heap.lift (derivePath node ("m/" +:+ purpose +:+ "'")) ;;
     Heap.ret {| xpub := toBase58 (neutered derivedNode);
                 authenticationResponse := authenticationResponse;
                 blobVersion := BLOB_VERSION_CURRENT |})%heap.

(** The extended public key of the unscoped master node of the seed, and
    that of the hardened subtree [m/purpose'], for the mnemonic generated
    from [entropy]. *)
Definition master_xpub (entropy : Buffer) : string :=
  toBase58 (neutered (fromSeed (mnemonicToSeedSync (generateMnemonic entropy)))).

Definition hardened_subtree_xpub (entropy : Buffer) (purpose : Z)
  : completion string :=
  (node <- derivePath
             (fromSeed (mnemonicToSeedSync (generateMnemonic entropy)))
             ("m/" +:+ pretty purpose +:+ "'") ;;
   Return (toBase58 (neutered node)))%js.

End KeyDerivation.

(** ** What is assumed of the imported modules *)

(** [bip39.validateMnemonic] splits the normalised input on spaces and looks
    every word up in the word list.  No word of a word list contains ['.'],
    so no valid mnemonic does. *)
Class Bip39Laws `{Bip39} : Prop := {
  valid_mnemonic_no_delimiter :
    forall m, validateMnemonic m = true ->
              contains SEED_VERSION_DELIMITER m = false;
}.

(** On valid mnemonics, the transport encoding is reversible and what it
    produces does not contain the delimiter. *)
Class TransportLaws `{Bip39} `{EncodingUtils} : Prop := {
  base64ToUtf8_utf8ToBase64 :
    forall m, validateMnemonic m = true ->
              base64ToUtf8 (utf8ToBase64 m) = Return m;
  utf8ToBase64_no_delimiter :
    forall m, validateMnemonic m = true ->
              contains SEED_VERSION_DELIMITER (utf8ToBase64 m) = false;
}.

(** ** Instances *)

(** [+] and [/] become [-] and [_]; the padding is dropped. *)
Fixpoint base64url_of_base64 (s : string) : string :=
  match s with
  | EmptyString => EmptyString
  | String c s' =>
      if Ascii.eqb c "+" then String "-" (base64url_of_base64 s')
      else if Ascii.eqb c "/" then String "_" (base64url_of_base64 s')
      else if Ascii.eqb c Base64.pad then base64url_of_base64 s'
      else String c (base64url_of_base64 s')
  end.

(** Modelled from the spec: the functions of [encodingUtils], whose code is
    not part of the package.  The blob wire format is
    [<base64(utf8(seedPhrase))>.<versionTag>], binary fields are base64 or
    base64url text, and the blob is transport-decoded to plaintext.  A
    payload that is not base64 is refused, as [atob] does. *)
#[local] Instance rfc4648 : EncodingUtils := {|
  utf8ToBase64 s := Base64.encode (list_byte_of_string s);
  base64ToUtf8 s :=
    match Base64.decode s with
    | Some bytes => Return (string_of_list_byte bytes)
    | None => Throw (DOMException "InvalidCharacterError")
    end;
  arrayBufferToPlaintext := string_of_list_byte;
  arrayBufferToBase64String := Base64.encode;
  base64ToBase64url := base64url_of_base64;
|}.

(** Four of the reference vectors of BIP-39 (entropy all [00], [7f], [80]
    and [ff], 128 bits). *)
Definition bip39_vectors : list string :=
  [ "abandon abandon abandon abandon abandon abandon abandon abandon abandon abandon abandon about";
    "legal winner thank year wave sausage worth useful legal winner thank yellow";
    "letter advice cage absurd amount doctor acoustic avoid letter advice cage above";
    "zoo zoo zoo zoo zoo zoo zoo zoo zoo zoo zoo wrong" ].

(** A validator that accepts exactly these vectors: a restriction of
    [bip39.validateMnemonic], used to run the codec on concrete inputs. *)
#[local] Instance bip39_on_vectors : Bip39 := {|
  validateMnemonic s := bool_decide (s ∈ bip39_vectors);
|}.

(** Modelled from the spec: the coin table of [./types/coin], which is not
    part of the package.  The specification names the variants [Btc], [TBtc],
    [Eth], [TEth], [EthContract] and [TEthContract]; callers pass ['BTC'] and
    ['ETH']; the tags of the other variants are taken to follow the same
    pattern. *)
#[local] Instance spec_coins : CoinTable := {|
  COIN_btc := "BTC";
  COIN_tbtc := "TBTC";
  COIN_eth := "ETH";
  COIN_teth := "TETH";
  COIN_ethC := "ETHC";
  COIN_tethC := "TETHC";
|}.

(** ** Concrete objects for running the functions *)

(** An extension-results object as an authenticator with a large blob and
    the PRF extension produces it; the blob is the encoding of the first
    reference vector at V1. *)
Definition example_blob : Buffer :=
  list_byte_of_string
    "YWJhbmRvbiBhYmFuZG9uIGFiYW5kb24gYWJhbmRvbiBhYmFuZG9uIGFiYW5kb24gYWJhbmRvbiBhYmFuZG9uIGFiYW5kb24gYWJhbmRvbiBhYmFuZG9uIGFib3V0.V1".

Definition example_prf_output : Buffer := list_byte_of_string "prf-secret".

Definition example_extensions : ExtensionResults :=
  <["largeBlob" := ExtLargeBlob {| blob := value example_blob;
                                   written := undefined |}]>
    (<["prf" := ExtPrf {| results := value {| first := value example_prf_output |} |}]>
       (<["credProps" := ExtOther "rk"]> ∅)).

Definition example_store : store := <[1%positive := example_extensions]> ∅.

(** The same authenticator when it produced no extension output at all. *)
Definition bare_store : store := <[1%positive := (∅ : ExtensionResults)]> ∅.

(** An authenticator that returned a large blob but no PRF output. *)
Definition blob_only_store : store :=
  <[1%positive :=
      <["largeBlob" := ExtLargeBlob {| blob := value example_blob;
                                       written := undefined |}]>
        (∅ : ExtensionResults)]> ∅.

Definition example_response : AuthenticationResponseJSON :=
  {| id := "Y3JlZA";
     rawId := "Y3JlZA";
     response := {| clientDataJSON := "e30"; authenticatorData := "AA";
                    signature := "AQ" |};
     clientExtensionResults := 1%positive;
     type := PUBLIC_KEY_CREDENTIAL_TYPE |}.

Definition full_support : option PasskeySupportOutputs :=
  Some {| largeBlobSupported := true; hasLargeBlob := true;
          prfSupported := true; prfSalt := None |}.

Definition example_options : PublicKeyCredentialRequestOptionsJSON :=
  {| challenge := "Y2hhbGxlbmdl"; allowCredentials := Some ["Y3JlZA"] |}.

Definition example_credential : PublicKeyCredential :=
  {| raw_rawId := list_byte_of_string "cred";
     raw_response :=
       {| raw_authenticatorData := [x00]%byte;
          raw_signature := [x01]%byte;
          raw_clientDataJSON := list_byte_of_string "{}" |};
     getClientExtensionResults := 1%positive |}.

(** An authenticator on which every ceremony resolves with
    [example_credential]. *)
#[local] Instance example_navigator : Navigator := {|
  get_largeBlob_write _ _ _ := Return (Some example_credential);
  get_largeBlob_read _ := Return (Some example_credential);
|}.

(** Signing paths that complete without a signature; only the dispatch of
    [signTransaction] is run on them. *)
#[local] Instance example_signers : CoinSigners := {|
  getSignedBitcoinTransaction _ := Heap.ret (ManySignatures []);
  getGnosisSafeSignature _ := Heap.ret (OneSignature EmptyString);
|}.

Definition example_sign_params (coin : string) : SignTransactionParams :=
  {| coin := coin;
     psbt := None;
     safeAddress := None;
     keyPathAddress := None;
     toSign := EmptyString;
     keyPathPurpose := 84;
     keyPathPurposeIsHardened := true;
     keyPathCoinType := 0;
     keyPathAccount := 0;
     serverHost := EmptyString;
     token := EmptyString;
     sign_authenticationOptions := example_options |}.

(** A symbolic key tree, to run the export on: a node is the seed of its
    tree and the path that leads to it, the seed of a mnemonic is its bytes,
    and the serialisation of a node spells both out.  Nodes that [bip32]
    tells apart by their path are told apart here too. *)
Record SymbolicNode := {
  node_seed : Buffer;
  node_path : string;
  node_is_public : bool;
}.

#[local] Instance symbolic_bip32 : Bip32 := {|
  BIP32Interface := SymbolicNode;
  fromSeed seed :=
    {| node_seed := seed; node_path := "m"; node_is_public := false |};
  derivePath node path :=
    Return {| node_seed := node_seed node; node_path := path;
              node_is_public := node_is_public node |};
  neutered node :=
    {| node_seed := node_seed node; node_path := node_path node;
       node_is_public := true |};
  toBase58 node :=
    (if node_is_public node then "xpub:" else "xprv:")
    +:+ Base64.encode (node_seed node) +:+ ":" +:+ node_path node;
|}.

(** The mnemonics of the four reference vectors, from their entropy. *)
#[local] Instance bip39_seed_on_vectors : Bip39Seed := {|
  generateMnemonic entropy :=
    if bool_decide (Byte.to_N <$> entropy = repeat 0 16) then
      default EmptyString (bip39_vectors !! 0%nat)
    else if bool_decide (Byte.to_N <$> entropy = repeat 127 16) then
      default EmptyString (bip39_vectors !! 1%nat)
    else if bool_decide (Byte.to_N <$> entropy = repeat 128 16) then
      default EmptyString (bip39_vectors !! 2%nat)
    else if bool_decide (Byte.to_N <$> entropy = repeat 255 16) then
      default EmptyString (bip39_vectors !! 3%nat)
    else EmptyString;
  mnemonicToSeedSync := list_byte_of_string;
|}.

(** The store after an authenticator has committed a large-blob write. *)
Definition written_store : store :=
  <[1%positive :=
      <["largeBlob" := ExtLargeBlob {| blob := undefined;
                                       written := value true |}]>
        (∅ : ExtensionResults)]> ∅.

Definition example_export_params (purpose : nullable Z) : ExportXpubParams :=
  {| hardenedKeyPathPurpose := purpose;
     authenticationOptions := example_options;
     credentialId := "Y3JlZA" |}.

(** * The rest of the package *)

(** ** Console, store and completion together *)

Module Io.

(** A computation writes lines to the console, reads and updates the store
    and completes; the lines written before a [throw] stay written. *)
Definition M (A : Type) : Type := store -> list string * completion A * store.

Definition ret {A} (a : A) : M A := fun h => ([], Return a, h).

Definition throw {A} (e : exn) : M A := fun h => ([], Throw e, h).

Definition bind {A B} (c : M A) (k : A -> M B) : M B :=
  fun h =>
    match c h with
    | (log, Return a, h') =>
        match k a h' with
        | (log', r, h'') => (log ++ log', r, h'')
        end
    | (log, Throw e, h') => (log, Throw e, h')
    end.

(** [console.warn(line)] *)
Definition warn (line : string) : M unit := fun h => ([line], Return tt, h).

Definition of_heap {A} (c : Heap.M A) : M A :=
  fun h => match c h with (r, h') => ([], r, h') end.

Definition of_console {A} (c : list string * completion A) : M A :=
  fun h => (fst c, snd c, h).

Definition of_completion {A} (c : completion A) : M A := fun h => ([], c, h).

(** The computation without its console. *)
Definition to_heap {A} (c : M A) : Heap.M A :=
  fun h => match c h with (_, r, h') => (r, h') end.

End Io.

Declare Scope io_scope.
Delimit Scope io_scope with io.
Notation "x <- c ;; k" := (Io.bind c (fun x => k))
  (at level 100, c at next level, right associativity) : io_scope.
Notation "c ;;; k" := (Io.bind c (fun _ => k))
  (at level 100, right associativity) : io_scope.

(** ** More strings *)

(** [s.slice(n)] for [0 <= n]. *)
Fixpoint slice_from (n : nat) (s : string) : string :=
  match n, s with
  | O, _ => s
  | S n', String _ s' => slice_from n' s'
  | S _, EmptyString => EmptyString
  end.

(** [s.startsWith(p)] *)
Fixpoint starts_with (p s : string) : bool :=
  match p, s with
  | EmptyString, _ => true
  | String a p', String b s' => Ascii.eqb a b && starts_with p' s'
  | String _ _, EmptyString => false
  end.

(** [s.replace(pattern, '')] for a string [pattern]: the first occurrence of
    the pattern is removed, the rest is kept. *)
Fixpoint remove_first (pattern s : string) : string :=
  if starts_with pattern s then slice_from (String.length pattern) s
  else
    match s with
    | EmptyString => EmptyString
    | String c s' => String c (remove_first pattern s')
    end.

(** [words.join(sep)] *)
Fixpoint join (sep : ascii) (words : list string) : string :=
  match words with
  | [] => EmptyString
  | [w] => w
  | w :: ws => w +:+ String sep (join sep ws)
  end.

(** ** [getStoredSeed] *)

Section StoredSeed.
Context `{Bip39} `{EncodingUtils} `{Navigator}.

Definition getStoredSeed
  (authenticationOptions : PublicKeyCredentialRequestOptionsJSON)
  : Io.M string :=
  (encodedBlob <- Io.of_heap (readLargeBlob authenticationOptions) ;;
   decoded <- Io.of_console (decodeSeedPhrase encodedBlob) ;;
   Io.ret (seedPhrase decoded))%io.

End StoredSeed.

(** ** The libraries behind the signing functions *)

(** [string | Uint8Array], what [signer.signMessage] accepts. *)
Inductive BytesLike : Type :=
| TextMessage (s : string)
| BinaryMessage (b : Buffer).

(** What passkeyDevice.ts imports to sign: [bip32] private keys, [ethers],
    [bitcoinjs-message], [bitcoinjs-lib], and from the package itself
    [./types/coin], [./utils/psbtUtils], [./gnosisSafe] and [./utils/misc],
    whose code is not part of the sources.  [privateKey] is [undefined] on a
    neutered node.  [GnosisSafe_getTransactionHash safeAddress isTestnet
    serverHost token toSign coin] is
    [new GnosisSafe(safeAddress, isTestnet, serverHost, token)
       .getTransactionHash(toSign, coin)]. *)
Class SigningLibs `{Bip32} := {
  privateKey : BIP32Interface -> option Buffer;
  ETH_COIN_TYPES : list string;
  Wallet : Type;
  Wallet_new : option Buffer -> completion Wallet;
  Wallet_address : Wallet -> string;
  Wallet_signMessage : Wallet -> BytesLike -> completion string;
  bitcoinMessage_sign : string -> option Buffer -> completion Buffer;
  Psbt : Type;
  Psbt_fromHex : string -> completion Psbt;
  Psbt_toBase64 : Psbt -> string;
  Psbt_signAllInputsHD : Psbt -> BIP32Interface -> completion Psbt;
  extractSignaturesFromPsbt : Psbt -> completion Signatures;
  GnosisSafe_getTransactionHash :
    string -> bool -> string -> string -> string -> string -> completion string;
  adjustSignatureForPrefix : string -> string -> string -> completion string;
  Buffer_from_hex : string -> Buffer;
}.

(** [x === true] and the truthiness of [x], for [x?: boolean]. *)
Definition strictly_true (x : nullable bool) : bool :=
  match x with
  | value true => true
  | _ => false
  end.

Definition truthy (x : nullable bool) : bool :=
  match x with
  | value b => b
  | _ => false
  end.

(** ** [getSignedMessage] and the signing paths of [signTransaction] *)

Module PasskeyDevice.
Section Signing.
Context `{Bip39} `{Bip39Seed} `{EncodingUtils} `{Navigator} `{CoinTable}.
Context `{Bip32} `{!SigningLibs}.

(** The [derivationPath] of [ethSignerFromSeedAndPath]: the change segment
    is always 0, the address segment is there unless [keyPathAddress] is
    [null] or [undefined]. *)
Definition derivationPath
  (keyPathPurpose : Z) (keyPathPurposeIsHardened : bool)
  (keyPathCoinType keyPathAccount : Z) (keyPathAddress : nullable Z) : string :=
  let purpose :=
    pretty keyPathPurpose +:+ (if keyPathPurposeIsHardened then "'" else "") in
  let derivationPath :=
    "m/" +:+ purpose +:+ "/" +:+ pretty keyPathCoinType +:+ "/"
    +:+ pretty keyPathAccount +:+ "/0" in
  match keyPathAddress with
  | value address => derivationPath +:+ "/" +:+ pretty address
  | _ => derivationPath
  end.

Definition ethSignerFromSeedAndPath
  (seedPhrase : string) (keyPathPurpose : Z) (keyPathPurposeIsHardened : bool)
  (keyPathCoinType keyPathAccount : Z) (keyPathAddress : nullable Z)
  : completion Wallet :=
  (let seed := mnemonicToSeedSync seedPhrase in
   let hdRoot := fromSeed seed in
   node <- derivePath hdRoot
             (derivationPath keyPathPurpose keyPathPurposeIsHardened
                keyPathCoinType keyPathAccount keyPathAddress) ;;
   Wallet_new (privateKey node))%js.

(** The [path] of the Bitcoin branch of [getSignedMessage]. *)
Definition message_path
  (keyPathPurpose : Z) (keyPathPurposeIsHardened : nullable bool)
  (keyPathCoinType keyPathAccount : Z) : string :=
  let purpose :=
    if truthy keyPathPurposeIsHardened then pretty keyPathPurpose +:+ "'"
    else pretty keyPathPurpose in
  let change := "0" in
  let address := "0" in
  "m/" +:+ purpose +:+ "/" +:+ pretty keyPathCoinType +:+ "/"
  +:+ pretty keyPathAccount +:+ "/" +:+ change +:+ "/" +:+ address.

(** [Buffer.toString('base64')] is the padded base64 of RFC 4648. *)
Definition getSignedMessage
  (coin : string) (keyPathPurpose : Z)
  (keyPathPurposeIsHardened : nullable bool)
  (keyPathCoinType keyPathAccount : Z) (message : string)
  (authenticationOptions : PublicKeyCredentialRequestOptionsJSON)
  : Io.M string :=
  (let isEth := bool_decide (coin ∈ ETH_COIN_TYPES) in
   encodedBlob <- Io.of_heap (readLargeBlob authenticationOptions) ;;
   decoded <- Io.of_console (decodeSeedPhrase encodedBlob) ;;
   let seedPhrase := seedPhrase decoded in
   if isEth then
     signer <- Io.of_completion
                 (ethSignerFromSeedAndPath seedPhrase keyPathPurpose
                    (strictly_true keyPathPurposeIsHardened)
                    keyPathCoinType keyPathAccount (value 0%Z)) ;;
     preadjustedSig <- Io.of_completion
                         (Wallet_signMessage signer (TextMessage message)) ;;
     Io.ret (remove_first "0x" preadjustedSig)
   else
     let path :=
       message_path keyPathPurpose keyPathPurposeIsHardened
         keyPathCoinType keyPathAccount in
     let seed := mnemonicToSeedSync seedPhrase in
     let masterNode := fromSeed seed in
     derivedNode <- Io.of_completion (derivePath masterNode path) ;;
     signed <- Io.of_completion
                 (bitcoinMessage_sign message (privateKey derivedNode)) ;;
     Io.ret (Base64.encode signed))%io.

(** [!params.psbt]: a missing and an empty string are falsy. *)
Definition psbt_is_falsy (psbt : option string) : bool :=
  match psbt with
  | None => true
  | Some hex => String.eqb hex EmptyString
  end.

(** The line [getSignedBitcoinTransaction] writes with [console.warn]. *)
Definition PSBT_WARNING (base64 : string) : string :=
  "CASA DEVICE-SIGNING LIB" +:+ LF +:+ "Preparing to sign PSBT." +:+ LF +:+ LF
  +:+ "    Copy and paste this into a 3rd party tool such as https://chainquery.com/bitcoin-cli/decodepsbt to verify hex encoded psbt:"
  +:+ LF +:+ LF +:+ "    " +:+ base64.

Definition getSignedBitcoinTransaction (params : SignTransactionParams)
  : Io.M Signatures :=
  (if psbt_is_falsy (psbt params) then Io.throw (Error "psbt not found")
   else
     psbt <- Io.of_completion (Psbt_fromHex (default EmptyString (psbt params))) ;;
     Io.warn (PSBT_WARNING (Psbt_toBase64 psbt)) ;;;
     encodedBlob <- Io.of_heap
                      (readLargeBlob (sign_authenticationOptions params)) ;;
     decoded <- Io.of_console (decodeSeedPhrase encodedBlob) ;;
     let seed := mnemonicToSeedSync (seedPhrase decoded) in
     let hdRoot := fromSeed seed in
     signedPsbt <- Io.of_completion (Psbt_signAllInputsHD psbt hdRoot) ;;
     Io.of_completion (extractSignaturesFromPsbt signedPsbt))%io.

(** [coin === COIN.teth || coin === COIN.tethC], on the tag as the caller
    gave it. *)
Definition isTestnet (coin : string) : bool :=
  String.eqb coin COIN_teth || String.eqb coin COIN_tethC.

Definition getGnosisSafeSignature (params : SignTransactionParams)
  : Io.M Signatures :=
  (match safeAddress params with
   | None => Io.throw (Error "Safe address required for Gnosis signature")
   | Some safeAddress =>
       encodedSeedPhrase <- Io.of_heap
                              (readLargeBlob (sign_authenticationOptions params)) ;;
       decoded <- Io.of_console (decodeSeedPhrase encodedSeedPhrase) ;;
       hash <- Io.of_completion
                 (GnosisSafe_getTransactionHash safeAddress
                    (isTestnet (coin params)) (serverHost params)
                    (token params) (toSign params) (coin params)) ;;
       signer <- Io.of_completion
                   (ethSignerFromSeedAndPath (seedPhrase decoded)
                      (keyPathPurpose params)
                      (keyPathPurposeIsHardened params)
                      (keyPathCoinType params) (keyPathAccount params)
                      (match keyPathAddress params with
                       | Some address => value address
                       | None => undefined
                       end)) ;;
       preadjustedSig <- Io.of_completion
                           (Wallet_signMessage signer
                              (BinaryMessage
                                 (Buffer_from_hex (slice_from 2 hash)))) ;;
       signature <- Io.of_completion
                      (adjustSignatureForPrefix (slice_from 2 hash)
                         preadjustedSig (Wallet_address signer)) ;;
       Io.ret (OneSignature signature)
   end)%io.

End Signing.
End PasskeyDevice.

(** The two signing paths as [signTransaction] awaits them. *)
Definition passkey_signers
  `{Bip39} `{Bip39Seed} `{EncodingUtils} `{Navigator} `{CoinTable}
  `{Bip32} `{!SigningLibs} : CoinSigners :=
  Build_CoinSigners
    (fun params => Io.to_heap (PasskeyDevice.getSignedBitcoinTransaction params))
    (fun params => Io.to_heap (PasskeyDevice.getGnosisSafeSignature params)).

(** ** Registration: [encodeAttestationResponseToVerify], [createRawCredential] *)

Module Registration.

Record AuthenticatorAttestationResponse := {
  clientDataJSON : Buffer;
  attestationObject : Buffer;
}.

(** The raw credential that [navigator.credentials.create] resolves with. *)
Record Credential := {
  rawId : Buffer;
  response : AuthenticatorAttestationResponse;
  getClientExtensionResults : loc;
  type : string;
}.

Record AttestationResponseJSON := {
  json_clientDataJSON : string;
  json_attestationObject : string;
}.

(** What is sent to the server to be verified. *)
Record ResponseJSON := {
  json_id : string;
  json_rawId : string;
  json_response : AttestationResponseJSON;
  json_clientExtensionResults : loc;
  json_type : string;
}.

End Registration.

(** [navigator.credentials.create(encodeAttestationOptionsToRaw(options))]:
    the options are re-encoded (passkeyUtils.ts lines 324-343) and the
    creation ceremony is awaited.  [None] is the [null] credential. *)
Class NavigatorCreate := {
  CreationOptions : Type;
  credentials_create :
    CreationOptions -> completion (option Registration.Credential);
}.

Section RegistrationCeremony.
Context `{EncodingUtils} `{NavigatorCreate}.

Definition encodeAttestationResponseToVerify
  (registrationResponse : option Registration.Credential)
  : completion Registration.ResponseJSON :=
  match registrationResponse with
  | None =>
      Throw (PasskeyError "Invalid registration response" USER_EXITED)
  | Some publicKeyCredential =>
      let rawId :=
        base64ToBase64url
          (arrayBufferToBase64String (Registration.rawId publicKeyCredential)) in
      let response := Registration.response publicKeyCredential in
      let clientDataJSON :=
        base64ToBase64url
          (arrayBufferToBase64String (Registration.clientDataJSON response)) in
      let attestationObject :=
        base64ToBase64url
          (arrayBufferToBase64String (Registration.attestationObject response)) in
      let clientExtensionResults :=
        Registration.getClientExtensionResults publicKeyCredential in
      Return
        {| Registration.json_id := rawId;
           Registration.json_rawId := rawId;
           Registration.json_response :=
             {| Registration.json_clientDataJSON := clientDataJSON;
                Registration.json_attestationObject := attestationObject |};
           Registration.json_clientExtensionResults := clientExtensionResults;
           Registration.json_type := Registration.type publicKeyCredential |}
  end.

Definition createRawCredential (options : CreationOptions)
  : completion Registration.ResponseJSON :=
  (rawResponse <- credentials_create options ;;
   encodeAttestationResponseToVerify rawResponse)%js.

End RegistrationCeremony.

(** ** [PasskeyError.toString] *)

(** [data] is the JSON text of [this.data] when it is neither [null] nor
    [undefined]. *)
Definition PasskeyError_toString
  (message : string) (code : PasskeyErrorCodes) (data : option string) : string :=
  let title := code_string code +:+ ": " +:+ message in
  let data :=
    match data with
    | Some json => "-" +:+ json
    | None => EmptyString
    end in
  title +:+ data.

(** ** Symbolic signing libraries *)

(** Libraries to run the signing functions on: a key is the seed and the
    path of its node, a signature spells out the key and the message, a
    PSBT is its hex text. *)
#[local] Instance symbolic_signing : @SigningLibs symbolic_bip32 := {|
  privateKey node :=
    if node_is_public node then None
    else Some (node_seed node ++ list_byte_of_string (node_path node));
  ETH_COIN_TYPES := ["ETH"; "TETH"; "ETHC"; "TETHC"];
  Wallet := Buffer;
  Wallet_new key :=
    match key with
    | Some k => Return k
    | None => Throw (TypeError "invalid private key")
    end;
  Wallet_address wallet := "0x" +:+ Base64.encode wallet;
  Wallet_signMessage wallet message :=
    Return ("0x" +:+ Base64.encode
                       (wallet ++ match message with
                                  | TextMessage s => list_byte_of_string s
                                  | BinaryMessage b => b
                                  end));
  bitcoinMessage_sign message key :=
    match key with
    | Some k => Return (k ++ list_byte_of_string message)
    | None => Throw (TypeError "Expected Private")
    end;
  Psbt := string;
  Psbt_fromHex hex := Return hex;
  Psbt_toBase64 psbt := psbt;
  Psbt_signAllInputsHD psbt root := Return psbt;
  extractSignaturesFromPsbt psbt := Return (ManySignatures [psbt]);
  GnosisSafe_getTransactionHash safeAddress isTestnet serverHost token toSign coin :=
    Return ("0x" +:+ toSign);
  adjustSignatureForPrefix hash signature address := Return signature;
  Buffer_from_hex := list_byte_of_string;
|}.

(** A creation ceremony that the user dismisses, and one that resolves. *)
Definition example_registration : Registration.Credential :=
  {| Registration.rawId := list_byte_of_string "cred";
     Registration.response :=
       {| Registration.clientDataJSON := list_byte_of_string "{}";
          Registration.attestationObject := [x00]%byte |};
     Registration.getClientExtensionResults := 1%positive;
     Registration.type := PUBLIC_KEY_CREDENTIAL_TYPE |}.

#[local] Instance example_navigator_create : NavigatorCreate := {|
  CreationOptions := string;
  credentials_create options :=
    if String.eqb options "dismissed" then Return None
    else Return (Some example_registration);
|}.

(** An authenticator like [example_navigator] on which every read ceremony
    is rejected. *)
Definition write_only_navigator : Navigator := {|
  get_largeBlob_write _ _ _ := Return (Some example_credential);
  get_largeBlob_read _ := Throw (DOMException "NotAllowedError");
|}.

(** The signing paths of the package on the example authenticator, the
    reference vectors and the symbolic key tree. *)
Definition example_passkey_signers : CoinSigners :=
  @passkey_signers bip39_on_vectors bip39_seed_on_vectors rfc4648
    example_navigator spec_coins symbolic_bip32 symbolic_signing.

(** A Bitcoin request with a PSBT, and a Safe request on the test network
    whose tag is in lower case. *)
Definition example_psbt_params : SignTransactionParams :=
  {| coin := "btc";
     psbt := Some "70736274ff";
     safeAddress := None;
     keyPathAddress := None;
     toSign := EmptyString;
     keyPathPurpose := 84;
     keyPathPurposeIsHardened := true;
     keyPathCoinType := 0;
     keyPathAccount := 0;
     serverHost := EmptyString;
     token := EmptyString;
     sign_authenticationOptions := example_options |}.

Definition example_safe_params : SignTransactionParams :=
  {| coin := "teth";
     psbt := None;
     safeAddress := Some "0x5afe";
     keyPathAddress := Some 0%Z;
     toSign := "c0ffee";
     keyPathPurpose := 44;
     keyPathPurposeIsHardened := true;
     keyPathCoinType := 60;
     keyPathAccount := 0;
     serverHost := "api.example";
     token := "jwt";
     sign_authenticationOptions := example_options |}.

(** The store after the authenticator of [example_navigator] has committed
    the write of [example_blob] and hands that blob out again. *)
Definition exported_store : store :=
  <[1%positive :=
      <["largeBlob" := ExtLargeBlob {| blob := value example_blob;
                                       written := value true |}]>
        (∅ : ExtensionResults)]> ∅.

(** ** The web wallet provider: [getSeedPhrase], [createWallet] *)

Module WebWallet.

(** The cells of [useState] in [WebWalletProvider]. *)
Record State := {
  passkeyLoading : bool;
  walletLoading : bool;
  deviceUpdateLoading : bool;
  signatureLoading : bool;
  phraseLoading : bool;
  passkeyError : option exn;
  walletError : option exn;
  signError : option exn;
  phraseError : option exn;
  credentialId : option string;
  xPub : option string;
  backupToken : option string;
  signatureResult : option string;
  phrase : option (list string);
  phraseConfirmed : bool;
}.

(** The initial values of the cells. *)
Definition initial : State :=
  {| passkeyLoading := false; walletLoading := false;
     deviceUpdateLoading := false; signatureLoading := false;
     phraseLoading := false;
     passkeyError := None; walletError := None; signError := None;
     phraseError := None;
     credentialId := None; xPub := None; backupToken := None;
     signatureResult := None; phrase := None; phraseConfirmed := false |}.

Definition setWalletLoading (v : bool) (st : State) : State :=
  {| passkeyLoading := passkeyLoading st; walletLoading := v;
     deviceUpdateLoading := deviceUpdateLoading st;
     signatureLoading := signatureLoading st;
     phraseLoading := phraseLoading st;
     passkeyError := passkeyError st; walletError := walletError st;
     signError := signError st; phraseError := phraseError st;
     credentialId := credentialId st; xPub := xPub st;
     backupToken := backupToken st; signatureResult := signatureResult st;
     phrase := phrase st; phraseConfirmed := phraseConfirmed st |}.

Definition setDeviceUpdateLoading (v : bool) (st : State) : State :=
  {| passkeyLoading := passkeyLoading st; walletLoading := walletLoading st;
     deviceUpdateLoading := v;
     signatureLoading := signatureLoading st;
     phraseLoading := phraseLoading st;
     passkeyError := passkeyError st; walletError := walletError st;
     signError := signError st; phraseError := phraseError st;
     credentialId := credentialId st; xPub := xPub st;
     backupToken := backupToken st; signatureResult := signatureResult st;
     phrase := phrase st; phraseConfirmed := phraseConfirmed st |}.

Definition setPhraseLoading (v : bool) (st : State) : State :=
  {| passkeyLoading := passkeyLoading st; walletLoading := walletLoading st;
     deviceUpdateLoading := deviceUpdateLoading st;
     signatureLoading := signatureLoading st;
     phraseLoading := v;
     passkeyError := passkeyError st; walletError := walletError st;
     signError := signError st; phraseError := phraseError st;
     credentialId := credentialId st; xPub := xPub st;
     backupToken := backupToken st; signatureResult := signatureResult st;
     phrase := phrase st; phraseConfirmed := phraseConfirmed st |}.

Definition setWalletError (v : option exn) (st : State) : State :=
  {| passkeyLoading := passkeyLoading st; walletLoading := walletLoading st;
     deviceUpdateLoading := deviceUpdateLoading st;
     signatureLoading := signatureLoading st;
     phraseLoading := phraseLoading st;
     passkeyError := passkeyError st; walletError := v;
     signError := signError st; phraseError := phraseError st;
     credentialId := credentialId st; xPub := xPub st;
     backupToken := backupToken st; signatureResult := signatureResult st;
     phrase := phrase st; phraseConfirmed := phraseConfirmed st |}.

Definition setPhraseError (v : option exn) (st : State) : State :=
  {| passkeyLoading := passkeyLoading st; walletLoading := walletLoading st;
     deviceUpdateLoading := deviceUpdateLoading st;
     signatureLoading := signatureLoading st;
     phraseLoading := phraseLoading st;
     passkeyError := passkeyError st; walletError := walletError st;
     signError := signError st; phraseError := v;
     credentialId := credentialId st; xPub := xPub st;
     backupToken := backupToken st; signatureResult := signatureResult st;
     phrase := phrase st; phraseConfirmed := phraseConfirmed st |}.

Definition setXPub (v : option string) (st : State) : State :=
  {| passkeyLoading := passkeyLoading st; walletLoading := walletLoading st;
     deviceUpdateLoading := deviceUpdateLoading st;
     signatureLoading := signatureLoading st;
     phraseLoading := phraseLoading st;
     passkeyError := passkeyError st; walletError := walletError st;
     signError := signError st; phraseError := phraseError st;
     credentialId := credentialId st; xPub := v;
     backupToken := backupToken st; signatureResult := signatureResult st;
     phrase := phrase st; phraseConfirmed := phraseConfirmed st |}.

Definition setBackupToken (v : option string) (st : State) : State :=
  {| passkeyLoading := passkeyLoading st; walletLoading := walletLoading st;
     deviceUpdateLoading := deviceUpdateLoading st;
     signatureLoading := signatureLoading st;
     phraseLoading := phraseLoading st;
     passkeyError := passkeyError st; walletError := walletError st;
     signError := signError st; phraseError := phraseError st;
     credentialId := credentialId st; xPub := xPub st;
     backupToken := v; signatureResult := signatureResult st;
     phrase := phrase st; phraseConfirmed := phraseConfirmed st |}.

Definition setPhrase (v : option (list string)) (st : State) : State :=
  {| passkeyLoading := passkeyLoading st; walletLoading := walletLoading st;
     deviceUpdateLoading := deviceUpdateLoading st;
     signatureLoading := signatureLoading st;
     phraseLoading := phraseLoading st;
     passkeyError := passkeyError st; walletError := walletError st;
     signError := signError st; phraseError := phraseError st;
     credentialId := credentialId st; xPub := xPub st;
     backupToken := backupToken st; signatureResult := signatureResult st;
     phrase := v; phraseConfirmed := phraseConfirmed st |}.

(** What a [useApi] fetch resolves with, as the provider reads it. *)
Record ApiResult (E T : Type) := {
  data : nullable T;
  error : nullable E;
}.
Arguments data {E T} _.
Arguments error {E T} _.

(** The [data] of [passkeys/getSignOptions] and [passkeys/getAuthOptions]. *)
Record OptionsData := {
  token : string;
  options : PublicKeyCredentialRequestOptionsJSON;
}.

(** The [data] of [devices/{deviceId}]: [{ backupToken?: string }]. *)
Record WalletData := {
  data_backupToken : option string;
}.

(** The fields of [Device] that the provider reads. *)
Record Device := {
  id : nullable string;
  hardenedKeyPathPurpose : nullable Z;
}.

(** The imports of the provider that are not part of the package:
    [efwAsync] of [@casa/common], which awaits a promise and resolves with
    the pair [[error, result]]; [parsePasskeyError], called with
    [{message, apiResult, error}]; and the [fetch] of the [useApi] hooks.
    [addWallet] is given the device id of the path, the [xpub], [token],
    [authenticationResponse], [blobVersion] and [hardenedKeyPathPurpose] of
    the body, whose [deviceType] is a constant, and the token. *)
Class WebImports := {
  ApiError : Type;
  efwAsync : forall A : Type, completion A -> nullable exn * nullable A;
  parsePasskeyError :
    forall T : Type,
      string -> nullable (ApiResult ApiError T) -> nullable exn -> exn;
  getSignOptions :
    nullable string -> string -> completion (ApiResult ApiError OptionsData);
  getAuthOptions :
    string -> string -> completion (ApiResult ApiError OptionsData);
  addWallet :
    option string -> string -> string -> AuthenticationResponseJSON ->
    PasskeyBlobVersion -> nullable Z -> string ->
    completion (ApiResult ApiError WalletData);
}.
Arguments efwAsync {_ A} _.
Arguments parsePasskeyError {_ T} _ _ _.

(** One run of a callback: the cells after it, what it wrote to the
    console, how its promise settled, and the store. *)
Record Run := {
  state : State;
  console : list string;
  result : completion unit;
  heap : store;
}.

Definition PASSKEY_PURPOSE : string := "sign".

(** Reading a property of [undefined] or [null]. *)
Definition property_of_nullish : exn :=
  TypeError "Cannot read properties of undefined".

Section Provider.
Context `{Bip39} `{Bip39Seed} `{EncodingUtils} `{Navigator} `{Bip32}.
Context `{WebImports}.

(** [device?.id ?? deviceId] *)
Definition device_id_or (device : option Device) (deviceId : option string)
  : nullable string :=
  let deviceId :=
    match deviceId with
    | Some d => value d
    | None => undefined
    end in
  match device with
  | Some device =>
      match id device with
      | value i => value i
      | _ => deviceId
      end
  | None => deviceId
  end.

(** [jwt], [deviceId] and [device] come from the URL and the props; the
    cells [credentialId] and [backupToken] are read as the callback closed
    over them. *)
Definition getSeedPhrase (jwt : nullable string) (deviceId : option string)
    (device : option Device) (st : State) (h : store) : Run :=
  let missing :=
    {| state :=
         setPhraseError (Some (PasskeyError "missing JWT" UNAUTHORIZED)) st;
       console := []; result := Return tt; heap := h |} in
  match jwt with
  | value jwt =>
      if bool_decide (credentialId st = None) && bool_decide (deviceId = None)
      then missing
      else
        let backupToken := backupToken st in
        let st := setPhraseLoading true st in
        let st := setPhraseError None st in
        let '(signOptionsError, signOptionsResult) :=
          efwAsync (getSignOptions (device_id_or device deviceId)
                      (default jwt backupToken)) in
        let failed_options :=
          let error :=
            parsePasskeyError "Failed to get auth options to read blob"
              signOptionsResult signOptionsError in
          let st := setPhraseError (Some error) st in
          let st := setPhraseLoading false st in
          {| state := st; console := []; result := Return tt; heap := h |} in
        let read (signOptionsResult : ApiResult ApiError OptionsData) :=
          match data signOptionsResult with
          | value signOptions =>
              match getStoredSeed (options signOptions) h with
              | (log, readSeed, h') =>
                  let '(readError, readSeed) := efwAsync readSeed in
                  let failed_read :=
                    let error :=
                      parsePasskeyError (T := unit)
                        "Failed to read seed phrase from passkey prompt"
                        undefined readError in
                    let st := setPhraseError (Some error) st in
                    let st := setPhraseLoading false st in
                    {| state := st; console := log; result := Return tt;
                       heap := h' |} in
                  match readError, readSeed with
                  | value _, _ => failed_read
                  | _, value readSeed =>
                      let splitPhrase := split " " readSeed in
                      {| state := setPhrase (Some splitPhrase) st;
                         console := log; result := Return tt; heap := h' |}
                  | _, _ => failed_read
                  end
              end
          | _ =>
              {| state := st; console := [];
                 result := Throw property_of_nullish; heap := h |}
          end in
        match signOptionsError, signOptionsResult with
        | value _, _ => failed_options
        | _, value signOptionsResult' =>
            if is_nullish (error signOptionsResult') then
              read signOptionsResult'
            else failed_options
        | _, _ =>
            {| state := st; console := [];
               result := Throw property_of_nullish; heap := h |}
        end
  | _ => missing
  end.

(** [entropy] is what the export draws from the CSPRNG. *)
Definition createWallet (entropy : Buffer) (jwt : nullable string)
    (deviceId : option string) (device : option Device)
    (st : State) (h : store) : Run :=
  let incorrect :=
    {| state :=
         setWalletError
           (Some (PasskeyError
                    "Attempted to create wallet before JWT, credentialId, and device are available"
                    INCORRECT_STATE)) st;
       console := []; result := Return tt; heap := h |} in
  match jwt, credentialId st, device with
  | value jwt, Some credentialId, Some device =>
      let st := setWalletError None st in
      let st := setWalletLoading true st in
      let '(authOptionsError, authOptionsResult) :=
        efwAsync (getAuthOptions credentialId PASSKEY_PURPOSE) in
      let failed_options :=
        let error :=
          parsePasskeyError "Failed to get auth options to write blob"
            authOptionsResult authOptionsError in
        let st := setWalletError (Some error) st in
        let st := setWalletLoading false st in
        {| state := st; console := []; result := Return tt; heap := h |} in
      let export (authOptions : OptionsData) :=
        match exportXpub entropy
                (Build_ExportXpubParams (hardenedKeyPathPurpose device)
                   (options authOptions) credentialId) h with
        | (xPubExport, h') =>
            let '(xPubError, xPubExport) := efwAsync xPubExport in
            match xPubError with
            | value _ =>
                let error :=
                  parsePasskeyError (T := unit)
                    "Failed to export xpub from passkey" undefined xPubError in
                let st := setWalletError (Some error) st in
                let st := setWalletLoading false st in
                {| state := st; console := []; result := Return tt;
                   heap := h' |}
            | _ =>
                let st := setDeviceUpdateLoading true st in
                match xPubExport with
                | value xPubExport =>
                    let '(addWalletError, addWalletResult) :=
                      efwAsync
                        (addWallet deviceId (xpub xPubExport)
                           (token authOptions)
                           (authenticationResponse xPubExport)
                           (blobVersion xPubExport)
                           (hardenedKeyPathPurpose device) jwt) in
                    let failed_update :=
                      let error :=
                        parsePasskeyError
                          "Seed phrase written to passkey, but API call failed to update device"
                          addWalletResult addWalletError in
                      let st := setWalletError (Some error) st in
                      let st := setDeviceUpdateLoading false st in
                      let st := setWalletLoading false st in
                      {| state := st; console := []; result := Return tt;
                         heap := h' |} in
                    match addWalletError, addWalletResult with
                    | value _, _ => failed_update
                    | _, value addWalletResult' =>
                        if is_nullish (error addWalletResult') then
                          let st := setXPub (Some (xpub xPubExport)) st in
                          let st :=
                            setBackupToken
                              (match data addWalletResult' with
                               | value d => data_backupToken d
                               | _ => None
                               end) st in
                          let st := setWalletLoading false st in
                          {| state := st; console := []; result := Return tt;
                             heap := h' |}
                        else failed_update
                    | _, _ =>
                        {| state := st; console := [];
                           result := Throw property_of_nullish; heap := h' |}
                    end
                | _ =>
                    {| state := st; console := [];
                       result := Throw property_of_nullish; heap := h' |}
                end
            end
        end in
      match authOptionsError, authOptionsResult with
      | value _, _ => failed_options
      | _, value authOptionsResult' =>
          match data authOptionsResult' with
          | value authOptions => export authOptions
          | _ => failed_options
          end
      | _, _ =>
          {| state := st; console := [];
             result := Throw property_of_nullish; heap := h |}
      end
  | _, _, _ => incorrect
  end.

End Provider.
End WebWallet.

(** The imports of the provider to run it on: the wrapper pairs an
    exception with [undefined] and a value with [null], the parser keeps the
    code of a [PasskeyError] and reports [UNKNOWN] otherwise, and every
    fetch resolves with data. *)
#[local] Instance example_web : WebWallet.WebImports := {|
  WebWallet.ApiError := string;
  WebWallet.efwAsync A promise :=
    match promise with
    | Return a => (null, value a)
    | Throw e => (value e, undefined)
    end;
  WebWallet.parsePasskeyError T message apiResult error :=
    match error with
    | value (PasskeyError _ code) => PasskeyError message code
    | _ => PasskeyError message UNKNOWN
    end;
  WebWallet.getSignOptions deviceId token :=
    Return {| WebWallet.data :=
                value {| WebWallet.token := "options-token";
                         WebWallet.options := example_options |};
              WebWallet.error := undefined |};
  WebWallet.getAuthOptions credentialId purpose :=
    Return {| WebWallet.data :=
                value {| WebWallet.token := "options-token";
                         WebWallet.options := example_options |};
              WebWallet.error := undefined |};
  WebWallet.addWallet deviceId xpub token authenticationResponse blobVersion
      purpose jwt :=
    Return {| WebWallet.data :=
                value {| WebWallet.data_backupToken := Some "backup" |};
              WebWallet.error := undefined |};
|}.

Definition example_device : WebWallet.Device :=
  {| WebWallet.id := value "device-1";
     WebWallet.hardenedKeyPathPurpose := value 84%Z |}.

(** The cells once [createPasskey] has set the credential id. *)
Definition example_cells : WebWallet.State :=
  {| WebWallet.passkeyLoading := false; WebWallet.walletLoading := false;
     WebWallet.deviceUpdateLoading := false;
     WebWallet.signatureLoading := false; WebWallet.phraseLoading := false;
     WebWallet.passkeyError := None; WebWallet.walletError := None;
     WebWallet.signError := None; WebWallet.phraseError := None;
     WebWallet.credentialId := Some "Y3JlZA"; WebWallet.xPub := None;
     WebWallet.backupToken := None; WebWallet.signatureResult := None;
     WebWallet.phrase := None; WebWallet.phraseConfirmed := false |}.

(** What the export of the all-zero entropy under purpose 84 returns on
    [example_navigator]. *)
Definition example_exported : PasskeyDeviceXpubResponse :=
  {| xpub :=
       "xpub:" +:+ Base64.encode
                     (list_byte_of_string
                        "abandon abandon abandon abandon abandon abandon abandon abandon abandon abandon abandon about")
       +:+ ":m/84'";
     authenticationResponse :=
       {| id := "Y3JlZA";
          rawId := "Y3JlZA";
          response :=
            {| clientDataJSON := "e30";
               authenticatorData := "AA";
               signature := "AQ" |};
          clientExtensionResults := 1%positive;
          type := "public-key" |};
     blobVersion := V1 |}.

(** What the sanitizer returns on [example_response] and [example_store],
    and the store it leaves. *)
Definition example_sanitized : SanitizedAuthenticationResponse :=
  {| sanitizedAuthenticationResponse := example_response;
     largeBlob := Some (string_of_list_byte example_blob);
     prf := Some (Base64.encode example_prf_output) |}.

Definition sanitized_store : store :=
  <[1%positive :=
      <["largeBlob" := ExtUndefined]>
        (<["prf" := ExtUndefined]> example_extensions)]> example_store.

(** A key tree on which every derivation fails. *)
Definition underivable_bip32 : Bip32 := {|
  BIP32Interface := SymbolicNode;
  fromSeed seed :=
    {| node_seed := seed; node_path := "m"; node_is_public := false |};
  derivePath node path := Throw (TypeError "Expected BIP32Path");
  neutered node :=
    {| node_seed := node_seed node; node_path := node_path node;
       node_is_public := true |};
  toBase58 node :=
    (if node_is_public node then "xpub:" else "xprv:")
    +:+ Base64.encode (node_seed node) +:+ ":" +:+ node_path node;
|}.

(** An authenticator that holds the blob [stored]: the write of that blob
    resolves, the write of any other blob is rejected, and every read
    resolves.  With [exported_store] it hands out the blob it holds. *)
Definition holding_navigator (stored : string) : Navigator := {|
  get_largeBlob_write _ _ blob :=
    if String.eqb blob stored then Return (Some example_credential)
    else Throw (DOMException "NotAllowedError");
  get_largeBlob_read _ := Return (Some example_credential);
|}.

(** * Properties *)

(** ** Strings *)

Lemma contains_app c s t :
  contains c (s +:+ t) = contains c s || contains c t.
Proof.
  induction s as [|x s IH]; simpl; [done|].
  destruct (Ascii.eqb x c); [done | exact IH].
Qed.

Lemma contains_cons_sep c s : contains c (String c s) = true.
Proof. simpl. by rewrite Ascii.eqb_refl. Qed.

Lemma split_nonempty sep s : split sep s <> [].
Proof.
  destruct s as [|x s]; simpl; [done|].
  destruct (Ascii.eqb x sep); [done|].
  by destruct (split sep s).
Qed.

(** A string without the separator is its own single segment. *)
Lemma split_no_sep sep s : contains sep s = false -> split sep s = [s].
Proof.
  induction s as [|x s IH]; simpl; [done|].
  destruct (Ascii.eqb x sep); [done|].
  intros Hs. by rewrite (IH Hs).
Qed.

(** The first segment ends at the first separator. *)
Lemma split_first sep p rest :
  contains sep p = false ->
  split sep (p +:+ String sep rest) = p :: split sep rest.
Proof.
  induction p as [|x p IH]; simpl.
  - intros _. by rewrite Ascii.eqb_refl.
  - destruct (Ascii.eqb x sep); [done|].
    intros Hp. by rewrite (IH Hp).
Qed.

Lemma split_last_no_sep sep s : contains sep s = false -> split_last sep s = None.
Proof.
  induction s as [|x s IH]; simpl; [done|].
  destruct (Ascii.eqb x sep); [done|].
  intros Hs. by rewrite (IH Hs).
Qed.

(** The tag of [split_last] starts after the last separator. *)
Lemma split_last_app sep p tag :
  contains sep tag = false ->
  split_last sep (p +:+ String sep tag) = Some (p, tag).
Proof.
  intros Htag. induction p as [|x p IH]; simpl.
  - by rewrite (split_last_no_sep _ _ Htag), Ascii.eqb_refl.
  - by rewrite IH.
Qed.

(** ** Base64 *)

Module Base64Facts.
Import Base64.

Ltac N_divmod := zify; Z.to_euclidean_division_equations; lia.

Lemma elem_of_sextets n : n < 64 -> n ∈ sextets.
Proof.
  intros Hn. unfold sextets. apply list_elem_of_fmap.
  exists (N.to_nat n). split; [lia|].
  apply list_elem_of_In, in_seq. lia.
Qed.

Lemma digits_ok : forallb digit_ok sextets = true.
Proof. vm_compute. reflexivity. Qed.

Lemma digit_ok_lt n : n < 64 -> digit_ok n = true.
Proof.
  intros Hn. pose proof digits_ok as Hall.
  rewrite forallb_forall in Hall. apply Hall.
  apply list_elem_of_In, elem_of_sextets, Hn.
Qed.

(** Each of the 64 digits decodes to its own value. *)
Lemma sextet_digit n : n < 64 -> sextet (digit n) = Some n.
Proof.
  intros Hn. pose proof (digit_ok_lt n Hn) as Hok.
  unfold digit_ok in Hok. rewrite !andb_true_iff in Hok.
  destruct Hok as [[Hs _] _]. by apply bool_decide_eq_true in Hs.
Qed.

Lemma digit_not_pad n : n < 64 -> Ascii.eqb (digit n) pad = false.
Proof.
  intros Hn. pose proof (digit_ok_lt n Hn) as Hok.
  unfold digit_ok in Hok. rewrite !andb_true_iff in Hok.
  destruct Hok as [[_ Hp] _]. by apply negb_true_iff in Hp.
Qed.

Lemma digit_not_delimiter n :
  n < 64 -> Ascii.eqb (digit n) "."%char = false.
Proof.
  intros Hn. pose proof (digit_ok_lt n Hn) as Hok.
  unfold digit_ok in Hok. rewrite !andb_true_iff in Hok.
  destruct Hok as [_ Hd]. by apply negb_true_iff in Hd.
Qed.

Lemma byte_lt (x : byte) : Byte.to_N x < 256.
Proof. pose proof (Byte.to_N_bounded x). lia. Qed.

(** Rewrite the reassembled value of byte [x] to [x] itself. *)
Ltac decode_byte x :=
  match goal with
  | |- context [Byte.of_N ?n] =>
      replace n with (Byte.to_N x) by N_divmod; rewrite Byte.of_to_N
  end.

(** Induction on a buffer, three bytes at a time. *)
Lemma buffer_ind3 (P : Buffer -> Prop) :
  P [] -> (forall x, P [x]) -> (forall x y, P [x; y]) ->
  (forall x y z rest, P rest -> P (x :: y :: z :: rest)) ->
  forall bs, P bs.
Proof.
  intros H0 H1 H2 H3.
  fix IH 1. intros [|x [|y [|z rest]]]; [done..|].
  apply H3, IH.
Qed.

Lemma decode_pad2 c1 c2 :
  decode (String c1 (String c2 (String pad (String pad EmptyString)))) =
  (v1 ← sextet c1; v2 ← sextet c2;
   x ← Byte.of_N (v1 * 4 + v2 / 16); Some [x]).
Proof. reflexivity. Qed.

Lemma decode_pad1 c1 c2 c3 :
  Ascii.eqb c3 pad = false ->
  decode (String c1 (String c2 (String c3 (String pad EmptyString)))) =
  (v1 ← sextet c1; v2 ← sextet c2; v3 ← sextet c3;
   x ← Byte.of_N (v1 * 4 + v2 / 16);
   y ← Byte.of_N (v2 mod 16 * 16 + v3 / 4);
   Some [x; y]).
Proof. intros H3. cbn [decode]. rewrite H3. reflexivity. Qed.

Lemma decode_full c1 c2 c3 c4 rest :
  Ascii.eqb c4 pad = false ->
  decode (String c1 (String c2 (String c3 (String c4 rest)))) =
  (v1 ← sextet c1; v2 ← sextet c2; v3 ← sextet c3; v4 ← sextet c4;
   x ← Byte.of_N (v1 * 4 + v2 / 16);
   y ← Byte.of_N (v2 mod 16 * 16 + v3 / 4);
   z ← Byte.of_N (v3 mod 4 * 64 + v4);
   tl ← decode rest;
   Some (x :: y :: z :: tl)).
Proof.
  intros H4. cbn [decode]. rewrite H4, andb_false_r. reflexivity.
Qed.

(** Decoding undoes encoding, for every buffer. *)
Lemma decode_encode bs : decode (encode bs) = Some bs.
Proof.
  induction bs as [|x|x y|x y z rest IH] using buffer_ind3.
  - reflexivity.
  - pose proof (byte_lt x) as Hx.
    cbn [encode]. rewrite decode_pad2.
    rewrite !sextet_digit by N_divmod. cbn [mbind option_bind].
    decode_byte x. reflexivity.
  - pose proof (byte_lt x) as Hx. pose proof (byte_lt y) as Hy.
    cbn [encode]. rewrite decode_pad1 by (apply digit_not_pad; N_divmod).
    rewrite !sextet_digit by N_divmod. cbn [mbind option_bind].
    decode_byte x. cbn [mbind option_bind].
    decode_byte y. reflexivity.
  - pose proof (byte_lt x) as Hx. pose proof (byte_lt y) as Hy.
    pose proof (byte_lt z) as Hz.
    cbn [encode]. rewrite decode_full by (apply digit_not_pad; N_divmod).
    rewrite !sextet_digit by N_divmod. cbn [mbind option_bind].
    decode_byte x. cbn [mbind option_bind].
    decode_byte y. cbn [mbind option_bind].
    decode_byte z. cbn [mbind option_bind].
    rewrite IH. reflexivity.
Qed.

(** No character of an encoding is the delimiter of the blob format. *)
Lemma encode_no_delimiter bs :
  contains SEED_VERSION_DELIMITER (encode bs) = false.
Proof.
  unfold SEED_VERSION_DELIMITER.
  induction bs as [|x|x y|x y z rest IH] using buffer_ind3.
  - reflexivity.
  - pose proof (byte_lt x) as Hx.
    cbn [encode contains].
    rewrite !digit_not_delimiter by N_divmod. reflexivity.
  - pose proof (byte_lt x) as Hx. pose proof (byte_lt y) as Hy.
    cbn [encode contains].
    rewrite !digit_not_delimiter by N_divmod. reflexivity.
  - pose proof (byte_lt x) as Hx. pose proof (byte_lt y) as Hy.
    pose proof (byte_lt z) as Hz.
    cbn [encode contains].
    rewrite !digit_not_delimiter by N_divmod. exact IH.
Qed.

End Base64Facts.

(** ** The instances satisfy what is assumed *)

(** RFC 4648 satisfies the transport laws on every string, hence for every
    validator. *)
Lemma rfc4648_laws (validator : Bip39) : @TransportLaws validator rfc4648.
Proof.
  split; intros m _; cbn [utf8ToBase64 base64ToUtf8 rfc4648].
  - rewrite Base64Facts.decode_encode.
    by rewrite string_of_list_byte_of_string.
  - apply Base64Facts.encode_no_delimiter.
Qed.

Lemma bip39_on_vectors_laws : @Bip39Laws bip39_on_vectors.
Proof.
  split. intros s Hs. cbn [validateMnemonic bip39_on_vectors] in Hs.
  apply bool_decide_eq_true in Hs. unfold bip39_vectors in Hs.
  rewrite !elem_of_cons, elem_of_nil in Hs.
  destruct Hs as [->|[->|[->|[->|[]]]]]; vm_compute; reflexivity.
Qed.

(** ** BlobCodec *)

Section CodecFacts.
Context `{Bip39} `{EncodingUtils}.

(** What [decodeSeedPhrase] does with the first two segments of a blob that
    is not a mnemonic. *)
Lemma decodeSeedPhrase_segments blob base64Seed rest :
  validateMnemonic blob = false ->
  split SEED_VERSION_DELIMITER blob = base64Seed :: rest ->
  decodeSeedPhrase blob =
  ([], if bool_decide (rest !! 0%nat = Some (version_tag V1))
       then (seedPhrase <- base64ToUtf8 base64Seed ;;
             Return {| seedPhrase := seedPhrase; version := Some V1 |})%js
       else Throw (Error "Unsupported seed phrase version")).
Proof.
  intros Hblob Hsplit. unfold decodeSeedPhrase, isValidSeedPhrase.
  rewrite Hblob, Hsplit. cbn [lookup list_lookup default].
  by destruct (bool_decide _).
Qed.

(** A blob that contains the delimiter is not taken for a mnemonic. *)
Lemma delimited_not_mnemonic `{!Bip39Laws} p rest :
  validateMnemonic (p +:+ String SEED_VERSION_DELIMITER rest) = false.
Proof.
  destruct (validateMnemonic _) eqn:Hv; [|done].
  apply valid_mnemonic_no_delimiter in Hv.
  by rewrite contains_app, contains_cons_sep, orb_true_r in Hv.
Qed.

(** C3.  Round trip: for a valid mnemonic [m], encoding [m] at the current
    version V1 succeeds, and decoding the blob returns exactly the seed
    phrase [m] with version V1 (and logs nothing). *)
Theorem encode_decode_roundtrip `{!Bip39Laws} `{!TransportLaws} m :
  validateMnemonic m = true ->
  exists blob,
    encodeSeedPhrase m (value (version_tag BLOB_VERSION_CURRENT)) = Return blob /\
    decodeSeedPhrase blob =
    ([], Return {| seedPhrase := m; version := Some BLOB_VERSION_CURRENT |}).
Proof.
  intros Hm. unfold encodeSeedPhrase, isValidSeedPhrase. rewrite Hm.
  cbn [negb BLOB_VERSION_CURRENT version_tag]. rewrite String.eqb_refl.
  eexists. split; [reflexivity|].
  rewrite (decodeSeedPhrase_segments _ (utf8ToBase64 m) ["V1"]).
  - cbn [lookup list_lookup version_tag]. rewrite bool_decide_eq_true_2 by done.
    by rewrite base64ToUtf8_utf8ToBase64.
  - apply delimited_not_mnemonic.
  - by rewrite split_first by (by apply utf8ToBase64_no_delimiter).
Qed.

(** The default of [blobVersion] is the current version, so the round trip
    also holds when the caller omits it. *)
Lemma encodeSeedPhrase_default m :
  encodeSeedPhrase m undefined =
  encodeSeedPhrase m (value (version_tag BLOB_VERSION_CURRENT)).
Proof. reflexivity. Qed.

(** C4 (amended).  For a delimited input that is not itself a valid
    mnemonic, write [payload] for the text before the first delimiter and
    [tag] for the text between the first delimiter and the next one, or the
    end when there is no other.  Whenever [tag] is not the known version,
    whatever follows it, [decodeSeedPhrase] throws
    [Error('Unsupported seed phrase version')], logs nothing and so returns
    no seed phrase. *)
Theorem decode_unknown_version_fails payload tag tail :
  contains SEED_VERSION_DELIMITER payload = false ->
  contains SEED_VERSION_DELIMITER tag = false ->
  tail = EmptyString \/
  (exists rest, tail = String SEED_VERSION_DELIMITER rest) ->
  tag <> version_tag V1 ->
  let blob := payload +:+ String SEED_VERSION_DELIMITER (tag +:+ tail) in
  validateMnemonic blob = false ->
  decodeSeedPhrase blob =
  ([], Throw (Error "Unsupported seed phrase version")).
Proof.
  intros Hp Htag Htail Hne blob Hv.
  assert (exists segments,
            split SEED_VERSION_DELIMITER (tag +:+ tail) = tag :: segments)
    as [segments Hsplit].
  { destruct Htail as [->|[rest ->]].
    - exists [].
      assert (forall s, s +:+ EmptyString = s) as ->.
      { induction s as [|x s IH]; [done|].
        change (String x s +:+ EmptyString)
          with (String x (s +:+ EmptyString)).
        by rewrite IH. }
      by apply split_no_sep.
    - exists (split SEED_VERSION_DELIMITER rest). by apply split_first. }
  rewrite (decodeSeedPhrase_segments _ payload (tag :: segments)); [|done|].
  - cbn [lookup list_lookup]. by rewrite bool_decide_eq_false_2 by congruence.
  - unfold blob. by rewrite split_first, Hsplit.
Qed.

(** A blob without any delimiter that is not a mnemonic has no version and
    is rejected in the same way. *)
Lemma decode_no_delimiter_fails blob :
  contains SEED_VERSION_DELIMITER blob = false ->
  validateMnemonic blob = false ->
  decodeSeedPhrase blob = ([], Throw (Error "Unsupported seed phrase version")).
Proof.
  intros Hb Hv.
  rewrite (decodeSeedPhrase_segments _ blob []); [done..|].
  by apply split_no_sep.
Qed.

(** C6 (amended).  For a blob with more than one delimiter that is not
    itself a valid mnemonic, [decodeSeedPhrase] takes the segment between the
    FIRST and the SECOND delimiter as the version tag, verbatim, and what
    precedes the first delimiter as the payload; what follows the second
    delimiter is ignored. *)
Theorem decode_uses_first_two_segments payload tag rest :
  contains SEED_VERSION_DELIMITER payload = false ->
  contains SEED_VERSION_DELIMITER tag = false ->
  let blob :=
    payload +:+ String SEED_VERSION_DELIMITER
      (tag +:+ String SEED_VERSION_DELIMITER rest) in
  validateMnemonic blob = false ->
  decodeSeedPhrase blob =
  ([], if String.eqb tag (version_tag V1)
       then (seedPhrase <- base64ToUtf8 payload ;;
             Return {| seedPhrase := seedPhrase; version := Some V1 |})%js
       else Throw (Error "Unsupported seed phrase version")).
Proof.
  intros Hp Htag blob Hv.
  rewrite (decodeSeedPhrase_segments _ payload
             (tag :: split SEED_VERSION_DELIMITER rest)); [|done|].
  - cbn [lookup list_lookup].
    destruct (String.eqb_spec tag (version_tag V1)) as [->|Hne].
    + by rewrite bool_decide_eq_true_2.
    + by rewrite bool_decide_eq_false_2 by congruence.
  - unfold blob. by rewrite !split_first.
Qed.

(** C7.  A legacy unversioned blob: when the input is itself a valid
    mnemonic, [decodeSeedPhrase] does not throw; it returns the input as the
    seed phrase with no version, and writes one warning to the console. *)
Theorem decode_unversioned_mnemonic blob :
  validateMnemonic blob = true ->
  decodeSeedPhrase blob =
  ([UNVERSIONED_WARNING],
   Return {| seedPhrase := blob; version := None |}).
Proof.
  intros Hv. unfold decodeSeedPhrase, isValidSeedPhrase. by rewrite Hv.
Qed.

End CodecFacts.

(** *** The codec on concrete blobs *)

Lemma encode_decode_roundtrip_witness :
  let m :=
    "legal winner thank year wave sausage worth useful legal winner thank yellow" in
  @validateMnemonic bip39_on_vectors m = true /\
  exists blob,
    @encodeSeedPhrase bip39_on_vectors rfc4648 m (value "V1") = Return blob /\
    @decodeSeedPhrase bip39_on_vectors rfc4648 blob =
    ([], Return {| seedPhrase := m; version := Some V1 |}).
Proof.
  split; [vm_compute; reflexivity|].
  apply (@encode_decode_roundtrip bip39_on_vectors rfc4648
           bip39_on_vectors_laws (rfc4648_laws bip39_on_vectors)).
  vm_compute; reflexivity.
Defined.

Lemma decode_unknown_version_fails_witness :
  @decodeSeedPhrase bip39_on_vectors rfc4648 "YQ==.V2" =
  ([], Throw (Error "Unsupported seed phrase version")) /\
  @decodeSeedPhrase bip39_on_vectors rfc4648 "YQ==.V2.V3" =
  ([], Throw (Error "Unsupported seed phrase version")) /\
  @decodeSeedPhrase bip39_on_vectors rfc4648 "YQ==.V2.V1" =
  ([], Throw (Error "Unsupported seed phrase version")).
Proof.
  split; [|split].
  - apply (@decode_unknown_version_fails bip39_on_vectors rfc4648
             "YQ==" "V2" EmptyString);
      [reflexivity | reflexivity | by left | discriminate
      | vm_compute; reflexivity].
  - apply (@decode_unknown_version_fails bip39_on_vectors rfc4648
             "YQ==" "V2" ".V3");
      [reflexivity | reflexivity | right; by exists "V3" | discriminate
      | vm_compute; reflexivity].
  - apply (@decode_unknown_version_fails bip39_on_vectors rfc4648
             "YQ==" "V2" ".V1");
      [reflexivity | reflexivity | right; by exists "V1" | discriminate
      | vm_compute; reflexivity].
Defined.

(** C4, as stated, fails.  In ["YQ==.V1.V9"] the tag after the last delimiter
    is ["V9"] and the text after the first delimiter is ["V1.V9"]; neither is
    a known version, and the blob is not a mnemonic.  [decodeSeedPhrase]
    nevertheless returns a seed phrase, because it reads the version from the
    second segment, ["V1"], and drops the rest. *)
Lemma decode_unknown_version_counterexample :
  split_last SEED_VERSION_DELIMITER "YQ==.V1.V9" = Some ("YQ==.V1", "V9") /\
  "V9" <> version_tag V1 /\
  "V1.V9" <> version_tag V1 /\
  @validateMnemonic bip39_on_vectors "YQ==.V1.V9" = false /\
  @decodeSeedPhrase bip39_on_vectors rfc4648 "YQ==.V1.V9" =
  ([], Return {| seedPhrase := "a"; version := Some V1 |}) /\
  snd (@decodeSeedPhrase bip39_on_vectors rfc4648 "YQ==.V1.V9") <>
  Throw (Error "Unsupported seed phrase version").
Proof.
  repeat split; try (vm_compute; reflexivity); vm_compute; discriminate.
Qed.

Lemma decode_uses_first_two_segments_witness :
  @decodeSeedPhrase bip39_on_vectors rfc4648 "YQ==.V1.V2" =
  ([], Return {| seedPhrase := "a"; version := Some V1 |}).
Proof.
  apply (@decode_uses_first_two_segments bip39_on_vectors rfc4648
           "YQ==" "V1" "V2");
    [reflexivity | reflexivity | vm_compute; reflexivity].
Defined.

(** C6, as stated, fails.  ["YQ==.V1.V2"] has two delimiters and is not a
    mnemonic.  Split on the last delimiter, its version tag is ["V2"] and its
    payload ["YQ==.V1"], so decoding would reject it; [decodeSeedPhrase]
    takes ["V1"] for the tag and ["YQ=="] for the payload, and returns. *)
Lemma decode_last_delimiter_counterexample :
  split_last SEED_VERSION_DELIMITER "YQ==.V1.V2" = Some ("YQ==.V1", "V2") /\
  @validateMnemonic bip39_on_vectors "YQ==.V1.V2" = false /\
  @decode_on_last_delimiter bip39_on_vectors rfc4648 "YQ==.V1.V2" =
  Throw (Error "Unsupported seed phrase version") /\
  snd (@decodeSeedPhrase bip39_on_vectors rfc4648 "YQ==.V1.V2") =
  Return {| seedPhrase := "a"; version := Some V1 |} /\
  snd (@decodeSeedPhrase bip39_on_vectors rfc4648 "YQ==.V1.V2") <>
  @decode_on_last_delimiter bip39_on_vectors rfc4648 "YQ==.V1.V2".
Proof.
  repeat split; try (vm_compute; reflexivity); vm_compute; discriminate.
Qed.

Lemma decode_unversioned_mnemonic_witness :
  let m := "zoo zoo zoo zoo zoo zoo zoo zoo zoo zoo zoo wrong" in
  @decodeSeedPhrase bip39_on_vectors rfc4648 m =
  ([UNVERSIONED_WARNING], Return {| seedPhrase := m; version := None |}).
Proof.
  apply (@decode_unversioned_mnemonic bip39_on_vectors rfc4648).
  vm_compute; reflexivity.
Defined.

(** ** ResponseSanitizer *)

Section SanitizerFacts.
Context `{EncodingUtils}.

Lemma markers_prf (o : ExtensionResults) :
  <["largeBlob" := ExtUndefined]> (<["prf" := ExtUndefined]> o) !! "prf"
  = Some ExtUndefined.
Proof. by rewrite lookup_insert_ne, lookup_insert_eq. Qed.

Lemma markers_largeBlob (o : ExtensionResults) :
  <["largeBlob" := ExtUndefined]> (<["prf" := ExtUndefined]> o) !! "largeBlob"
  = Some ExtUndefined.
Proof. by rewrite lookup_insert_eq. Qed.

Lemma markers_frame (o : ExtensionResults) k :
  k <> "prf" -> k <> "largeBlob" ->
  <["largeBlob" := ExtUndefined]> (<["prf" := ExtUndefined]> o) !! k = o !! k.
Proof. intros Hp Hb. by rewrite !lookup_insert_ne. Qed.

(** The whole run of the sanitizer on a store that holds the extension
    object [o] of the response. *)
Lemma sanitize_run authenticationResponse support (h : store) o :
  let l := clientExtensionResults authenticationResponse in
  h !! l = Some o ->
  sanitizeAuthenticationResponse authenticationResponse support h =
  if claims_largeBlob support && is_nullish (blob_of (get_prop o "largeBlob"))
  then
    (Throw (PasskeyError
              "Failed to read large blob from large-blob-holding credential"
              FAILED_READ), h)
  else if claims_prf support && is_nullish (first_of (get_prop o "prf"))
  then
    (Throw (PasskeyError "Failed to read PRF from PRF-holding credential"
              FAILED_WRITE), h)
  else
    (Return
       {| sanitizedAuthenticationResponse :=
            {| id := id authenticationResponse;
               rawId := rawId authenticationResponse;
               response := response authenticationResponse;
               clientExtensionResults := l;
               type := type authenticationResponse |};
          largeBlob :=
            match blob_of (get_prop o "largeBlob") with
            | value buf => Some (arrayBufferToPlaintext buf)
            | _ => None
            end;
          prf :=
            match first_of (get_prop o "prf") with
            | value buf => Some (arrayBufferToBase64String buf)
            | _ => None
            end |},
     <[l := <["largeBlob" := ExtUndefined]> (<["prf" := ExtUndefined]> o)]> h).
Proof.
  intros l Hl.
  assert (Hp : forall o' : ExtensionResults,
             get_prop (<["largeBlob" := ExtUndefined]>
                         (<["prf" := ExtUndefined]> o')) "prf" = ExtUndefined)
    by (intros o'; unfold get_prop; by rewrite markers_prf).
  assert (Hb : forall o' : ExtensionResults,
             get_prop (<["largeBlob" := ExtUndefined]>
                         (<["prf" := ExtUndefined]> o')) "largeBlob"
             = ExtUndefined)
    by (intros o'; unfold get_prop; by rewrite markers_largeBlob).
  unfold sanitizeAuthenticationResponse, Heap.bind, Heap.read_object,
    Heap.write_prop, Heap.read_prop, Heap.throw_if, Heap.assert, Heap.ret,
    Heap.throw.
  fold l. rewrite Hl.
  destruct (claims_largeBlob support && _) eqn:Hblob; [reflexivity|].
  destruct (claims_prf support && _) eqn:Hprf; [reflexivity|].
  rewrite Hl, lookup_insert_eq, insert_insert_eq. cbv beta iota zeta.
  rewrite lookup_insert_eq, Hp. cbn [ext_is_undefined]. cbv beta iota zeta.
  rewrite lookup_insert_eq, Hb. reflexivity.
Qed.

End SanitizerFacts.

Section SanitizerClaims.
Context `{EncodingUtils}.

(** C1.  Whenever the capability checks pass, sanitizing returns a copy
    whose extension-results object holds the marker [undefined] under both
    the key [prf] and the key [largeBlob]: the two keys are in the map, with
    the marker as their value. *)
Theorem sanitized_copy_holds_markers authenticationResponse support
    (h : store) (o : ExtensionResults) :
  h !! clientExtensionResults authenticationResponse = Some o ->
  claims_largeBlob support && is_nullish (blob_of (get_prop o "largeBlob"))
    = false ->
  claims_prf support && is_nullish (first_of (get_prop o "prf")) = false ->
  exists r (h' : store) (o' : ExtensionResults),
    sanitizeAuthenticationResponse authenticationResponse support h
      = (Return r, h') /\
    h' !! clientExtensionResults (sanitizedAuthenticationResponse r)
      = Some o' /\
    o' !! "prf" = Some ExtUndefined /\
    o' !! "largeBlob" = Some ExtUndefined.
Proof.
  intros Hl Hblob Hprf.
  rewrite (sanitize_run _ _ _ _ Hl), Hblob, Hprf.
  eexists _, _, _. split; [reflexivity|]. cbn [sanitizedAuthenticationResponse
    clientExtensionResults]. split; [apply lookup_insert_eq|].
  split; [apply markers_prf | apply markers_largeBlob].
Qed.

(** C5 (amended).  If the profile claims [hasLargeBlob] and the blob output
    is absent, the call throws a [PasskeyError] with code [FAILED_READ]; if
    it claims [prfSupported], the PRF output is absent and the large-blob
    check did not fail, the call throws a [PasskeyError] with code
    [FAILED_WRITE].  In both cases the store is left as it was: nothing has
    been sanitized yet. *)
Theorem sanitize_validates_capabilities authenticationResponse support
    (h : store) (o : ExtensionResults) :
  h !! clientExtensionResults authenticationResponse = Some o ->
  let blob_absent := is_nullish (blob_of (get_prop o "largeBlob")) in
  let prf_absent := is_nullish (first_of (get_prop o "prf")) in
  (claims_largeBlob support = true -> blob_absent = true ->
   exists msg,
     sanitizeAuthenticationResponse authenticationResponse support h
       = (Throw (PasskeyError msg FAILED_READ), h)) /\
  (claims_prf support = true -> prf_absent = true ->
   claims_largeBlob support && blob_absent = false ->
   exists msg,
     sanitizeAuthenticationResponse authenticationResponse support h
       = (Throw (PasskeyError msg FAILED_WRITE), h)).
Proof.
  intros Hl blob_absent prf_absent. rewrite (sanitize_run _ _ _ _ Hl).
  fold blob_absent prf_absent. split.
  - intros -> ->. cbn [andb]. by eexists.
  - intros -> -> ->. cbn [andb]. by eexists.
Qed.

(** C9.  The sanitizer works in place.  When a capability check fails the
    call throws and the store is unchanged.  Otherwise the call returns; the
    returned copy refers to the very extension-results object of the
    argument; in the store that object now holds [undefined] under [prf] and
    [largeBlob], its other keys and the other objects being as before; so
    the caller's object has lost the sub-results it had. *)
Theorem sanitize_mutates_in_place authenticationResponse support
    (h : store) (o : ExtensionResults) :
  h !! clientExtensionResults authenticationResponse = Some o ->
  let l := clientExtensionResults authenticationResponse in
  let rejected :=
    (claims_largeBlob support && is_nullish (blob_of (get_prop o "largeBlob")))
    || (claims_prf support && is_nullish (first_of (get_prop o "prf"))) in
  if rejected then
    exists e,
      sanitizeAuthenticationResponse authenticationResponse support h
        = (Throw e, h)
  else
    exists r (h' : store) (o' : ExtensionResults),
      sanitizeAuthenticationResponse authenticationResponse support h
        = (Return r, h') /\
      clientExtensionResults (sanitizedAuthenticationResponse r) = l /\
      h' !! l = Some o' /\
      get_prop o' "prf" = ExtUndefined /\
      get_prop o' "largeBlob" = ExtUndefined /\
      (forall k, k <> "prf" -> k <> "largeBlob" -> o' !! k = o !! k) /\
      (forall l', l' <> l -> h' !! l' = h !! l') /\
      (get_prop o "prf" <> ExtUndefined \/ get_prop o "largeBlob" <> ExtUndefined
       -> h' <> h).
Proof.
  intros Hl l rejected. subst rejected.
  rewrite (sanitize_run _ _ _ _ Hl). fold l.
  destruct (claims_largeBlob support && _); [by eexists|].
  destruct (claims_prf support && _); [by eexists|].
  cbn [orb]. eexists _, _, _. split; [reflexivity|].
  cbn [sanitizedAuthenticationResponse clientExtensionResults].
  split; [reflexivity|]. split; [apply lookup_insert_eq|].
  split; [unfold get_prop; by rewrite markers_prf|].
  split; [unfold get_prop; by rewrite markers_largeBlob|].
  split; [intros k; apply markers_frame|].
  split; [intros l' Hne; by rewrite lookup_insert_ne|].
  intros Hhad Heq.
  assert (Hsame : <[l := <["largeBlob" := ExtUndefined]>
                           (<["prf" := ExtUndefined]> o)]> h !! l = Some o)
    by (rewrite Heq; exact Hl).
  rewrite lookup_insert_eq in Hsame. injection Hsame as Hsame.
  destruct Hhad as [Hhad|Hhad]; apply Hhad; rewrite <- Hsame;
    unfold get_prop; [by rewrite markers_prf | by rewrite markers_largeBlob].
Qed.

End SanitizerClaims.

(** *** The sanitizer on concrete responses *)

Lemma sanitized_copy_holds_markers_witness :
  exists r (h' : store) (o' : ExtensionResults),
    @sanitizeAuthenticationResponse rfc4648 example_response full_support
      example_store = (Return r, h') /\
    h' !! clientExtensionResults (sanitizedAuthenticationResponse r)
      = Some o' /\
    o' !! "prf" = Some ExtUndefined /\
    o' !! "largeBlob" = Some ExtUndefined.
Proof.
  apply (@sanitized_copy_holds_markers rfc4648 example_response full_support
           example_store example_extensions);
    vm_compute; reflexivity.
Defined.

Lemma sanitize_validates_capabilities_witness :
  (exists msg,
     @sanitizeAuthenticationResponse rfc4648 example_response full_support
       bare_store = (Throw (PasskeyError msg FAILED_READ), bare_store)) /\
  (exists msg,
     @sanitizeAuthenticationResponse rfc4648 example_response full_support
       blob_only_store = (Throw (PasskeyError msg FAILED_WRITE), blob_only_store)).
Proof.
  split.
  - refine (proj1 (@sanitize_validates_capabilities rfc4648 example_response
                     full_support bare_store ∅ _) _ _);
      vm_compute; reflexivity.
  - refine (proj2 (@sanitize_validates_capabilities rfc4648 example_response
                     full_support blob_only_store
                     (<["largeBlob" :=
                          ExtLargeBlob {| blob := value example_blob;
                                          written := undefined |}]> ∅) _)
              _ _ _);
      vm_compute; reflexivity.
Defined.

(** C5, as stated, fails in its second half.  The profile claims
    [prfSupported] and the PRF output is absent, yet the call does not fail
    with [FAILED_WRITE]: the profile also claims [hasLargeBlob], the blob is
    absent too, and that check comes first. *)
Lemma sanitize_prf_check_counterexample :
  claims_prf full_support = true /\
  bare_store !! clientExtensionResults example_response = Some ∅ /\
  is_nullish (first_of (get_prop (∅ : ExtensionResults) "prf")) = true /\
  thrown_code
    (fst (@sanitizeAuthenticationResponse rfc4648 example_response
            full_support bare_store)) = Some FAILED_READ /\
  thrown_code
    (fst (@sanitizeAuthenticationResponse rfc4648 example_response
            full_support bare_store)) <> Some FAILED_WRITE.
Proof.
  repeat split; try (vm_compute; reflexivity); vm_compute; discriminate.
Qed.

Lemma sanitize_mutates_in_place_witness :
  exists r (h' : store) (o' : ExtensionResults),
    @sanitizeAuthenticationResponse rfc4648 example_response full_support
      example_store = (Return r, h') /\
    clientExtensionResults (sanitizedAuthenticationResponse r)
      = clientExtensionResults example_response /\
    h' !! clientExtensionResults example_response = Some o' /\
    get_prop o' "prf" = ExtUndefined /\
    get_prop o' "largeBlob" = ExtUndefined /\
    (forall k, k <> "prf" -> k <> "largeBlob" ->
               o' !! k = example_extensions !! k) /\
    (forall l', l' <> clientExtensionResults example_response ->
                h' !! l' = example_store !! l') /\
    (get_prop example_extensions "prf" <> ExtUndefined \/
     get_prop example_extensions "largeBlob" <> ExtUndefined ->
     h' <> example_store).
Proof.
  refine (@sanitize_mutates_in_place rfc4648 example_response full_support
            example_store example_extensions _).
  vm_compute; reflexivity.
Defined.

(** ** CeremonyAdapter *)

Section CeremonyFacts.
Context `{EncodingUtils} `{Navigator}.

(** The run of [readLargeBlob] once the ceremony has resolved with an
    assertion whose extension results are the object [o]. *)
Lemma readLargeBlob_run options assertion (h : store) (o : ExtensionResults) :
  get_largeBlob_read options = Return (Some assertion) ->
  h !! getClientExtensionResults assertion = Some o ->
  readLargeBlob options h =
  if ext_is_nullish (get_prop o "largeBlob") then
    (Throw (PasskeyError "Unable to read large blob" FAILED_READ), h)
  else
    match blob_of (get_prop o "largeBlob") with
    | value blobBuffer =>
        if String.eqb (arrayBufferToPlaintext blobBuffer) EmptyString then
          (Throw (PasskeyError "Large blob decoded to empty string" FAILED_READ),
           h)
        else (Return (arrayBufferToPlaintext blobBuffer), h)
    | _ => (Throw (PasskeyError "Large blob empty" FAILED_READ), h)
    end.
Proof.
  intros Hget Hl.
  unfold readLargeBlob, Heap.bind, Heap.lift, Heap.read_object.
  rewrite Hget, Hl.
  destruct (ext_is_nullish _); [reflexivity|].
  destruct (blob_of _) as [| |buf]; try reflexivity.
  by destruct (String.eqb _ _).
Qed.

(** C8.  Once the ceremony has produced its extension output,
    [readLargeBlob] fails with the code [FAILED_READ] exactly when the output
    has no [largeBlob] entry, or the entry has no [blob], or the blob decodes
    to the empty string; in every other case it returns the decoded blob,
    which is not empty, and leaves the store alone. *)
Theorem readLargeBlob_failed_read_iff options assertion
    (h : store) (o : ExtensionResults) :
  get_largeBlob_read options = Return (Some assertion) ->
  h !! getClientExtensionResults assertion = Some o ->
  let entry := get_prop o "largeBlob" in
  (thrown_code (fst (readLargeBlob options h)) = Some FAILED_READ <->
   ext_is_nullish entry = true \/
   is_nullish (blob_of entry) = true \/
   exists buf, blob_of entry = value buf /\
               arrayBufferToPlaintext buf = EmptyString) /\
  (forall buf,
     blob_of entry = value buf ->
     arrayBufferToPlaintext buf <> EmptyString ->
     readLargeBlob options h = (Return (arrayBufferToPlaintext buf), h)).
Proof.
  intros Hget Hl entry. rewrite (readLargeBlob_run _ _ _ _ Hget Hl).
  fold entry. split.
  - destruct (ext_is_nullish entry) eqn:Hentry; [cbn; naive_solver|].
    destruct (blob_of entry) as [| |buf] eqn:Hblob; [cbn; naive_solver..|].
    destruct (String.eqb_spec (arrayBufferToPlaintext buf) EmptyString)
      as [Hempty|Hfull]; cbn.
    + split; [|done]. intros _. right; right. by exists buf.
    + split; [done|]. intros [?|[?|(buf' & [= <-] & Hempty)]]; done.
  - intros buf Hblob Hfull.
    assert (ext_is_nullish entry = false) as ->
      by (destruct entry; try done; by cbn in Hblob).
    rewrite Hblob.
    by destruct (String.eqb_spec (arrayBufferToPlaintext buf) EmptyString).
Qed.

(** When the ceremony itself is rejected, or resolves with no credential,
    the failure is not a [PasskeyError]. *)
Lemma readLargeBlob_ceremony_failed options (h : store) :
  (forall e, get_largeBlob_read options = Throw e ->
             readLargeBlob options h = (Throw e, h)) /\
  (get_largeBlob_read options = Return None ->
   thrown_code (fst (readLargeBlob options h)) = None).
Proof.
  unfold readLargeBlob, Heap.bind, Heap.lift.
  split; [intros e ->|intros ->]; reflexivity.
Qed.

End CeremonyFacts.

Lemma readLargeBlob_failed_read_iff_witness :
  @readLargeBlob rfc4648 example_navigator example_options example_store =
    (Return (string_of_list_byte example_blob), example_store) /\
  thrown_code
    (fst (@readLargeBlob rfc4648 example_navigator example_options bare_store))
    = Some FAILED_READ.
Proof.
  split.
  - refine (proj2 (@readLargeBlob_failed_read_iff rfc4648 example_navigator
                     example_options example_credential example_store
                     example_extensions _ _) example_blob _ _);
      try (vm_compute; reflexivity).
    vm_compute; discriminate.
  - refine (proj2 (proj1 (@readLargeBlob_failed_read_iff rfc4648
                            example_navigator example_options
                            example_credential bare_store ∅ _ _)) _);
      try (vm_compute; reflexivity).
    left. reflexivity.
Defined.

(** ** SigningEngine *)

Section SigningFacts.
Context `{CoinTable} `{CoinSigners}.

(** The known tags reach one of the two signing paths. *)
Lemma signTransaction_known_coin params :
  toUpperCase (coin params) ∈ known_coins ->
  signTransaction params = getSignedBitcoinTransaction params \/
  signTransaction params = getGnosisSafeSignature params.
Proof.
  unfold known_coins, signTransaction. rewrite !elem_of_cons, elem_of_nil.
  intros Hin.
  repeat match goal with
         | |- context [String.eqb ?a ?b] => destruct (String.eqb_spec a b)
         end; cbn; auto.
  exfalso. repeat (destruct Hin as [Hin|Hin]; [congruence|]). done.
Qed.

(** C2 (amended).  For every coin identifier whose upper-cased form is not
    one of the known tags, [signTransaction] throws a plain [Error] with an
    empty message, which carries no error code, and does nothing else. *)
Theorem signTransaction_unknown_coin params (h : store) :
  toUpperCase (coin params) ∉ known_coins ->
  signTransaction params h = (Throw (Error EmptyString), h) /\
  thrown_code (fst (signTransaction params h)) = None.
Proof.
  unfold known_coins, signTransaction.
  rewrite !not_elem_of_cons. intros (Hbtc & Htbtc & HethC & HtethC & Heth & Hteth & _).
  repeat match goal with
         | |- context [String.eqb ?a ?b] =>
             destruct (String.eqb_spec a b); [congruence|]
         end.
  split; reflexivity.
Qed.

End SigningFacts.

Lemma signTransaction_unknown_coin_witness :
  @signTransaction spec_coins example_signers (example_sign_params "doge") ∅
    = (Throw (Error EmptyString), ∅) /\
  thrown_code
    (fst (@signTransaction spec_coins example_signers
            (example_sign_params "doge") ∅)) = None.
Proof.
  apply (@signTransaction_unknown_coin spec_coins example_signers).
  refine (bool_decide_eq_false_1 _ _). vm_compute; reflexivity.
Defined.

(** C2, as stated, fails.  ["DOGE"] is none of the known tags; the call
    fails, but what it throws is [new Error()]: a value without any error
    code, so not an error of the kind [UnsupportedCoin] nor of any kind. *)
Lemma signTransaction_unknown_coin_counterexample :
  ("DOGE" ∉ @known_coins spec_coins) /\
  fst (@signTransaction spec_coins example_signers
         (example_sign_params "DOGE") ∅) = Throw (Error EmptyString) /\
  ~ (exists code,
        thrown_code
          (fst (@signTransaction spec_coins example_signers
                  (example_sign_params "DOGE") ∅)) = Some code).
Proof.
  split; [|split].
  - refine (bool_decide_eq_false_1 _ _). vm_compute; reflexivity.
  - vm_compute; reflexivity.
  - intros [code Hcode]. vm_compute in Hcode. discriminate.
Qed.

(** ** KeyDerivationEngine *)

Section KeyDerivationFacts.
Context `{Bip39} `{Bip39Seed} `{EncodingUtils} `{Navigator} `{Bip32}.

(** The run of [exportXpub] once the blob has been written. *)
Lemma exportXpub_run entropy params (h h' : store) blob response :
  encodeSeedPhrase (generateMnemonic entropy)
    (value (version_tag BLOB_VERSION_CURRENT)) = Return blob ->
  writeLargeBlob (authenticationOptions params) (credentialId params) blob h
    = (Return response, h') ->
  exportXpub entropy params h =
  if purpose_is_falsy (hardenedKeyPathPurpose params) then
    (Return {| xpub := master_xpub entropy;
               authenticationResponse := response;
               blobVersion := BLOB_VERSION_CURRENT |}, h')
  else
    match hardenedKeyPathPurpose params with
    | value purpose =>
        match hardened_subtree_xpub entropy purpose with
        | Return derived =>
            (Return {| xpub := derived;
                       authenticationResponse := response;
                       blobVersion := BLOB_VERSION_CURRENT |}, h')
        | Throw e => (Throw e, h')
        end
    | _ => (Throw (Error EmptyString), h')
    end.
Proof.
  intros Hblob Hwrite. unfold exportXpub.
  unfold Heap.bind at 1. unfold Heap.lift at 1. rewrite Hblob.
  unfold Heap.bind at 1. rewrite Hwrite.
  destruct (hardenedKeyPathPurpose params) as [| |purpose]; try reflexivity.
  cbn [purpose_is_falsy]. destruct (purpose =? 0)%Z; [reflexivity|].
  unfold hardened_subtree_xpub, Heap.bind, Heap.lift, Js.bind.
  by destruct (derivePath _ _).
Qed.

(** C10.  A purpose of [0] is treated as an absent one: the whole run is
    the same as with [undefined] or [null]; and when the blob has been
    encoded and written, the call returns the extended public key of the
    unscoped master node, whatever [derivePath] would make of [m/0']. *)
Theorem exportXpub_purpose_zero entropy options credential (h : store) :
  let params purpose :=
    {| hardenedKeyPathPurpose := purpose;
       authenticationOptions := options;
       credentialId := credential |} in
  exportXpub entropy (params (value 0%Z)) h
    = exportXpub entropy (params undefined) h /\
  exportXpub entropy (params (value 0%Z)) h
    = exportXpub entropy (params null) h /\
  forall blob response (h' : store),
    encodeSeedPhrase (generateMnemonic entropy)
      (value (version_tag BLOB_VERSION_CURRENT)) = Return blob ->
    writeLargeBlob options credential blob h = (Return response, h') ->
    exportXpub entropy (params (value 0%Z)) h =
    (Return {| xpub := master_xpub entropy;
               authenticationResponse := response;
               blobVersion := BLOB_VERSION_CURRENT |}, h').
Proof.
  intros params. split; [reflexivity|]. split; [reflexivity|].
  intros blob response h' Hblob Hwrite.
  by rewrite (exportXpub_run entropy (params (value 0%Z)) h h' blob response
                Hblob Hwrite).
Qed.

(** By contrast, a purpose other than [0] exports the hardened subtree. *)
Lemma exportXpub_purpose_nonzero entropy options credential purpose
    (h h' : store) blob response :
  purpose <> 0%Z ->
  encodeSeedPhrase (generateMnemonic entropy)
    (value (version_tag BLOB_VERSION_CURRENT)) = Return blob ->
  writeLargeBlob options credential blob h = (Return response, h') ->
  exportXpub entropy
    {| hardenedKeyPathPurpose := value purpose;
       authenticationOptions := options;
       credentialId := credential |} h =
  match hardened_subtree_xpub entropy purpose with
  | Return derived =>
      (Return {| xpub := derived;
                 authenticationResponse := response;
                 blobVersion := BLOB_VERSION_CURRENT |}, h')
  | Throw e => (Throw e, h')
  end.
Proof.
  intros Hne Hblob Hwrite.
  rewrite (exportXpub_run entropy
             {| hardenedKeyPathPurpose := value purpose;
                authenticationOptions := options;
                credentialId := credential |} h h' blob response Hblob Hwrite).
  cbn [hardenedKeyPathPurpose purpose_is_falsy].
  by destruct (Z.eqb_spec purpose 0).
Qed.

End KeyDerivationFacts.

(** ** Runs on concrete inputs *)

(** The test vectors of RFC 4648, section 10. *)
Example base64_rfc4648_vectors :
  Base64.encode (list_byte_of_string "") = "" /\
  Base64.encode (list_byte_of_string "f") = "Zg==" /\
  Base64.encode (list_byte_of_string "fo") = "Zm8=" /\
  Base64.encode (list_byte_of_string "foo") = "Zm9v" /\
  Base64.encode (list_byte_of_string "foob") = "Zm9vYg==" /\
  Base64.encode (list_byte_of_string "fooba") = "Zm9vYmE=" /\
  Base64.encode (list_byte_of_string "foobar") = "Zm9vYmFy".
Proof. repeat split; vm_compute; reflexivity. Qed.

Example base64_decode_vectors :
  Base64.decode "Zm9vYmE=" = Some (list_byte_of_string "fooba") /\
  Base64.decode "Zm9vYg==" = Some (list_byte_of_string "foob") /\
  Base64.decode "Zm9v" = Some (list_byte_of_string "foo") /\
  Base64.decode "Zm9" = None /\
  Base64.decode "Zm.v" = None.
Proof. repeat split; vm_compute; reflexivity. Qed.

Example split_examples :
  split "." "a.b.V1" = ["a"; "b"; "V1"] /\
  split "." "" = [""] /\
  split "." "V1" = ["V1"] /\
  split "." ".V1" = [""; "V1"] /\
  split "." "a." = ["a"; ""].
Proof. repeat split; vm_compute; reflexivity. Qed.

Example toUpperCase_examples :
  toUpperCase "btc" = "BTC" /\ toUpperCase "tEthC" = "TETHC" /\
  toUpperCase "eth-1" = "ETH-1".
Proof. repeat split; vm_compute; reflexivity. Qed.

(** The blob of the first reference vector, and the errors of the encoder. *)
Example encodeSeedPhrase_examples :
  @encodeSeedPhrase bip39_on_vectors rfc4648
    "abandon abandon abandon abandon abandon abandon abandon abandon abandon abandon abandon about"
    undefined = Return (string_of_list_byte example_blob) /\
  @encodeSeedPhrase bip39_on_vectors rfc4648 "correct horse battery staple"
    undefined = Throw (Error "Invalid seed phrase") /\
  @encodeSeedPhrase bip39_on_vectors rfc4648
    "zoo zoo zoo zoo zoo zoo zoo zoo zoo zoo zoo wrong" (value "V2")
    = Throw (Error "Unsupported seed phrase version").
Proof. repeat split; vm_compute; reflexivity. Qed.

(** A blob without delimiter, a blob with an empty tag and a payload that is
    not base64. *)
Example decodeSeedPhrase_examples :
  snd (@decodeSeedPhrase bip39_on_vectors rfc4648 "YQ==")
    = Throw (Error "Unsupported seed phrase version") /\
  snd (@decodeSeedPhrase bip39_on_vectors rfc4648 "YQ==.")
    = Throw (Error "Unsupported seed phrase version") /\
  snd (@decodeSeedPhrase bip39_on_vectors rfc4648 "YQ==.v1")
    = Throw (Error "Unsupported seed phrase version") /\
  snd (@decodeSeedPhrase bip39_on_vectors rfc4648 "Y.V1")
    = Throw (DOMException "InvalidCharacterError").
Proof. repeat split; vm_compute; reflexivity. Qed.

(** The sanitizer on the example response: what stays on the client, and
    what the extension object holds afterwards. *)
Example sanitize_example :
  let run :=
    @sanitizeAuthenticationResponse rfc4648 example_response full_support
      example_store in
  (largeBlob <$> returned (fst run)) = Some (Some (string_of_list_byte example_blob)) /\
  (prf <$> returned (fst run)) = Some (Some "cHJmLXNlY3JldA==") /\
  snd run !! 1%positive ≫= (.!! "prf") = Some ExtUndefined /\
  snd run !! 1%positive ≫= (.!! "largeBlob") = Some ExtUndefined /\
  snd run !! 1%positive ≫= (.!! "credProps") = Some (ExtOther "rk").
Proof. repeat split; vm_compute; reflexivity. Qed.

(** The export on the symbolic key tree: the purposes [0] and [undefined]
    give the key of the master node [m], the purpose [84] that of [m/84'];
    without a committed write nothing is exported. *)
Example exportXpub_example :
  let run purpose h :=
    @exportXpub bip39_on_vectors bip39_seed_on_vectors rfc4648
      example_navigator symbolic_bip32 (repeat x00%byte 16)
      (example_export_params purpose) h in
  let seed :=
    "YWJhbmRvbiBhYmFuZG9uIGFiYW5kb24gYWJhbmRvbiBhYmFuZG9uIGFiYW5kb24gYWJhbmRvbiBhYmFuZG9uIGFiYW5kb24gYWJhbmRvbiBhYmFuZG9uIGFib3V0" in
  (xpub <$> returned (fst (run (value 0%Z) written_store)))
    = Some ("xpub:" +:+ seed +:+ ":m") /\
  (xpub <$> returned (fst (run undefined written_store)))
    = Some ("xpub:" +:+ seed +:+ ":m") /\
  (xpub <$> returned (fst (run (value 84%Z) written_store)))
    = Some ("xpub:" +:+ seed +:+ ":m/84'") /\
  thrown_code (fst (run (value 0%Z) example_store)) = Some FAILED_WRITE.
Proof. repeat split; vm_compute; reflexivity. Qed.

(** * Properties of the rest of the package *)

(** ** Strings *)

Lemma append_nil s : EmptyString +:+ s = s.
Proof. reflexivity. Qed.

Lemma append_cons c s t : String c s +:+ t = String c (s +:+ t).
Proof. reflexivity. Qed.

Lemma append_empty_r s : s +:+ EmptyString = s.
Proof.
  induction s as [|c s IH]; [done|]. by rewrite append_cons, IH.
Qed.

Lemma append_assoc s t u : (s +:+ t) +:+ u = s +:+ (t +:+ u).
Proof.
  induction s as [|c s IH]; [done|]. by rewrite !append_cons, IH.
Qed.

Lemma append_length s t :
  String.length (s +:+ t) = (String.length s + String.length t)%nat.
Proof.
  induction s as [|c s IH]; [done|]. rewrite append_cons. simpl. by rewrite IH.
Qed.

(** Two strings with the same suffix appended are equal. *)
Lemma append_cancel_r s t u : s +:+ u = t +:+ u -> s = t.
Proof.
  revert t. induction s as [|c s IH]; intros [|d t] Heq.
  - reflexivity.
  - apply (f_equal String.length) in Heq.
    rewrite append_nil, append_cons in Heq. simpl in Heq.
    rewrite append_length in Heq. lia.
  - apply (f_equal String.length) in Heq.
    rewrite append_nil, append_cons in Heq. simpl in Heq.
    rewrite append_length in Heq. lia.
  - rewrite !append_cons in Heq. injection Heq as -> Heq.
    f_equal. by apply IH.
Qed.

Lemma contains_split_single sep s :
  split sep s = [s] -> contains sep s = false.
Proof.
  induction s as [|x s IH]; simpl; [done|].
  destruct (Ascii.eqb x sep); [intros [= ? ?]; by destruct (split_nonempty sep s)|].
  destruct (split sep s) as [|seg segs] eqn:Hs; [by destruct (split_nonempty sep s)|].
  intros [= -> ->]. by apply IH.
Qed.

(** A blob with a second segment contains the separator. *)
Lemma split_second_contains sep s seg :
  split sep s !! 1%nat = Some seg -> contains sep s = true.
Proof.
  destruct (contains sep s) eqn:Hc; [done|].
  by rewrite (split_no_sep _ _ Hc).
Qed.

(** ** BlobCodec, continued *)

Section CodecMore.
Context `{Bip39} `{EncodingUtils}.

(** What a returned blob says of the arguments. *)
Lemma encodeSeedPhrase_inv m v blob :
  encodeSeedPhrase m v = Return blob ->
  validateMnemonic m = true /\
  blob = utf8ToBase64 m +:+ String SEED_VERSION_DELIMITER (version_tag V1).
Proof.
  unfold encodeSeedPhrase, isValidSeedPhrase.
  destruct (validateMnemonic m); [|done]. cbn [negb].
  destruct v as [| |tag]; cbn [BLOB_VERSION_CURRENT version_tag]; [|done|].
  - rewrite String.eqb_refl. by intros [= <-].
  - destruct (String.eqb_spec tag "V1") as [->|]; [|done]. by intros [= <-].
Qed.

(** Decoding a blob that was encoded from a valid mnemonic. *)
Lemma decode_encoded `{!Bip39Laws} `{!TransportLaws} m :
  validateMnemonic m = true ->
  decodeSeedPhrase
    (utf8ToBase64 m +:+ String SEED_VERSION_DELIMITER (version_tag V1)) =
  ([], Return {| seedPhrase := m; version := Some V1 |}).
Proof.
  intros Hm.
  rewrite (decodeSeedPhrase_segments _ (utf8ToBase64 m) ["V1"]).
  - cbn [lookup list_lookup version_tag]. rewrite bool_decide_eq_true_2 by done.
    by rewrite base64ToUtf8_utf8ToBase64.
  - apply delimited_not_mnemonic.
  - by rewrite split_first by (by apply utf8ToBase64_no_delimiter).
Qed.

(** X1.  The outcomes of [encodeSeedPhrase]: an invalid seed phrase is
    refused with ['Invalid seed phrase'] whatever the version asked for; a
    valid one is encoded as [base64.V1] when the version is omitted or is
    ['V1'], and refused with ['Unsupported seed phrase version'] for every
    other version value. *)
Theorem encodeSeedPhrase_outcomes m v :
  (validateMnemonic m = false ->
   encodeSeedPhrase m v = Throw (Error "Invalid seed phrase")) /\
  (validateMnemonic m = true ->
   v = undefined \/ v = value (version_tag V1) ->
   encodeSeedPhrase m v =
   Return (utf8ToBase64 m +:+ String SEED_VERSION_DELIMITER (version_tag V1))) /\
  (validateMnemonic m = true ->
   v <> undefined -> v <> value (version_tag V1) ->
   encodeSeedPhrase m v = Throw (Error "Unsupported seed phrase version")).
Proof.
  unfold encodeSeedPhrase, isValidSeedPhrase. repeat split.
  - by intros ->.
  - intros -> [-> | ->]; cbn [negb BLOB_VERSION_CURRENT version_tag];
      by rewrite String.eqb_refl.
  - intros -> Hu Hv. cbn [negb]. destruct v as [| |tag]; [done..|].
    destruct (String.eqb_spec tag (version_tag V1)) as [->|]; done.
Qed.

(** X2.  Different seed phrases never get the same blob. *)
Theorem encodeSeedPhrase_no_collision `{!TransportLaws} m1 m2 v1 v2 blob1 blob2 :
  encodeSeedPhrase m1 v1 = Return blob1 ->
  encodeSeedPhrase m2 v2 = Return blob2 ->
  m1 <> m2 ->
  blob1 <> blob2.
Proof.
  intros [Hm1 ->]%encodeSeedPhrase_inv [Hm2 ->]%encodeSeedPhrase_inv Hne Heq.
  apply append_cancel_r in Heq. apply Hne.
  assert (Return m1 = Return m2) as [= ->]; [|done].
  by rewrite <- (base64ToUtf8_utf8ToBase64 m1 Hm1),
       <- (base64ToUtf8_utf8ToBase64 m2 Hm2), Heq.
Qed.

(** X3.  A blob that [encodeSeedPhrase] returns has exactly two segments,
    the transport encoding and the tag [V1], and is never itself a valid
    mnemonic: decoding it cannot take the unversioned path. *)
Theorem encoded_blob_shape `{!Bip39Laws} `{!TransportLaws} m v blob :
  encodeSeedPhrase m v = Return blob ->
  split SEED_VERSION_DELIMITER blob = [utf8ToBase64 m; version_tag V1] /\
  validateMnemonic blob = false /\
  fst (decodeSeedPhrase blob) = [].
Proof.
  intros [Hm ->]%encodeSeedPhrase_inv. split; [|split].
  - by rewrite split_first by (by apply utf8ToBase64_no_delimiter).
  - apply delimited_not_mnemonic.
  - by rewrite decode_encoded.
Qed.

(** X4.  The outcomes of [decodeSeedPhrase].  It returns without a version
    exactly on a valid mnemonic, which it returns as it is, with one
    warning; it returns with version V1 only on a blob that is not a
    mnemonic and contains the delimiter, without a warning; and when it
    throws it has logged nothing. *)
Theorem decodeSeedPhrase_outcomes blob :
  match decodeSeedPhrase blob with
  | (log, Return decoded) =>
      (version decoded = None /\ log = [UNVERSIONED_WARNING] /\
       seedPhrase decoded = blob /\ validateMnemonic blob = true) \/
      (version decoded = Some V1 /\ log = [] /\
       validateMnemonic blob = false /\
       contains SEED_VERSION_DELIMITER blob = true)
  | (log, Throw e) => log = [] /\ validateMnemonic blob = false
  end.
Proof.
  unfold decodeSeedPhrase, isValidSeedPhrase.
  destruct (validateMnemonic blob) eqn:Hv; [by left|].
  destruct (bool_decide _) eqn:Htag; cbn [negb]; [|done].
  apply bool_decide_eq_true in Htag.
  destruct (base64ToUtf8 _); cbn [Js.bind]; [|done].
  right. repeat split. by eapply split_second_contains.
Qed.

End CodecMore.

Lemma encodeSeedPhrase_no_collision_witness :
  exists blob1 blob2,
    @encodeSeedPhrase bip39_on_vectors rfc4648
      "legal winner thank year wave sausage worth useful legal winner thank yellow"
      undefined = Return blob1 /\
    @encodeSeedPhrase bip39_on_vectors rfc4648
      "zoo zoo zoo zoo zoo zoo zoo zoo zoo zoo zoo wrong" (value "V1")
      = Return blob2 /\
    blob1 <> blob2.
Proof.
  eexists _, _. split; [vm_compute; reflexivity|].
  split; [vm_compute; reflexivity|].
  apply (@encodeSeedPhrase_no_collision bip39_on_vectors rfc4648
           (rfc4648_laws _)
           "legal winner thank year wave sausage worth useful legal winner thank yellow"
           "zoo zoo zoo zoo zoo zoo zoo zoo zoo zoo zoo wrong"
           undefined (value "V1"));
    [vm_compute; reflexivity | vm_compute; reflexivity | discriminate].
Defined.

Lemma encoded_blob_shape_witness :
  let blob := string_of_list_byte example_blob in
  split SEED_VERSION_DELIMITER blob =
    [@utf8ToBase64 rfc4648
       "abandon abandon abandon abandon abandon abandon abandon abandon abandon abandon abandon about";
     "V1"] /\
  @validateMnemonic bip39_on_vectors blob = false /\
  fst (@decodeSeedPhrase bip39_on_vectors rfc4648 blob) = [].
Proof.
  apply (@encoded_blob_shape bip39_on_vectors rfc4648 bip39_on_vectors_laws
           (rfc4648_laws _)
           "abandon abandon abandon abandon abandon abandon abandon abandon abandon abandon abandon about"
           undefined).
  vm_compute; reflexivity.
Defined.

(** ** [getStoredSeed] *)

Section StoredSeedFacts.
Context `{Bip39} `{EncodingUtils} `{Navigator}.

(** The run of [getStoredSeed] once the blob has been read. *)
Lemma getStoredSeed_run options (h : store) blob :
  readLargeBlob options h = (Return blob, h) ->
  getStoredSeed options h =
  (fst (decodeSeedPhrase blob),
   (decoded <- snd (decodeSeedPhrase blob) ;; Return (seedPhrase decoded))%js,
   h).
Proof.
  intros Hread. unfold getStoredSeed, Io.bind, Io.of_heap, Io.of_console, Io.ret.
  rewrite Hread. destruct (decodeSeedPhrase blob) as [log [decoded|e]]; cbn.
  - by rewrite app_nil_r.
  - reflexivity.
Qed.

(** Reading a blob that is there and does not decode to the empty string. *)
Lemma readLargeBlob_present options assertion (h : store)
    (o : ExtensionResults) buf :
  get_largeBlob_read options = Return (Some assertion) ->
  h !! getClientExtensionResults assertion = Some o ->
  blob_of (get_prop o "largeBlob") = value buf ->
  arrayBufferToPlaintext buf <> EmptyString ->
  readLargeBlob options h = (Return (arrayBufferToPlaintext buf), h).
Proof.
  intros Hget Hl Hblob Hfull. rewrite (readLargeBlob_run _ _ _ _ Hget Hl).
  assert (ext_is_nullish (get_prop o "largeBlob") = false) as ->
    by (destruct (get_prop o "largeBlob"); try done; by cbn in Hblob).
  rewrite Hblob.
  by destruct (String.eqb_spec (arrayBufferToPlaintext buf) EmptyString).
Qed.

Lemma delimited_not_empty p rest :
  p +:+ String SEED_VERSION_DELIMITER rest <> EmptyString.
Proof. by destruct p. Qed.

(** X5.  What was written is read back: when the authenticator returns the
    bytes of the blob that [encodeSeedPhrase] made of a seed phrase,
    [getStoredSeed] returns that seed phrase, logs nothing and leaves the
    store alone. *)
Theorem getStoredSeed_reads_back `{!Bip39Laws} `{!TransportLaws}
    m v options assertion (h : store) (o : ExtensionResults) buf :
  encodeSeedPhrase m v = Return (arrayBufferToPlaintext buf) ->
  get_largeBlob_read options = Return (Some assertion) ->
  h !! getClientExtensionResults assertion = Some o ->
  blob_of (get_prop o "largeBlob") = value buf ->
  getStoredSeed options h = ([], Return m, h).
Proof.
  intros [Hm Hblob]%encodeSeedPhrase_inv Hget Hl Hbuf.
  rewrite (getStoredSeed_run _ _ (arrayBufferToPlaintext buf)).
  - by rewrite Hblob, decode_encoded.
  - apply (readLargeBlob_present _ _ _ _ _ Hget Hl Hbuf).
    rewrite Hblob. apply delimited_not_empty.
Qed.

(** X6.  The read path does not validate what it returns: whatever string
    the payload of a [payload.V1] blob transport-decodes to, valid seed
    phrase or not, is what [getStoredSeed] returns. *)
Theorem getStoredSeed_returns_payload_unvalidated
    payload decoded_payload options assertion (h : store)
    (o : ExtensionResults) buf :
  contains SEED_VERSION_DELIMITER payload = false ->
  base64ToUtf8 payload = Return decoded_payload ->
  arrayBufferToPlaintext buf =
    payload +:+ String SEED_VERSION_DELIMITER (version_tag V1) ->
  validateMnemonic (arrayBufferToPlaintext buf) = false ->
  get_largeBlob_read options = Return (Some assertion) ->
  h !! getClientExtensionResults assertion = Some o ->
  blob_of (get_prop o "largeBlob") = value buf ->
  getStoredSeed options h = ([], Return decoded_payload, h).
Proof.
  intros Hp Hdec Hblob Hv Hget Hl Hbuf.
  rewrite (getStoredSeed_run _ _ (arrayBufferToPlaintext buf)).
  - rewrite (decodeSeedPhrase_segments _ payload ["V1"] Hv).
    + cbn [lookup list_lookup version_tag fst snd].
      rewrite bool_decide_eq_true_2 by done. by rewrite Hdec.
    + by rewrite Hblob, split_first.
  - apply (readLargeBlob_present _ _ _ _ _ Hget Hl Hbuf).
    rewrite Hblob. apply delimited_not_empty.
Qed.

End StoredSeedFacts.

Lemma getStoredSeed_reads_back_witness :
  @getStoredSeed bip39_on_vectors rfc4648 example_navigator example_options
    example_store =
  ([],
   Return
     "abandon abandon abandon abandon abandon abandon abandon abandon abandon abandon abandon about",
   example_store).
Proof.
  apply (@getStoredSeed_reads_back bip39_on_vectors rfc4648 example_navigator
           bip39_on_vectors_laws (rfc4648_laws _) _ undefined example_options
           example_credential example_store example_extensions example_blob);
    vm_compute; reflexivity.
Defined.

Lemma getStoredSeed_returns_payload_unvalidated_witness :
  let h : store :=
    <[1%positive :=
        <["largeBlob" :=
            ExtLargeBlob {| blob := value (list_byte_of_string ".V1");
                            written := undefined |}]>
          (∅ : ExtensionResults)]> ∅ in
  @getStoredSeed bip39_on_vectors rfc4648 example_navigator example_options h
  = ([], Return EmptyString, h).
Proof.
  intros h.
  apply (@getStoredSeed_returns_payload_unvalidated bip39_on_vectors rfc4648
           example_navigator EmptyString EmptyString example_options
           example_credential h
           (<["largeBlob" :=
                ExtLargeBlob {| blob := value (list_byte_of_string ".V1");
                                written := undefined |}]> ∅)
           (list_byte_of_string ".V1"));
    vm_compute; reflexivity.
Defined.

(** ** ResponseSanitizer, continued *)

Section SanitizerMore.
Context `{EncodingUtils}.

(** Writing the two markers a second time changes nothing. *)
Lemma markers_idempotent (o : ExtensionResults) :
  <["largeBlob" := ExtUndefined]>
    (<["prf" := ExtUndefined]>
       (<["largeBlob" := ExtUndefined]> (<["prf" := ExtUndefined]> o)))
  = <["largeBlob" := ExtUndefined]> (<["prf" := ExtUndefined]> o).
Proof.
  apply map_eq. intros k.
  destruct (decide (k = "largeBlob")) as [->|Hb];
    [by rewrite !lookup_insert_eq|].
  rewrite (lookup_insert_ne _ "largeBlob" k) by done.
  destruct (decide (k = "prf")) as [->|Hp];
    [by rewrite lookup_insert_eq, markers_prf|].
  rewrite (lookup_insert_ne _ "prf" k) by done. reflexivity.
Qed.

(** What a returned result says of the run. *)
Lemma sanitize_returns_inv authenticationResponse support
    (h h' : store) (o : ExtensionResults) r :
  h !! clientExtensionResults authenticationResponse = Some o ->
  sanitizeAuthenticationResponse authenticationResponse support h
    = (Return r, h') ->
  sanitizedAuthenticationResponse r = authenticationResponse /\
  largeBlob r = match blob_of (get_prop o "largeBlob") with
                | value buf => Some (arrayBufferToPlaintext buf)
                | _ => None
                end /\
  prf r = match first_of (get_prop o "prf") with
          | value buf => Some (arrayBufferToBase64String buf)
          | _ => None
          end /\
  h' = <[clientExtensionResults authenticationResponse :=
           <["largeBlob" := ExtUndefined]> (<["prf" := ExtUndefined]> o)]> h.
Proof.
  intros Hl. rewrite (sanitize_run _ _ _ _ Hl).
  destruct (claims_largeBlob support && _); [done|].
  destruct (claims_prf support && _); [done|].
  intros [= <- <-]. by destruct authenticationResponse.
Qed.

(** X7.  Sanitizing is not repeatable under the same capability profile.
    After a call that returned, the extension object holds the markers, so
    a second call on the returned copy fails with [FAILED_READ] if the
    profile claims a large blob, else with [FAILED_WRITE] if it claims PRF;
    with no such claim it returns again, now without any client-side value,
    and changes nothing. *)
Theorem sanitize_again authenticationResponse support support'
    (h h' : store) (o : ExtensionResults) r :
  h !! clientExtensionResults authenticationResponse = Some o ->
  sanitizeAuthenticationResponse authenticationResponse support h
    = (Return r, h') ->
  sanitizeAuthenticationResponse (sanitizedAuthenticationResponse r) support' h'
  = if claims_largeBlob support' then
      (Throw (PasskeyError
                "Failed to read large blob from large-blob-holding credential"
                FAILED_READ), h')
    else if claims_prf support' then
      (Throw (PasskeyError "Failed to read PRF from PRF-holding credential"
                FAILED_WRITE), h')
    else
      (Return {| sanitizedAuthenticationResponse :=
                   sanitizedAuthenticationResponse r;
                 largeBlob := None;
                 prf := None |}, h').
Proof.
  intros Hl Hrun.
  destruct (sanitize_returns_inv _ _ _ _ _ _ Hl Hrun) as (-> & _ & _ & ->).
  set (l := clientExtensionResults authenticationResponse).
  set (o' := <["largeBlob" := ExtUndefined]> (<["prf" := ExtUndefined]> o)).
  assert (Hl' : <[l := o']> h !! l = Some o') by apply lookup_insert_eq.
  rewrite (sanitize_run _ _ _ _ Hl'). fold l.
  assert (get_prop o' "largeBlob" = ExtUndefined) as ->
    by (unfold get_prop, o'; by rewrite markers_largeBlob).
  assert (get_prop o' "prf" = ExtUndefined) as ->
    by (unfold get_prop, o'; by rewrite markers_prf).
  cbn [blob_of first_of is_nullish]. rewrite !andb_true_r.
  destruct (claims_largeBlob support'); [done|].
  destruct (claims_prf support'); [done|].
  unfold o'. rewrite markers_idempotent, insert_insert_eq.
  by destruct authenticationResponse.
Qed.

(** X8.  Without a claimed capability the sanitizer cannot fail; and
    whenever it returns, the copy has the fields of its argument, and the
    client-side values are the decoded blob and the encoded PRF output when
    the authenticator produced them, and are absent otherwise. *)
Theorem sanitize_hands_over_outputs authenticationResponse support
    (h : store) (o : ExtensionResults) :
  h !! clientExtensionResults authenticationResponse = Some o ->
  (claims_largeBlob support = false -> claims_prf support = false ->
   exists r h',
     sanitizeAuthenticationResponse authenticationResponse support h
       = (Return r, h')) /\
  (forall r h',
     sanitizeAuthenticationResponse authenticationResponse support h
       = (Return r, h') ->
     sanitizedAuthenticationResponse r = authenticationResponse /\
     largeBlob r = match blob_of (get_prop o "largeBlob") with
                   | value buf => Some (arrayBufferToPlaintext buf)
                   | _ => None
                   end /\
     prf r = match first_of (get_prop o "prf") with
             | value buf => Some (arrayBufferToBase64String buf)
             | _ => None
             end).
Proof.
  intros Hl. split.
  - intros Hb Hp. rewrite (sanitize_run _ _ _ _ Hl), Hb, Hp. cbn [andb].
    by eexists _, _.
  - intros r h' Hrun.
    by destruct (sanitize_returns_inv _ _ _ _ _ _ Hl Hrun) as (? & ? & ? & _).
Qed.

(** X9.  The blob travels from the authenticator to the client only: when
    the extension output holds the bytes of an encoded seed phrase, the
    sanitizer returns the blob text as its client-side value, that text
    decodes to the seed phrase, and the extension object of the copy no
    longer has a blob. *)
Theorem sanitize_then_decode `{Bip39} `{!Bip39Laws} `{!TransportLaws}
    m v authenticationResponse support (h : store) (o : ExtensionResults) buf :
  h !! clientExtensionResults authenticationResponse = Some o ->
  blob_of (get_prop o "largeBlob") = value buf ->
  encodeSeedPhrase m v = Return (arrayBufferToPlaintext buf) ->
  claims_prf support && is_nullish (first_of (get_prop o "prf")) = false ->
  exists r (h' : store) (o' : ExtensionResults),
    sanitizeAuthenticationResponse authenticationResponse support h
      = (Return r, h') /\
    largeBlob r = Some (arrayBufferToPlaintext buf) /\
    decodeSeedPhrase (arrayBufferToPlaintext buf)
      = ([], Return {| seedPhrase := m; version := Some V1 |}) /\
    h' !! clientExtensionResults (sanitizedAuthenticationResponse r) = Some o' /\
    blob_of (get_prop o' "largeBlob") = undefined.
Proof.
  intros Hl Hbuf [Hm Hblob]%encodeSeedPhrase_inv Hprf.
  rewrite (sanitize_run _ _ _ _ Hl), Hbuf, Hprf.
  cbn [is_nullish]. rewrite andb_false_r.
  eexists _, _, _. split; [reflexivity|].
  cbn [largeBlob sanitizedAuthenticationResponse clientExtensionResults].
  split; [reflexivity|]. split; [by rewrite Hblob, decode_encoded|].
  split; [apply lookup_insert_eq|].
  unfold get_prop. by rewrite markers_largeBlob.
Qed.

End SanitizerMore.

Lemma sanitize_again_witness :
  @sanitizeAuthenticationResponse rfc4648 example_response full_support
    example_store = (Return example_sanitized, sanitized_store) /\
  thrown_code
    (fst (@sanitizeAuthenticationResponse rfc4648
            (sanitizedAuthenticationResponse example_sanitized) full_support
            sanitized_store))
  = Some FAILED_READ /\
  @sanitizeAuthenticationResponse rfc4648
    (sanitizedAuthenticationResponse example_sanitized) None sanitized_store
  = (Return {| sanitizedAuthenticationResponse :=
                 sanitizedAuthenticationResponse example_sanitized;
               largeBlob := None; prf := None |}, sanitized_store).
Proof.
  assert (@sanitizeAuthenticationResponse rfc4648 example_response
            full_support example_store
          = (Return example_sanitized, sanitized_store)) as Hrun
    by (vm_compute; reflexivity).
  assert (example_store !! clientExtensionResults example_response
          = Some example_extensions) as Hl by (vm_compute; reflexivity).
  split; [exact Hrun|]. split.
  - rewrite (@sanitize_again rfc4648 example_response full_support
               full_support example_store sanitized_store example_extensions
               example_sanitized Hl Hrun).
    reflexivity.
  - exact (@sanitize_again rfc4648 example_response full_support None
             example_store sanitized_store example_extensions
             example_sanitized Hl Hrun).
Defined.

Lemma sanitize_hands_over_outputs_witness :
  exists r (h' : store),
    @sanitizeAuthenticationResponse rfc4648 example_response None
      example_store = (Return r, h') /\
    sanitizedAuthenticationResponse r = example_response /\
    largeBlob r = Some (string_of_list_byte example_blob) /\
    prf r = Some (Base64.encode example_prf_output).
Proof.
  pose proof (@sanitize_hands_over_outputs rfc4648 example_response None
                example_store example_extensions
                ltac:(vm_compute; reflexivity)) as [Hret Hout].
  destruct (Hret eq_refl eq_refl) as (r & h' & Hrun).
  exists r, h'. split; [exact Hrun|]. exact (Hout r h' Hrun).
Defined.

Lemma sanitize_then_decode_witness :
  exists r (h' : store) (o' : ExtensionResults),
    @sanitizeAuthenticationResponse rfc4648 example_response full_support
      example_store = (Return r, h') /\
    largeBlob r = Some (string_of_list_byte example_blob) /\
    @decodeSeedPhrase bip39_on_vectors rfc4648
      (string_of_list_byte example_blob)
      = ([], Return
               {| seedPhrase :=
                    "abandon abandon abandon abandon abandon abandon abandon abandon abandon abandon abandon about";
                  version := Some V1 |}) /\
    h' !! clientExtensionResults (sanitizedAuthenticationResponse r) = Some o' /\
    blob_of (get_prop o' "largeBlob") = undefined.
Proof.
  apply (@sanitize_then_decode rfc4648 bip39_on_vectors bip39_on_vectors_laws
           (rfc4648_laws _) _ undefined example_response full_support
           example_store example_extensions example_blob);
    vm_compute; reflexivity.
Defined.

(** ** CeremonyAdapter, continued *)

Section WriteFacts.
Context `{EncodingUtils} `{Navigator}.

(** The run of [writeLargeBlob] once the ceremony has resolved with an
    assertion whose extension results are the object [o]. *)
Lemma writeLargeBlob_run options credentialId blob assertion
    (h : store) (o : ExtensionResults) :
  get_largeBlob_write options credentialId blob = Return (Some assertion) ->
  h !! getClientExtensionResults assertion = Some o ->
  writeLargeBlob options credentialId blob h =
  match written_of (get_prop o "largeBlob") with
  | value true =>
      let base64UrlId :=
        base64ToBase64url (arrayBufferToBase64String (raw_rawId assertion)) in
      (Return
         {| id := base64UrlId;
            rawId := base64UrlId;
            response :=
              {| clientDataJSON :=
                   base64ToBase64url
                     (arrayBufferToBase64String
                        (raw_clientDataJSON (raw_response assertion)));
                 authenticatorData :=
                   base64ToBase64url
                     (arrayBufferToBase64String
                        (raw_authenticatorData (raw_response assertion)));
                 signature :=
                   base64ToBase64url
                     (arrayBufferToBase64String
                        (raw_signature (raw_response assertion))) |};
            clientExtensionResults := getClientExtensionResults assertion;
            type := PUBLIC_KEY_CREDENTIAL_TYPE |}, h)
  | _ => (Throw (PasskeyError "Large blob was not written" FAILED_WRITE), h)
  end.
Proof.
  intros Hget Hl.
  unfold writeLargeBlob, Heap.bind, Heap.lift, Heap.read_object.
  rewrite Hget, Hl.
  by destruct (written_of _) as [| |[|]].
Qed.

(** What a returned response says of the ceremony. *)
Lemma writeLargeBlob_returns_inv options credentialId blob
    (h h' : store) authenticationResponse :
  writeLargeBlob options credentialId blob h
    = (Return authenticationResponse, h') ->
  h' = h /\
  exists assertion (o : ExtensionResults),
    get_largeBlob_write options credentialId blob = Return (Some assertion) /\
    h !! getClientExtensionResults assertion = Some o /\
    written_of (get_prop o "largeBlob") = value true /\
    clientExtensionResults authenticationResponse
      = getClientExtensionResults assertion.
Proof.
  unfold writeLargeBlob, Heap.bind, Heap.lift, Heap.read_object, Heap.throw,
    Heap.ret.
  destruct (get_largeBlob_write _ _ _) as [[assertion|]|e]; [|done..].
  destruct (h !! getClientExtensionResults assertion) as [o|] eqn:Hl; [|done].
  destruct (written_of (get_prop o "largeBlob")) as [| |[|]] eqn:Hw; [done..| |done].
  intros [= <- <-]. split; [done|]. by exists assertion, o.
Qed.

(** X10.  Once the ceremony has produced its extension output,
    [writeLargeBlob] fails, with the code [FAILED_WRITE], exactly when the
    output does not report [largeBlob.written === true].  Otherwise it
    returns a response whose [id] and [rawId] are the same base64url text of
    the raw id, whose type is ['public-key'] and whose extension results are
    the very object of the assertion, unsanitized; the store is untouched. *)
Theorem writeLargeBlob_failed_write_iff options credentialId blob assertion
    (h : store) (o : ExtensionResults) :
  get_largeBlob_write options credentialId blob = Return (Some assertion) ->
  h !! getClientExtensionResults assertion = Some o ->
  (thrown_code (fst (writeLargeBlob options credentialId blob h))
     = Some FAILED_WRITE <->
   written_of (get_prop o "largeBlob") <> value true) /\
  (written_of (get_prop o "largeBlob") = value true ->
   exists authenticationResponse,
     writeLargeBlob options credentialId blob h
       = (Return authenticationResponse, h) /\
     id authenticationResponse = rawId authenticationResponse /\
     id authenticationResponse =
       base64ToBase64url (arrayBufferToBase64String (raw_rawId assertion)) /\
     type authenticationResponse = PUBLIC_KEY_CREDENTIAL_TYPE /\
     clientExtensionResults authenticationResponse
       = getClientExtensionResults assertion).
Proof.
  intros Hget Hl. rewrite (writeLargeBlob_run _ _ _ _ _ _ Hget Hl). split.
  - destruct (written_of _) as [| |[|]]; cbn; split; try done;
      intros Hne; by destruct Hne.
  - intros ->. by eexists.
Qed.

End WriteFacts.

Lemma writeLargeBlob_failed_write_iff_witness :
  thrown_code
    (fst (@writeLargeBlob rfc4648 example_navigator example_options "Y3JlZA"
            "blob" example_store)) = Some FAILED_WRITE /\
  exists authenticationResponse,
    @writeLargeBlob rfc4648 example_navigator example_options "Y3JlZA" "blob"
      written_store = (Return authenticationResponse, written_store) /\
    id authenticationResponse = rawId authenticationResponse /\
    id authenticationResponse = "Y3JlZA" /\
    type authenticationResponse = PUBLIC_KEY_CREDENTIAL_TYPE /\
    clientExtensionResults authenticationResponse = 1%positive.
Proof.
  split.
  - refine (proj2 (proj1 (@writeLargeBlob_failed_write_iff rfc4648
                            example_navigator example_options "Y3JlZA" "blob"
                            example_credential example_store
                            example_extensions _ _)) _);
      try (vm_compute; reflexivity).
    vm_compute; discriminate.
  - refine (proj2 (@writeLargeBlob_failed_write_iff rfc4648
                     example_navigator example_options "Y3JlZA" "blob"
                     example_credential written_store
                     (<["largeBlob" :=
                          ExtLargeBlob {| blob := undefined;
                                          written := value true |}]> ∅) _ _) _);
      vm_compute; reflexivity.
Defined.

(** ** KeyDerivationEngine, continued *)

Section ExportFacts.
Context `{Bip39} `{Bip39Seed} `{EncodingUtils} `{Bip32}.


(** X12.  [exportXpub] consults the authenticator for one thing only, the
    write of the blob it has just encoded: two authenticators that answer
    that ceremony alike give the same export, whatever else they would
    answer.  In particular the blob is never read back. *)
Theorem exportXpub_only_writes (N1 N2 : Navigator) entropy params (h : store) :
  (forall blob,
     encodeSeedPhrase (generateMnemonic entropy)
       (value (version_tag BLOB_VERSION_CURRENT)) = Return blob ->
     @get_largeBlob_write N1 (authenticationOptions params)
       (credentialId params) blob
     = @get_largeBlob_write N2 (authenticationOptions params)
         (credentialId params) blob) ->
  @exportXpub _ _ _ N1 _ entropy params h
  = @exportXpub _ _ _ N2 _ entropy params h.
Proof.
  intros Hsame. unfold exportXpub.
  unfold Heap.bind at 1 3. unfold Heap.lift at 1 3.
  destruct (encodeSeedPhrase _ _) as [blob|e] eqn:Hblob; [|done].
  unfold Heap.bind at 1 3.
  unfold writeLargeBlob, Heap.bind at 1 3, Heap.lift at 1 3.
  by rewrite (Hsame blob eq_refl).
Qed.

(** What a returning export says of the write. *)
Lemma exportXpub_returned_inv `{Navigator} entropy params (h h' : store) r :
  exportXpub entropy params h = (Return r, h') ->
  h' = h /\
  validateMnemonic (generateMnemonic entropy) = true /\
  exists assertion (o : ExtensionResults),
    get_largeBlob_write (authenticationOptions params) (credentialId params)
      (utf8ToBase64 (generateMnemonic entropy)
       +:+ String SEED_VERSION_DELIMITER (version_tag V1))
      = Return (Some assertion) /\
    h !! getClientExtensionResults assertion = Some o /\
    written_of (get_prop o "largeBlob") = value true.
Proof.
  unfold exportXpub. unfold Heap.bind at 1. unfold Heap.lift at 1.
  destruct (encodeSeedPhrase _ _) as [blob|e] eqn:Hblob; [|done].
  apply encodeSeedPhrase_inv in Hblob as [Hm ->].
  unfold Heap.bind at 1.
  destruct (writeLargeBlob _ _ _ h) as [[response|e] h1] eqn:Hwrite; [|done].
  apply writeLargeBlob_returns_inv in Hwrite
    as (-> & a & o & Hget & Hl & Hw & _).
  intros Hrun.
  assert (h' = h) as ->.
  { destruct (purpose_is_falsy _).
    - by injection Hrun as _ <-.
    - unfold Heap.bind, Heap.lift, Heap.ret in Hrun.
      destruct (derivePath _ _); [|by injection Hrun as _ <-].
      by injection Hrun as _ <-. }
  repeat split; [done|]. by exists a, o.
Qed.

(** After an export that returned, an authenticator that hands out
    whichever blob its write ceremony committed makes [getStoredSeed] return
    the mnemonic the export generated. *)
Lemma getStoredSeed_after_export `{Navigator} `{!Bip39Laws} `{!TransportLaws}
    entropy params (h h' : store) r options :
  exportXpub entropy params h = (Return r, h') ->
  (forall blob assertion (o : ExtensionResults),
     get_largeBlob_write (authenticationOptions params) (credentialId params)
       blob = Return (Some assertion) ->
     h !! getClientExtensionResults assertion = Some o ->
     written_of (get_prop o "largeBlob") = value true ->
     exists assertion' (o' : ExtensionResults) buf,
       get_largeBlob_read options = Return (Some assertion') /\
       h' !! getClientExtensionResults assertion' = Some o' /\
       blob_of (get_prop o' "largeBlob") = value buf /\
       arrayBufferToPlaintext buf = blob) ->
  getStoredSeed options h' = ([], Return (generateMnemonic entropy), h').
Proof.
  intros Hexport Hhands.
  apply exportXpub_returned_inv in Hexport
    as (-> & Hm & a & o & Hget & Hl & Hw).
  destruct (Hhands _ a o Hget Hl Hw) as (a' & o' & buf & Hread & Hl' & Hbuf & Hblob).
  rewrite (getStoredSeed_run _ _ (arrayBufferToPlaintext buf)).
  - by rewrite Hblob, decode_encoded.
  - apply (readLargeBlob_present _ _ _ _ _ Hread Hl' Hbuf).
    rewrite Hblob. apply delimited_not_empty.
Qed.



End ExportFacts.


Lemma exportXpub_only_writes_witness :
  @get_largeBlob_read example_navigator example_options
    <> @get_largeBlob_read write_only_navigator example_options /\
  @exportXpub bip39_on_vectors bip39_seed_on_vectors rfc4648
    example_navigator symbolic_bip32 (repeat x00%byte 16)
    (example_export_params (value 84%Z)) written_store
  = @exportXpub bip39_on_vectors bip39_seed_on_vectors rfc4648
      write_only_navigator symbolic_bip32 (repeat x00%byte 16)
      (example_export_params (value 84%Z)) written_store.
Proof.
  split; [discriminate|].
  apply (@exportXpub_only_writes bip39_on_vectors bip39_seed_on_vectors
           rfc4648 symbolic_bip32 example_navigator write_only_navigator).
  intros blob _. reflexivity.
Defined.



(** ** SigningEngine, continued *)

Lemma Io_bind_of_completion {A B} (c : completion A) (k : A -> Io.M B)
    (h : store) :
  Io.bind (Io.of_completion c) k h =
  match c with
  | Return a => k a h
  | Throw e => ([], Throw e, h)
  end.
Proof.
  unfold Io.bind, Io.of_completion. destruct c as [a|e]; [|done].
  by destruct (k a h) as [[log r] h'].
Qed.

Lemma Io_bind_of_heap {A B} (c : Heap.M A) (k : A -> Io.M B) (h h' : store) a :
  c h = (Return a, h') ->
  Io.bind (Io.of_heap c) k h = k a h'.
Proof.
  intros Hc. unfold Io.bind, Io.of_heap. rewrite Hc.
  by destruct (k a h') as [[log r] h''].
Qed.

Lemma Io_bind_of_console {A B} (c : list string * completion A)
    (k : A -> Io.M B) (h : store) log a :
  c = (log, Return a) ->
  Io.bind (Io.of_console c) k h =
  match k a h with
  | (log', r, h') => (log ++ log', r, h')
  end.
Proof. intros ->. reflexivity. Qed.

Lemma remove_first_unfold pattern s :
  remove_first pattern s =
  if starts_with pattern s then slice_from (String.length pattern) s
  else
    match s with
    | EmptyString => EmptyString
    | String c s' => String c (remove_first pattern s')
    end.
Proof. by destruct s. Qed.

Lemma starts_with_append p s : starts_with p (p +:+ s) = true.
Proof.
  induction p as [|c p IH]; [done|].
  rewrite append_cons. cbn [starts_with]. by rewrite Ascii.eqb_refl, IH.
Qed.

Lemma slice_from_append p s : slice_from (String.length p) (p +:+ s) = s.
Proof. induction p as [|c p IH]; [done|]. by rewrite append_cons. Qed.

(** A text that starts with the pattern loses exactly that prefix. *)
Lemma remove_first_prefix pattern s : remove_first pattern (pattern +:+ s) = s.
Proof.
  by rewrite remove_first_unfold, starts_with_append, slice_from_append.
Qed.

Section SigningMore.
Context `{Bip39} `{Bip39Seed} `{EncodingUtils} `{Navigator} `{CoinTable}.
Context `{Bip32} `{!SigningLibs}.

(** The Ethereum signer of [getSignedMessage] and its Bitcoin branch derive
    the same path. *)
Lemma message_paths_agree keyPathPurpose keyPathPurposeIsHardened
    keyPathCoinType keyPathAccount :
  PasskeyDevice.derivationPath keyPathPurpose
    (strictly_true keyPathPurposeIsHardened) keyPathCoinType keyPathAccount
    (value 0%Z)
  = PasskeyDevice.message_path keyPathPurpose keyPathPurposeIsHardened
      keyPathCoinType keyPathAccount.
Proof.
  unfold PasskeyDevice.derivationPath, PasskeyDevice.message_path.
  change (pretty 0%Z) with "0".
  destruct keyPathPurposeIsHardened as [| |[|]];
    cbn [strictly_true truthy];
    rewrite ?append_empty_r, !append_assoc; reflexivity.
Qed.

(** The run of [getSignedMessage] once the blob is read and decoded. *)
Lemma getSignedMessage_run coin keyPathPurpose keyPathPurposeIsHardened
    keyPathCoinType keyPathAccount message options (h : store)
    blob log decoded :
  readLargeBlob options h = (Return blob, h) ->
  decodeSeedPhrase blob = (log, Return decoded) ->
  PasskeyDevice.getSignedMessage coin keyPathPurpose keyPathPurposeIsHardened
    keyPathCoinType keyPathAccount message options h =
  (log,
   (node <- derivePath (fromSeed (mnemonicToSeedSync (seedPhrase decoded)))
              (PasskeyDevice.message_path keyPathPurpose
                 keyPathPurposeIsHardened keyPathCoinType keyPathAccount) ;;
    if bool_decide (coin ∈ ETH_COIN_TYPES) then
      signer <- Wallet_new (privateKey node) ;;
      preadjustedSig <- Wallet_signMessage signer (TextMessage message) ;;
      Return (remove_first "0x" preadjustedSig)
    else
      signed <- bitcoinMessage_sign message (privateKey node) ;;
      Return (Base64.encode signed))%js,
   h).
Proof.
  intros Hread Hdecode. unfold PasskeyDevice.getSignedMessage.
  rewrite (Io_bind_of_heap _ _ _ _ _ Hread).
  rewrite (Io_bind_of_console _ _ _ _ _ Hdecode).
  destruct (bool_decide (coin ∈ ETH_COIN_TYPES)).
  - unfold PasskeyDevice.ethSignerFromSeedAndPath.
    rewrite message_paths_agree, Io_bind_of_completion.
    destruct (derivePath _ _) as [node|e]; cbn [Js.bind];
      [|by rewrite app_nil_r].
    destruct (Wallet_new _) as [signer|e]; cbn [Js.bind];
      [|by rewrite app_nil_r].
    rewrite Io_bind_of_completion.
    destruct (Wallet_signMessage _ _) as [sig|e]; cbn [Js.bind Io.ret];
      by rewrite app_nil_r.
  - rewrite Io_bind_of_completion.
    destruct (derivePath _ _) as [node|e]; cbn [Js.bind];
      [|by rewrite app_nil_r].
    rewrite Io_bind_of_completion.
    destruct (bitcoinMessage_sign _ _) as [signed|e]; cbn [Js.bind Io.ret];
      by rewrite app_nil_r.
Qed.

(** X15.  [getSignedMessage] knows no unsupported coin: the identifier is
    only tested for membership in [ETH_COIN_TYPES], so any two identifiers
    outside that list, known or not, are signed alike, as a Bitcoin
    message. *)
Theorem getSignedMessage_other_coins_alike coin coin' keyPathPurpose
    keyPathPurposeIsHardened keyPathCoinType keyPathAccount message options :
  coin ∉ ETH_COIN_TYPES -> coin' ∉ ETH_COIN_TYPES ->
  PasskeyDevice.getSignedMessage coin keyPathPurpose keyPathPurposeIsHardened
    keyPathCoinType keyPathAccount message options
  = PasskeyDevice.getSignedMessage coin' keyPathPurpose
      keyPathPurposeIsHardened keyPathCoinType keyPathAccount message options.
Proof.
  intros Hc Hc'. unfold PasskeyDevice.getSignedMessage.
  by rewrite !bool_decide_eq_false_2.
Qed.

(** X16.  Both coin families sign a message with the private key of the
    same node, [m/purpose[']/coinType/account/0/0]: once the blob is read
    and decoded and that node is derived, an Ethereum coin gets the wallet
    signature of the message with the first ['0x'] removed, every other
    coin the base64 text of the Bitcoin message signature; what the decoder
    logged is the whole log. *)
Theorem getSignedMessage_signs_with_one_node coin keyPathPurpose
    keyPathPurposeIsHardened keyPathCoinType keyPathAccount message options
    (h : store) blob log decoded node :
  readLargeBlob options h = (Return blob, h) ->
  decodeSeedPhrase blob = (log, Return decoded) ->
  derivePath (fromSeed (mnemonicToSeedSync (seedPhrase decoded)))
    (PasskeyDevice.message_path keyPathPurpose keyPathPurposeIsHardened
       keyPathCoinType keyPathAccount) = Return node ->
  PasskeyDevice.getSignedMessage coin keyPathPurpose keyPathPurposeIsHardened
    keyPathCoinType keyPathAccount message options h =
  (log,
   if bool_decide (coin ∈ ETH_COIN_TYPES) then
     (signer <- Wallet_new (privateKey node) ;;
      preadjustedSig <- Wallet_signMessage signer (TextMessage message) ;;
      Return (remove_first "0x" preadjustedSig))%js
   else
     (signed <- bitcoinMessage_sign message (privateKey node) ;;
      Return (Base64.encode signed))%js,
   h).
Proof.
  intros Hread Hdecode Hnode.
  rewrite (getSignedMessage_run _ _ _ _ _ _ _ _ _ _ _ Hread Hdecode), Hnode.
  reflexivity.
Qed.

(** X17.  An Ethereum message signature is returned without its ['0x']
    prefix: when the wallet signs with ['0x' + hex], [getSignedMessage]
    returns [hex]. *)
Theorem getSignedMessage_strips_prefix coin keyPathPurpose
    keyPathPurposeIsHardened keyPathCoinType keyPathAccount message options
    (h : store) blob log decoded node signer hex :
  coin ∈ ETH_COIN_TYPES ->
  readLargeBlob options h = (Return blob, h) ->
  decodeSeedPhrase blob = (log, Return decoded) ->
  derivePath (fromSeed (mnemonicToSeedSync (seedPhrase decoded)))
    (PasskeyDevice.message_path keyPathPurpose keyPathPurposeIsHardened
       keyPathCoinType keyPathAccount) = Return node ->
  Wallet_new (privateKey node) = Return signer ->
  Wallet_signMessage signer (TextMessage message) = Return ("0x" +:+ hex) ->
  PasskeyDevice.getSignedMessage coin keyPathPurpose keyPathPurposeIsHardened
    keyPathCoinType keyPathAccount message options h
  = (log, Return hex, h).
Proof.
  intros Hcoin Hread Hdecode Hnode Hsigner Hsig.
  rewrite (getSignedMessage_run _ _ _ _ _ _ _ _ _ _ _ Hread Hdecode), Hnode.
  cbn [Js.bind]. rewrite bool_decide_eq_true_2 by done.
  rewrite Hsigner. cbn [Js.bind]. rewrite Hsig. cbn [Js.bind].
  by rewrite remove_first_prefix.
Qed.

End SigningMore.

Lemma getSignedMessage_other_coins_alike_witness :
  @PasskeyDevice.getSignedMessage bip39_on_vectors bip39_seed_on_vectors
    rfc4648 example_navigator symbolic_bip32 symbolic_signing
    "BTC" 84 (value true) 0 0 "hello" example_options
  = @PasskeyDevice.getSignedMessage bip39_on_vectors bip39_seed_on_vectors
      rfc4648 example_navigator symbolic_bip32 symbolic_signing
      "DOGE" 84 (value true) 0 0 "hello" example_options.
Proof.
  apply (@getSignedMessage_other_coins_alike bip39_on_vectors
           bip39_seed_on_vectors rfc4648 example_navigator symbolic_bip32
           symbolic_signing "BTC" "DOGE");
    refine (bool_decide_eq_false_1 _ _); vm_compute; reflexivity.
Defined.

Lemma getSignedMessage_signs_with_one_node_witness :
  let phrase :=
    "abandon abandon abandon abandon abandon abandon abandon abandon abandon abandon abandon about" in
  let key := list_byte_of_string phrase ++ list_byte_of_string "m/84'/0/0/0/0" in
  @PasskeyDevice.getSignedMessage bip39_on_vectors bip39_seed_on_vectors
    rfc4648 example_navigator symbolic_bip32 symbolic_signing
    "BTC" 84 (value true) 0 0 "hello" example_options example_store
  = ([], Return (Base64.encode (key ++ list_byte_of_string "hello")),
     example_store).
Proof.
  intros phrase key.
  apply (@getSignedMessage_signs_with_one_node bip39_on_vectors
           bip39_seed_on_vectors rfc4648 example_navigator symbolic_bip32
           symbolic_signing "BTC" 84%Z (value true) 0%Z 0%Z "hello"
           example_options example_store
           (arrayBufferToPlaintext example_blob) []
           {| seedPhrase := phrase; version := Some V1 |}
           {| node_seed := list_byte_of_string phrase;
              node_path := "m/84'/0/0/0/0"; node_is_public := false |});
    vm_compute; reflexivity.
Defined.

Lemma getSignedMessage_strips_prefix_witness :
  let phrase :=
    "abandon abandon abandon abandon abandon abandon abandon abandon abandon abandon abandon about" in
  let key := list_byte_of_string phrase ++ list_byte_of_string "m/44'/60/0/0/0" in
  @PasskeyDevice.getSignedMessage bip39_on_vectors bip39_seed_on_vectors
    rfc4648 example_navigator symbolic_bip32 symbolic_signing
    "ETH" 44 (value true) 60 0 "hello" example_options example_store
  = ([], Return (Base64.encode (key ++ list_byte_of_string "hello")),
     example_store).
Proof.
  intros phrase key.
  apply (@getSignedMessage_strips_prefix bip39_on_vectors
           bip39_seed_on_vectors rfc4648 example_navigator symbolic_bip32
           symbolic_signing "ETH" 44%Z (value true) 60%Z 0%Z "hello"
           example_options example_store
           (arrayBufferToPlaintext example_blob) []
           {| seedPhrase := phrase; version := Some V1 |}
           {| node_seed := list_byte_of_string phrase;
              node_path := "m/44'/60/0/0/0"; node_is_public := false |}
           key);
    try (vm_compute; reflexivity).
  refine (bool_decide_eq_true_1 _ _). vm_compute; reflexivity.
Defined.

Section DispatchFacts.
Context `{Bip39} `{Bip39Seed} `{EncodingUtils} `{Navigator} `{CoinTable}.
Context `{Bip32} `{!SigningLibs}.

(** The dispatch of [signTransaction] on a Bitcoin tag. *)
Lemma signTransaction_bitcoin_tag params :
  toUpperCase (coin params) = COIN_btc \/ toUpperCase (coin params) = COIN_tbtc ->
  signTransaction (H0 := passkey_signers) params
  = Io.to_heap (PasskeyDevice.getSignedBitcoinTransaction params).
Proof.
  intros Htag. unfold signTransaction.
  destruct (String.eqb_spec (toUpperCase (coin params)) COIN_btc); [done|].
  destruct (String.eqb_spec (toUpperCase (coin params)) COIN_tbtc); [done|].
  by destruct Htag.
Qed.

(** The dispatch of [signTransaction] on an Ethereum tag. *)
Lemma signTransaction_ethereum_tag params :
  toUpperCase (coin params) ∈ [COIN_ethC; COIN_tethC; COIN_eth; COIN_teth] ->
  toUpperCase (coin params) ∉ [COIN_btc; COIN_tbtc] ->
  signTransaction (H0 := passkey_signers) params
  = Io.to_heap (PasskeyDevice.getGnosisSafeSignature params).
Proof.
  intros Hin Hout. apply not_elem_of_cons in Hout as [Hbtc Hout].
  apply not_elem_of_cons in Hout as [Htbtc _]. revert Hin.
  rewrite !elem_of_cons, elem_of_nil. intros Hin. unfold signTransaction.
  repeat match goal with
         | |- context [String.eqb ?a ?b] => destruct (String.eqb_spec a b)
         end; cbn; try done.
  exfalso. repeat (destruct Hin as [Hin|Hin]; [congruence|]). done.
Qed.

(** The run of [getGnosisSafeSignature] once the Safe address is there and
    the blob is read and decoded. *)
Lemma getGnosisSafeSignature_run params (h : store) safe blob log decoded :
  safeAddress params = Some safe ->
  readLargeBlob (sign_authenticationOptions params) h = (Return blob, h) ->
  decodeSeedPhrase blob = (log, Return decoded) ->
  PasskeyDevice.getGnosisSafeSignature params h =
  (log,
   (hash <- GnosisSafe_getTransactionHash safe
              (PasskeyDevice.isTestnet (coin params)) (serverHost params)
              (token params) (toSign params) (coin params) ;;
    signer <- PasskeyDevice.ethSignerFromSeedAndPath (seedPhrase decoded)
                (keyPathPurpose params) (keyPathPurposeIsHardened params)
                (keyPathCoinType params) (keyPathAccount params)
                (match keyPathAddress params with
                 | Some address => value address
                 | None => undefined
                 end) ;;
    preadjustedSig <- Wallet_signMessage signer
                        (BinaryMessage (Buffer_from_hex (slice_from 2 hash))) ;;
    signature <- adjustSignatureForPrefix (slice_from 2 hash) preadjustedSig
                   (Wallet_address signer) ;;
    Return (OneSignature signature))%js,
   h).
Proof.
  intros Hsafe Hread Hdecode. unfold PasskeyDevice.getGnosisSafeSignature.
  rewrite Hsafe, (Io_bind_of_heap _ _ _ _ _ Hread).
  rewrite (Io_bind_of_console _ _ _ _ _ Hdecode).
  rewrite Io_bind_of_completion.
  destruct (GnosisSafe_getTransactionHash _ _ _ _ _ _) as [hash|e];
    cbn [Js.bind]; [|by rewrite app_nil_r].
  rewrite Io_bind_of_completion.
  destruct (PasskeyDevice.ethSignerFromSeedAndPath _ _ _ _ _ _) as [signer|e];
    cbn [Js.bind]; [|by rewrite app_nil_r].
  rewrite Io_bind_of_completion.
  destruct (Wallet_signMessage _ _) as [sig|e];
    cbn [Js.bind]; [|by rewrite app_nil_r].
  rewrite Io_bind_of_completion.
  destruct (adjustSignatureForPrefix _ _ _) as [signature|e];
    cbn [Js.bind Io.ret]; by rewrite app_nil_r.
Qed.

(** X18.  A Bitcoin request, whatever the case of its tag, without a PSBT
    (none, or the empty string) is refused with the plain error
    ['psbt not found'], before any ceremony: the store is as it was. *)
Theorem signTransaction_bitcoin_needs_psbt params (h : store) :
  toUpperCase (coin params) = COIN_btc \/ toUpperCase (coin params) = COIN_tbtc ->
  PasskeyDevice.psbt_is_falsy (psbt params) = true ->
  signTransaction (H0 := passkey_signers) params h
  = (Throw (Error "psbt not found"), h).
Proof.
  intros Htag Hpsbt. rewrite (signTransaction_bitcoin_tag _ Htag).
  unfold Io.to_heap, PasskeyDevice.getSignedBitcoinTransaction.
  by rewrite Hpsbt.
Qed.

(** X19.  An Ethereum request without a Safe address is refused with the
    plain error ['Safe address required for Gnosis signature'], before any
    ceremony: the store is as it was. *)
Theorem signTransaction_safe_needs_address params (h : store) :
  toUpperCase (coin params) ∈ [COIN_ethC; COIN_tethC; COIN_eth; COIN_teth] ->
  toUpperCase (coin params) ∉ [COIN_btc; COIN_tbtc] ->
  safeAddress params = None ->
  signTransaction (H0 := passkey_signers) params h
  = (Throw (Error "Safe address required for Gnosis signature"), h).
Proof.
  intros Hin Hout Hsafe. rewrite (signTransaction_ethereum_tag _ Hin Hout).
  unfold Io.to_heap, PasskeyDevice.getGnosisSafeSignature.
  by rewrite Hsafe.
Qed.

(** X20.  The PSBT is shown before the authenticator is asked: when a PSBT
    is given and parses, the first console line of
    [getSignedBitcoinTransaction] is the warning with that PSBT in base64,
    whatever happens afterwards; when it does not parse, the parser's
    exception is thrown with nothing logged and the store as it was. *)
Theorem getSignedBitcoinTransaction_logs_psbt_first params hex (h : store) :
  psbt params = Some hex -> hex <> EmptyString ->
  match Psbt_fromHex hex with
  | Return parsed =>
      exists rest r h',
        PasskeyDevice.getSignedBitcoinTransaction params h
        = (PasskeyDevice.PSBT_WARNING (Psbt_toBase64 parsed) :: rest, r, h')
  | Throw e =>
      PasskeyDevice.getSignedBitcoinTransaction params h = ([], Throw e, h)
  end.
Proof.
  intros Hpsbt Hhex. unfold PasskeyDevice.getSignedBitcoinTransaction.
  rewrite Hpsbt. cbn [PasskeyDevice.psbt_is_falsy].
  change (default EmptyString (Some hex)) with hex.
  destruct (String.eqb_spec hex EmptyString) as [|_]; [done|].
  rewrite Io_bind_of_completion.
  destruct (Psbt_fromHex hex) as [parsed|e]; [|done].
  unfold Io.bind at 1. unfold Io.warn at 1.
  match goal with
  | |- context [match ?c h with _ => _ end] => destruct (c h) as [[rest r] h']
  end.
  by exists rest, r, h'.
Qed.

(** X21.  The test-network flag is computed from the tag as the caller gave
    it, not from its upper-cased form: a request whose tag only upper-cases
    to a test-network tag is dispatched to the Safe path and asks the Safe
    service with [isTestnet = false]. *)
Theorem signTransaction_testnet_flag_is_case_sensitive params (h : store)
    safe blob log decoded :
  toUpperCase (coin params) ∈ [COIN_teth; COIN_tethC] ->
  toUpperCase (coin params) ∉ [COIN_btc; COIN_tbtc] ->
  coin params ∉ [COIN_teth; COIN_tethC] ->
  safeAddress params = Some safe ->
  readLargeBlob (sign_authenticationOptions params) h = (Return blob, h) ->
  decodeSeedPhrase blob = (log, Return decoded) ->
  signTransaction (H0 := passkey_signers) params h =
  ((hash <- GnosisSafe_getTransactionHash safe false (serverHost params)
              (token params) (toSign params) (coin params) ;;
    signer <- PasskeyDevice.ethSignerFromSeedAndPath (seedPhrase decoded)
                (keyPathPurpose params) (keyPathPurposeIsHardened params)
                (keyPathCoinType params) (keyPathAccount params)
                (match keyPathAddress params with
                 | Some address => value address
                 | None => undefined
                 end) ;;
    preadjustedSig <- Wallet_signMessage signer
                        (BinaryMessage (Buffer_from_hex (slice_from 2 hash))) ;;
    signature <- adjustSignatureForPrefix (slice_from 2 hash) preadjustedSig
                   (Wallet_address signer) ;;
    Return (OneSignature signature))%js,
   h).
Proof.
  intros Hin Hout Hraw Hsafe Hread Hdecode.
  rewrite signTransaction_ethereum_tag;
    [|revert Hin; rewrite !elem_of_cons, !elem_of_nil; tauto|done].
  unfold Io.to_heap.
  rewrite (getGnosisSafeSignature_run _ _ _ _ _ _ Hsafe Hread Hdecode).
  assert (PasskeyDevice.isTestnet (coin params) = false) as ->; [|done].
  unfold PasskeyDevice.isTestnet.
  apply not_elem_of_cons in Hraw as [Hteth Hraw].
  apply not_elem_of_cons in Hraw as [HtethC _].
  destruct (String.eqb_spec (coin params) COIN_teth); [done|].
  by destruct (String.eqb_spec (coin params) COIN_tethC).
Qed.

End DispatchFacts.

Lemma signTransaction_bitcoin_needs_psbt_witness :
  @signTransaction spec_coins example_passkey_signers
    (example_sign_params "btc") example_store
  = (Throw (Error "psbt not found"), example_store).
Proof.
  apply (@signTransaction_bitcoin_needs_psbt bip39_on_vectors
           bip39_seed_on_vectors rfc4648 example_navigator spec_coins
           symbolic_bip32 symbolic_signing (example_sign_params "btc")
           example_store).
  - left. vm_compute; reflexivity.
  - vm_compute; reflexivity.
Defined.

Lemma signTransaction_safe_needs_address_witness :
  @signTransaction spec_coins example_passkey_signers
    (example_sign_params "eth") example_store
  = (Throw (Error "Safe address required for Gnosis signature"), example_store).
Proof.
  apply (@signTransaction_safe_needs_address bip39_on_vectors
           bip39_seed_on_vectors rfc4648 example_navigator spec_coins
           symbolic_bip32 symbolic_signing (example_sign_params "eth")
           example_store).
  - refine (bool_decide_eq_true_1 _ _). vm_compute; reflexivity.
  - refine (bool_decide_eq_false_1 _ _). vm_compute; reflexivity.
  - reflexivity.
Defined.

Lemma getSignedBitcoinTransaction_logs_psbt_first_witness :
  exists rest r h',
    @PasskeyDevice.getSignedBitcoinTransaction bip39_on_vectors
      bip39_seed_on_vectors rfc4648 example_navigator symbolic_bip32
      symbolic_signing example_psbt_params example_store
    = (PasskeyDevice.PSBT_WARNING "70736274ff" :: rest, r, h').
Proof.
  apply (@getSignedBitcoinTransaction_logs_psbt_first bip39_on_vectors
           bip39_seed_on_vectors rfc4648 example_navigator symbolic_bip32
           symbolic_signing example_psbt_params "70736274ff" example_store).
  - reflexivity.
  - discriminate.
Defined.

Lemma signTransaction_testnet_flag_is_case_sensitive_witness :
  @signTransaction spec_coins example_passkey_signers example_safe_params
    example_store
  = (Return
       (OneSignature
          "0xYWJhbmRvbiBhYmFuZG9uIGFiYW5kb24gYWJhbmRvbiBhYmFuZG9uIGFiYW5kb24gYWJhbmRvbiBhYmFuZG9uIGFiYW5kb24gYWJhbmRvbiBhYmFuZG9uIGFib3V0bS80NCcvNjAvMC8wLzBjMGZmZWU="),
     example_store).
Proof.
  apply (@signTransaction_testnet_flag_is_case_sensitive bip39_on_vectors
           bip39_seed_on_vectors rfc4648 example_navigator spec_coins
           symbolic_bip32 symbolic_signing example_safe_params example_store
           "0x5afe" (arrayBufferToPlaintext example_blob) []
           {| seedPhrase :=
                "abandon abandon abandon abandon abandon abandon abandon abandon abandon abandon abandon about";
              version := Some V1 |}).
  - refine (bool_decide_eq_true_1 _ _). vm_compute; reflexivity.
  - refine (bool_decide_eq_false_1 _ _). vm_compute; reflexivity.
  - refine (bool_decide_eq_false_1 _ _). vm_compute; reflexivity.
  - reflexivity.
  - vm_compute; reflexivity.
  - vm_compute; reflexivity.
Defined.

(** ** Registration *)

Section RegistrationFacts.
Context `{EncodingUtils} `{NavigatorCreate}.

(** X22.  [createRawCredential] has three outcomes: the exception of the
    creation ceremony, unchanged; [USER_EXITED] when the ceremony resolves
    with [null]; otherwise a response whose [id] and [rawId] are the same
    base64url text of the credential's raw id, with the credential's type
    and its extension results as the browser gave them. *)
Theorem createRawCredential_outcomes (options : CreationOptions) :
  match credentials_create options with
  | Throw e => createRawCredential options = Throw e
  | Return None =>
      createRawCredential options
      = Throw (PasskeyError "Invalid registration response" USER_EXITED)
  | Return (Some credential) =>
      exists json,
        createRawCredential options = Return json /\
        Registration.json_id json = Registration.json_rawId json /\
        Registration.json_rawId json
        = base64ToBase64url
            (arrayBufferToBase64String (Registration.rawId credential)) /\
        Registration.json_type json = Registration.type credential /\
        Registration.json_clientExtensionResults json
        = Registration.getClientExtensionResults credential
  end.
Proof.
  unfold createRawCredential.
  destruct (credentials_create options) as [[credential|]|e]; cbn; [|done..].
  eexists. split; [reflexivity|]. by cbn.
Qed.

End RegistrationFacts.

(** ** [PasskeyError.toString] *)

(** X23.  Without attached data, [toString] tells errors apart: two errors
    that differ in their code or in their message print differently. *)
Theorem PasskeyError_toString_distinguishes message code message' code' :
  (code, message) <> (code', message') ->
  PasskeyError_toString message code None
  <> PasskeyError_toString message' code' None.
Proof.
  intros Hne Heq. apply Hne. clear Hne.
  unfold PasskeyError_toString in Heq. rewrite !append_empty_r in Heq.
  destruct code, code'; cbv in Heq; congruence.
Qed.

Lemma PasskeyError_toString_distinguishes_witness :
  PasskeyError_toString "No large blob found." FAILED_READ None
  <> PasskeyError_toString "No large blob found." FAILED_WRITE None.
Proof.
  apply (PasskeyError_toString_distinguishes
           "No large blob found." FAILED_READ "No large blob found." FAILED_WRITE).
  discriminate.
Defined.

(** X24.  With attached data [toString] is ambiguous: an error whose message
    ends in ['-'] and a JSON text prints like the error with the shorter
    message that carries that JSON as its data. *)
Theorem PasskeyError_toString_ambiguous message code json :
  PasskeyError_toString (message +:+ "-" +:+ json) code None
  = PasskeyError_toString message code (Some json).
Proof.
  unfold PasskeyError_toString.
  by rewrite append_empty_r, !append_assoc.
Qed.

(** ** The web wallet provider *)

(** Joining the segments of a split with the separator gives the string
    back. *)
Lemma join_split sep s : join sep (split sep s) = s.
Proof.
  induction s as [|x s IH]; [done|]. cbn [split].
  pose proof (split_nonempty sep s) as Hne.
  destruct (Ascii.eqb_spec x sep) as [->|_].
  - destruct (split sep s) as [|seg segs]; [done|].
    cbn [join] in *. by rewrite append_nil, IH.
  - destruct (split sep s) as [|seg segs]; [done|].
    destruct segs as [|seg' segs]; cbn [join] in *.
    + by rewrite IH.
    + by rewrite append_cons, IH.
Qed.

(** Closes a leaf of a case analysis on a run of the provider. *)
Ltac provider_done st :=
  cbv beta iota zeta;
  lazymatch goal with
  | |- _ = WebWallet.Build_Run _ _ _ _ -> _ => intros ->
  end;
  destruct st;
  cbv [WebWallet.setPhrase WebWallet.setPhraseError
       WebWallet.setPhraseLoading WebWallet.setWalletLoading
       WebWallet.setDeviceUpdateLoading WebWallet.setWalletError
       WebWallet.setXPub WebWallet.setBackupToken
       WebWallet.state WebWallet.result
       WebWallet.passkeyLoading WebWallet.walletLoading
       WebWallet.deviceUpdateLoading WebWallet.signatureLoading
       WebWallet.phraseLoading WebWallet.passkeyError WebWallet.walletError
       WebWallet.signError WebWallet.phraseError WebWallet.credentialId
       WebWallet.xPub WebWallet.backupToken WebWallet.signatureResult
       WebWallet.phrase WebWallet.phraseConfirmed];
  split;
  [ repeat eexists
  | first [ done
          | left; by eexists
          | right; repeat split; by eauto
          | repeat split; by eauto ] ].

Section ProviderFacts.
Context `{Bip39} `{Bip39Seed} `{EncodingUtils} `{Navigator} `{Bip32}.
Context `{WebWallet.WebImports}.

(** X25.  A run of [getSeedPhrase] touches three cells only, the phrase,
    its error and its loading flag, and ends in one of three ways.  When
    its promise resolves, either an error is set and the phrase is the one
    there was before, or no error is set, the phrase is a string split on
    the spaces, and the loading flag is still on: no path that sets a
    phrase clears it.  When the promise rejects, the flag is on, no error
    is set and the phrase is the one there was before. *)
Theorem getSeedPhrase_outcomes jwt deviceId device st (h : store) :
  let run := WebWallet.getSeedPhrase jwt deviceId device st h in
  (exists loading error phrase,
     WebWallet.state run
     = WebWallet.setPhrase phrase
         (WebWallet.setPhraseError error
            (WebWallet.setPhraseLoading loading st))) /\
  match WebWallet.result run with
  | Return _ =>
      (exists e, WebWallet.phraseError (WebWallet.state run) = Some e /\
                 WebWallet.phrase (WebWallet.state run) = WebWallet.phrase st)
      \/
      (WebWallet.phraseError (WebWallet.state run) = None /\
       WebWallet.phraseLoading (WebWallet.state run) = true /\
       exists seed,
         WebWallet.phrase (WebWallet.state run) = Some (split " " seed))
  | Throw _ =>
      WebWallet.phraseError (WebWallet.state run) = None /\
      WebWallet.phraseLoading (WebWallet.state run) = true /\
      WebWallet.phrase (WebWallet.state run) = WebWallet.phrase st
  end.
Proof.
  intros run.
  assert (run = WebWallet.getSeedPhrase jwt deviceId device st h) as Hrun
    by reflexivity.
  clearbody run. revert Hrun. unfold WebWallet.getSeedPhrase.
  destruct jwt as [| |jwt]; [provider_done st..|].
  destruct (_ && _); [provider_done st|].
  destruct (WebWallet.efwAsync _) as [signOptionsError signOptionsResult].
  destruct signOptionsError as [| |e], signOptionsResult as [| |res];
    try provider_done st.
  all: destruct (is_nullish (WebWallet.error res)); try provider_done st.
  all: destruct (WebWallet.data res) as [| |signOptions];
    try provider_done st.
  all: destruct (getStoredSeed _ h) as [[log readSeed] h'].
  all: destruct (WebWallet.efwAsync readSeed) as [readError seed].
  all: destruct readError as [| |e'], seed as [| |seed]; provider_done st.
Qed.

(** X26.  A run of [createWallet] changes at most five cells: the wallet
    loading flag, the device-update flag, the wallet error, the key and the
    backup token.  When its promise resolves, either an error is set and
    the key and the backup token are the ones there were before, or no
    error is set, a key is set, the wallet loading flag is off and the
    device-update flag is still on: the path that sets the key never clears
    it.  When the promise rejects, the wallet loading flag is on, no error
    is set and the key is the one there was before. *)
Theorem createWallet_outcomes entropy jwt deviceId device st (h : store) :
  let run := WebWallet.createWallet entropy jwt deviceId device st h in
  (exists walletLoading deviceUpdateLoading walletError xPub backupToken,
     WebWallet.state run
     = WebWallet.setWalletLoading walletLoading
         (WebWallet.setDeviceUpdateLoading deviceUpdateLoading
            (WebWallet.setWalletError walletError
               (WebWallet.setXPub xPub
                  (WebWallet.setBackupToken backupToken st))))) /\
  match WebWallet.result run with
  | Return _ =>
      (exists e, WebWallet.walletError (WebWallet.state run) = Some e /\
                 WebWallet.xPub (WebWallet.state run) = WebWallet.xPub st /\
                 WebWallet.backupToken (WebWallet.state run)
                 = WebWallet.backupToken st)
      \/
      (WebWallet.walletError (WebWallet.state run) = None /\
       WebWallet.walletLoading (WebWallet.state run) = false /\
       WebWallet.deviceUpdateLoading (WebWallet.state run) = true /\
       exists key, WebWallet.xPub (WebWallet.state run) = Some key)
  | Throw _ =>
      WebWallet.walletError (WebWallet.state run) = None /\
      WebWallet.walletLoading (WebWallet.state run) = true /\
      WebWallet.xPub (WebWallet.state run) = WebWallet.xPub st
  end.
Proof.
  intros run.
  assert (run = WebWallet.createWallet entropy jwt deviceId device st h)
    as Hrun by reflexivity.
  clearbody run. revert Hrun. unfold WebWallet.createWallet.
  destruct jwt as [| |jwt]; [provider_done st..|].
  destruct (WebWallet.credentialId st) as [credential|]; [|provider_done st].
  destruct device as [device|]; [|provider_done st].
  destruct (WebWallet.efwAsync _) as [authOptionsError authOptionsResult].
  destruct authOptionsError as [| |e], authOptionsResult as [| |res];
    try provider_done st.
  all: destruct (WebWallet.data res) as [| |authOptions];
    try provider_done st.
  all: destruct (exportXpub _ _ h) as [xPubExport h'].
  all: destruct (WebWallet.efwAsync xPubExport) as [xPubError exported].
  all: destruct xPubError as [| |e'], exported as [| |exported];
    try provider_done st.
  all: destruct (WebWallet.efwAsync _) as [addWalletError addWalletResult].
  all: destruct addWalletError as [| |e''], addWalletResult as [| |res'];
    try provider_done st.
  all: destruct (is_nullish (WebWallet.error res')); provider_done st.
Qed.

(** The run of [createWallet] when every step succeeds. *)
Lemma createWallet_success entropy jwt deviceId device credential st
    (h h' : store) authResult authOptions exported updateResult :
  WebWallet.credentialId st = Some credential ->
  (forall (A : Type) (a : A),
     exists e, WebWallet.efwAsync (Return a) = (e, value a) /\
               is_nullish e = true) ->
  WebWallet.getAuthOptions credential WebWallet.PASSKEY_PURPOSE
    = Return authResult ->
  WebWallet.data authResult = value authOptions ->
  exportXpub entropy
    (Build_ExportXpubParams (WebWallet.hardenedKeyPathPurpose device)
       (WebWallet.options authOptions) credential) h
    = (Return exported, h') ->
  WebWallet.addWallet deviceId (xpub exported) (WebWallet.token authOptions)
    (authenticationResponse exported) (blobVersion exported)
    (WebWallet.hardenedKeyPathPurpose device) jwt = Return updateResult ->
  is_nullish (WebWallet.error updateResult) = true ->
  WebWallet.createWallet entropy (value jwt) deviceId (Some device) st h
  = {| WebWallet.state :=
         WebWallet.setWalletLoading false
           (WebWallet.setBackupToken
              (match WebWallet.data updateResult with
               | value d => WebWallet.data_backupToken d
               | _ => None
               end)
              (WebWallet.setXPub (Some (xpub exported))
                 (WebWallet.setDeviceUpdateLoading true
                    (WebWallet.setWalletLoading true
                       (WebWallet.setWalletError None st)))));
       WebWallet.console := [];
       WebWallet.result := Return tt;
       WebWallet.heap := h' |}.
Proof.
  intros Hcred Hwrap Hauth Hdata Hexport Hadd Hok.
  unfold WebWallet.createWallet. rewrite Hcred, Hauth.
  destruct (Hwrap _ authResult) as (e1 & -> & He1).
  rewrite Hdata, Hexport.
  destruct (Hwrap _ exported) as (e2 & -> & He2).
  rewrite Hadd.
  destruct (Hwrap _ updateResult) as (e3 & -> & He3).
  rewrite Hok.
  by destruct e1, e2, e3.
Qed.

(** The run of [getSeedPhrase] when every step succeeds. *)
Lemma getSeedPhrase_success jwt deviceId device st (h : store)
    signResult signOptions seed :
  WebWallet.credentialId st <> None \/ deviceId <> None ->
  (forall (A : Type) (a : A),
     exists e, WebWallet.efwAsync (Return a) = (e, value a) /\
               is_nullish e = true) ->
  WebWallet.getSignOptions (WebWallet.device_id_or device deviceId)
    (default jwt (WebWallet.backupToken st)) = Return signResult ->
  is_nullish (WebWallet.error signResult) = true ->
  WebWallet.data signResult = value signOptions ->
  getStoredSeed (WebWallet.options signOptions) h = ([], Return seed, h) ->
  WebWallet.getSeedPhrase (value jwt) deviceId device st h
  = {| WebWallet.state :=
         WebWallet.setPhrase (Some (split " " seed))
           (WebWallet.setPhraseError None
              (WebWallet.setPhraseLoading true st));
       WebWallet.console := [];
       WebWallet.result := Return tt;
       WebWallet.heap := h |}.
Proof.
  intros Hid Hwrap Hsign Hok Hdata Hseed.
  unfold WebWallet.getSeedPhrase.
  assert (bool_decide (WebWallet.credentialId st = None)
          && bool_decide (deviceId = None) = false) as ->.
  { destruct Hid as [Hid|Hid].
    - by rewrite (bool_decide_eq_false_2 _ Hid).
    - rewrite (bool_decide_eq_false_2 _ Hid). apply andb_false_r. }
  rewrite Hsign.
  destruct (Hwrap _ signResult) as (e1 & -> & He1).
  rewrite Hok, Hdata, Hseed.
  destruct (Hwrap _ seed) as (e2 & -> & He2).
  by destruct e1, e2.
Qed.


End ProviderFacts.

